(** * EXCEL-Agent: the agent loop and the tool dispatcher

    A shallow embedding of [agent.run_agent_task], [tools.execute_tool] and
    the entry sequence of the [processor] tools (argument binding and
    [_get_safe_path]), with the properties of the design document proved or
    refuted on it.

    Conventions.
    - Python objects that travel between the LLM, the loop and the tools are
      JSON-shaped: [value].  A [dict] keeps its insertion order, as in
      Python, and is an association list whose keys are pairwise distinct.
    - Python exceptions are values of [exn]; every exception of the model is
      an instance of [Exception], so [except Exception] catches all of them.
    - The remote LLM, [json.loads], [json.dumps], [str()] on non-strings,
      the clock, the encoding of the console and the pandas/openpyxl bodies
      of the tools are external to the repository: they are the fields of
      [Host].
    - [os.path] is [posixpath].
    - The characters of a string are code points: the codes below 128 are
      the ASCII characters, the others stand for the characters outside
      ASCII.
    - [print(text)] writes to [sys.stdout], an open text stream whose
      encoding has the ASCII characters.  What appears on the console is
      not part of the state; the call is modelled by what it can do to the
      run: it raises [UnicodeEncodeError] when the encoding of the stream
      lacks a character of the text.  [traceback.print_exc] writes to
      [sys.stderr], which escapes what it cannot encode and does not
      raise. *)

From Stdlib Require Import String Ascii List ZArith Lia Bool Floats DecimalString.
Import ListNotations.
Open Scope string_scope.

Set Warnings "-register-all".

(** ** Python values *)

Inductive value : Type :=
| VNone
| VBool (b : bool)
| VInt (z : Z)
| VFloat (f : float)
| VStr (s : string)
| VList (l : list value)
| VDict (d : list (string * value)).

Definition pydict : Type := list (string * value).

(** [type(v).__name__] *)
Definition type_name (v : value) : string :=
  match v with
  | VNone => "NoneType"
  | VBool _ => "bool"
  | VInt _ => "int"
  | VFloat _ => "float"
  | VStr _ => "str"
  | VList _ => "list"
  | VDict _ => "dict"
  end.

(** [bool(v)], the test behind [if not tool_call]. *)
Definition truthy (v : value) : bool :=
  match v with
  | VNone => false
  | VBool b => b
  | VInt z => negb (Z.eqb z 0)
  | VFloat f => negb (PrimFloat.eqb f 0%float)
  | VStr s => negb (String.eqb s "")
  | VList l => match l with [] => false | _ => true end
  | VDict d => match d with [] => false | _ => true end
  end.

(** ** Exceptions *)

Inductive exn_class : Type :=
| TypeError
| ValueError
| AttributeError
| KeyError
| UnicodeEncodeError
| BaseError            (* a plain [Exception(...)] *)
| HostError (name : string).  (* any other subclass of Exception raised by a library *)

Record exn : Type := mk_exn { exn_kind : exn_class; exn_msg : string }.

Inductive pyres (A : Type) : Type :=
| Ok (a : A)
| Raise (e : exn).
Arguments Ok {A} a.
Arguments Raise {A} e.

(** ** Strings *)

Definition dquote : string := String "034"%char EmptyString.
Definition newline : string := String "010"%char EmptyString.

(** [sub in s] on two strings. *)
Fixpoint contains (sub s : string) : bool :=
  String.prefix sub s ||
  match s with
  | EmptyString => false
  | String _ s' => contains sub s'
  end.

(** [s.startswith(p)] and [s.endswith(c)] for a one-character [c]. *)
Definition startswith (p s : string) : bool := String.prefix p s.

Fixpoint ends_with_char (c : ascii) (s : string) : bool :=
  match s with
  | EmptyString => false
  | String a EmptyString => Ascii.eqb a c
  | String _ s' => ends_with_char c s'
  end.

(** The character is an ASCII one, and the text is made of such. *)
Definition is_ascii (c : ascii) : bool :=
  match c with Ascii _ _ _ _ _ _ _ b7 => negb b7 end.

Fixpoint ascii_text (s : string) : bool :=
  match s with
  | EmptyString => true
  | String c s' => is_ascii c && ascii_text s'
  end.

Definition str_of_Z (z : Z) : string := NilZero.string_of_int (Z.to_int z).
Definition str_of_nat (n : nat) : string := NilEmpty.string_of_uint (Nat.to_uint n).

(** ** Dictionaries (insertion ordered, first binding of a key is the binding) *)

Section Dict.
Context {V : Type}.

Fixpoint dict_get (k : string) (d : list (string * V)) : option V :=
  match d with
  | [] => None
  | (k', v) :: d' => if String.eqb k k' then Some v else dict_get k d'
  end.

Definition dict_mem (k : string) (d : list (string * V)) : bool :=
  match dict_get k d with Some _ => true | None => false end.

(** [d[k] = v]: overwrite in place, or append a new key at the end. *)
Fixpoint dict_set (k : string) (v : V) (d : list (string * V)) : list (string * V) :=
  match d with
  | [] => [(k, v)]
  | (k', v') :: d' =>
      if String.eqb k k' then (k, v) :: d' else (k', v') :: dict_set k v d'
  end.

(** [{**a, **b}] *)
Definition dict_merge (a b : list (string * V)) : list (string * V) :=
  fold_left (fun acc kv => dict_set (fst kv) (snd kv) acc) b a.

(** [{k: v for k, v in d.items() if p(k)}] *)
Definition dict_filter_keys (p : string -> bool) (d : list (string * V)) : list (string * V) :=
  filter (fun kv => p (fst kv)) d.

Definition dict_keys (d : list (string * V)) : list string := map fst d.
End Dict.

(** [k in names] for a list of names. *)
Definition name_in (k : string) (names : list string) : bool :=
  existsb (String.eqb k) names.

(** ** Conversation turns *)

(** [{"role": ..., "content": ...}] *)
Record turn : Type := mk_turn { role : string; content : string }.

(** ** The external world *)

(** What the repository calls but does not define.  [world] is everything
    outside the interpreter's heap: the file system, the clock, the remote
    model. *)
Class Host : Type := {
  world : Type;
  (** [client.chat.completions.create(...).choices[0].message.content] *)
  llm_complete : list turn -> world -> pyres string * world;
  (** [json.loads] and [json.dumps] *)
  json_loads : string -> pyres value;
  json_dumps : value -> pyres string;
  (** [str(v)] for a [v] that is not a [str] *)
  str_other : value -> string;
  (** [int(time.time())] *)
  time_now : world -> Z;
  (** [json.dumps(tools.get_tool_schemas(), indent=2)] *)
  tools_schema_str : string;
  (** the [try:] block of the tool of that name, run on the bound
      arguments and, for a write tool, on [final_output_path] *)
  tool_body : string -> pydict -> option string -> world -> pyres value * world;
  (** the encoding of [sys.stdout] has this character outside ASCII *)
  stdout_encodes : ascii -> bool;
  (** [json.dumps] escapes every character outside ASCII (its default,
      [ensure_ascii]) *)
  json_dumps_ascii : forall v s, json_dumps v = Ok s -> ascii_text s = true;
  (** the messages of the errors of [json] are ASCII text: a fixed phrase
      with a position ([json.loads]) or with the name of a type
      ([json.dumps]) *)
  json_dumps_error_ascii :
    forall v e, json_dumps v = Raise e -> ascii_text (exn_msg e) = true;
  json_loads_error_ascii :
    forall s e, json_loads s = Raise e -> ascii_text (exn_msg e) = true
}.

(** ** Python operators on values *)

Section Operators.
Context {H : Host}.

(** [f"{v}"] *)
Definition py_str (v : value) : string :=
  match v with
  | VStr s => s
  | _ => str_other v
  end.

(** [sys.stdout] can encode the character: the encoding of a console has
    the ASCII characters, and of the others those [stdout_encodes] says. *)
Definition encodable (c : ascii) : bool := is_ascii c || stdout_encodes c.

Fixpoint printable (s : string) : bool :=
  match s with
  | EmptyString => true
  | String c s' => encodable c && printable s'
  end.

(** The [UnicodeEncodeError] of a [print].  Its message names the codec,
    the character (escaped) and its position; it is ASCII text, of which
    the model keeps the fixed part. *)
Definition encode_error : exn :=
  mk_exn UnicodeEncodeError "codec can't encode character".

(** [v.get(k, default)]: only a dict has the method. *)
Definition py_get (v : value) (k : string) (default : value) : pyres value :=
  match v with
  | VDict d =>
      Ok (match dict_get k d with Some x => x | None => default end)
  | _ =>
      Raise (mk_exn AttributeError
               ("'" ++ type_name v ++ "' object has no attribute 'get'"))
  end.

(** [k in v] for a string [k] *)
Definition py_in (k : string) (v : value) : pyres bool :=
  match v with
  | VDict d => Ok (dict_mem k d)
  | VStr s => Ok (contains k s)
  | VList l =>
      Ok (existsb (fun x => match x with VStr s => String.eqb k s | _ => false end) l)
  | _ =>
      Raise (mk_exn TypeError
               ("argument of type '" ++ type_name v ++ "' is not iterable"))
  end.

(** [v[k]] for a string [k] *)
Definition py_getitem (v : value) (k : string) : pyres value :=
  match v with
  | VDict d =>
      match dict_get k d with
      | Some x => Ok x
      | None => Raise (mk_exn KeyError ("'" ++ k ++ "'"))
      end
  | VStr _ => Raise (mk_exn TypeError "string indices must be integers, not 'str'")
  | VList _ => Raise (mk_exn TypeError "list indices must be integers or slices, not str")
  | _ =>
      Raise (mk_exn TypeError ("'" ++ type_name v ++ "' object is not subscriptable"))
  end.

(** [os.fspath] on a JSON-shaped value *)
Definition fspath (v : value) : pyres string :=
  match v with
  | VStr s => Ok s
  | _ =>
      Raise (mk_exn TypeError
               ("expected str, bytes or os.PathLike object, not " ++ type_name v))
  end.

(** [posixpath.isabs] *)
Definition isabs (v : value) : pyres bool :=
  match fspath v with
  | Ok s => Ok (startswith "/" s)
  | Raise e => Raise e
  end.

(** [posixpath.join(a, b)] *)
Definition path_join (a b : value) : pyres string :=
  match fspath a with
  | Raise e => Raise e
  | Ok pa =>
      match fspath b with
      | Raise e => Raise e
      | Ok pb =>
          if startswith "/" pb then Ok pb
          else if String.eqb pa "" || ends_with_char "/" pa then Ok (pa ++ pb)
          else Ok (pa ++ "/" ++ pb)
      end
  end.

(** processor._get_safe_path *)
Definition _get_safe_path (output_dir filename : value) : pyres string :=
  let invalid :=
    Raise (mk_exn ValueError
             ("Invalid filename '" ++ py_str filename ++
              "'. Must be a relative path with no directory traversal.")) in
  match py_in ".." filename with
  | Raise e => Raise e
  | Ok true => invalid
  | Ok false =>
      match isabs filename with
      | Raise e => Raise e
      | Ok true => invalid
      | Ok false => path_join output_dir filename
      end
  end.
End Operators.

(** ** The tool implementations of [processor] *)

(** How a tool starts, before its [try:] block. *)
Inductive tool_entry : Type :=
| ReadOnly
    (* nothing before [try:] *)
| WritesTo (dir_param : string)
    (* [final_output_path = _get_safe_path(<dir_param>, output_filename)] *)
| ChartTo (dir_param : string).
    (* [create_chart]: a default [output_filename] first, then as [WritesTo] *)

Record tool_impl : Type := mk_impl {
  impl_name : string;                          (* [__name__] *)
  impl_params : list (string * option value);  (* formal parameters, with defaults *)
  impl_entry : tool_entry;
  impl_doing : string  (* the words of its [except] clause after "An unexpected error occurred " *)
}.

Definition req (n : string) : string * option value := (n, None).
Definition opt (n : string) (v : value) : string * option value := (n, Some v).

Definition get_data_summary : tool_impl :=
  mk_impl "get_data_summary"
    [req "file_path"; opt "sheet_name" VNone]
    ReadOnly "while getting data summary".

Definition read_rows : tool_impl :=
  mk_impl "read_rows"
    [req "file_path"; opt "sheet_name" VNone; opt "offset" (VInt 1); opt "limit" (VInt 5)]
    ReadOnly "while reading rows".

Definition column_aggregate : tool_impl :=
  mk_impl "column_aggregate"
    [req "file_path"; req "column_name"; req "aggregate_function"; opt "sheet_name" VNone]
    ReadOnly "during aggregation".

Definition get_unique_values : tool_impl :=
  mk_impl "get_unique_values"
    [req "file_path"; req "column_name"; opt "sheet_name" VNone]
    ReadOnly "while getting unique values".

Definition add_column_from_formula : tool_impl :=
  mk_impl "add_column_from_formula"
    [req "file_path"; req "file_output_dir"; req "output_filename"; req "new_column_name";
     req "col1"; req "operator"; req "col2"; opt "sheet_name" VNone]
    (WritesTo "file_output_dir") "while adding column".

Definition create_chart : tool_impl :=
  mk_impl "create_chart"
    [req "file_path"; req "chart_output_dir"; req "chart_type"; req "x_column"; req "y_column";
     opt "output_filename" VNone; opt "sheet_name" VNone]
    (ChartTo "chart_output_dir") "while creating chart".

Definition filter_rows : tool_impl :=
  mk_impl "filter_rows"
    [req "file_path"; req "file_output_dir"; req "output_filename"; req "column_name";
     req "operator"; req "value"; opt "sheet_name" VNone]
    (WritesTo "file_output_dir") "while filtering rows".

Definition sort_data : tool_impl :=
  mk_impl "sort_data"
    [req "file_path"; req "file_output_dir"; req "output_filename"; req "sort_by_column";
     opt "ascending" (VBool true); opt "sheet_name" VNone]
    (WritesTo "file_output_dir") "while sorting data".

Definition create_pivot_table : tool_impl :=
  mk_impl "create_pivot_table"
    [req "file_path"; req "file_output_dir"; req "output_filename"; req "index_column";
     req "columns_column"; req "values_column"; opt "agg_func" (VStr "sum");
     opt "sheet_name" VNone]
    (WritesTo "file_output_dir") "while creating pivot table".

Definition delete_columns : tool_impl :=
  mk_impl "delete_columns"
    [req "file_path"; req "file_output_dir"; req "output_filename"; req "columns_to_delete";
     opt "sheet_name" VNone]
    (WritesTo "file_output_dir") "while deleting columns".

Definition rename_column : tool_impl :=
  mk_impl "rename_column"
    [req "file_path"; req "file_output_dir"; req "output_filename"; req "old_column_name";
     req "new_column_name"; opt "sheet_name" VNone]
    (WritesTo "file_output_dir") "while renaming column".

Definition handle_duplicates : tool_impl :=
  mk_impl "handle_duplicates"
    [req "file_path"; req "file_output_dir"; req "output_filename";
     opt "subset_columns" VNone; opt "action" (VStr "find"); opt "sheet_name" VNone]
    (WritesTo "file_output_dir") "while handling duplicates".

Definition fill_missing_values : tool_impl :=
  mk_impl "fill_missing_values"
    [req "file_path"; req "file_output_dir"; req "output_filename"; req "column_name";
     req "fill_value"; opt "sheet_name" VNone]
    (WritesTo "file_output_dir") "while filling missing values".

Definition string_manipulation_in_column : tool_impl :=
  mk_impl "string_manipulation_in_column"
    [req "file_path"; req "file_output_dir"; req "output_filename"; req "column_name";
     req "operation"; opt "sheet_name" VNone]
    (WritesTo "file_output_dir") "during string manipulation".

Definition list_sheets : tool_impl :=
  mk_impl "list_sheets" [req "file_path"] ReadOnly "while listing sheets".

Definition lookup_and_merge_columns : tool_impl :=
  mk_impl "lookup_and_merge_columns"
    [req "file_path"; req "file_output_dir"; req "output_filename"; req "left_on_column";
     req "right_file_path"; req "right_on_column"; req "columns_to_merge";
     opt "sheet_name" VNone; opt "right_sheet_name" VNone]
    (WritesTo "file_output_dir") "during the merge operation".

Definition group_by_and_aggregate : tool_impl :=
  mk_impl "group_by_and_aggregate"
    [req "file_path"; req "file_output_dir"; req "output_filename"; req "group_by_column";
     req "agg_column"; req "agg_functions"; opt "sheet_name" VNone]
    (WritesTo "file_output_dir") "during the group by operation".

Definition conditional_value_column : tool_impl :=
  mk_impl "conditional_value_column"
    [req "file_path"; req "file_output_dir"; req "output_filename"; req "new_column_name";
     req "source_column"; req "operator"; req "value"; req "true_value"; req "false_value";
     opt "sheet_name" VNone]
    (WritesTo "file_output_dir") "while creating conditional column".

Definition create_sheet : tool_impl :=
  mk_impl "create_sheet"
    [req "file_path"; req "file_output_dir"; req "output_filename"; req "new_sheet_name"]
    (WritesTo "file_output_dir") "while creating the sheet".

Definition delete_sheet : tool_impl :=
  mk_impl "delete_sheet"
    [req "file_path"; req "file_output_dir"; req "output_filename"; req "sheet_to_delete"]
    (WritesTo "file_output_dir") "while deleting the sheet".

Definition duplicate_sheet : tool_impl :=
  mk_impl "duplicate_sheet"
    [req "file_path"; req "file_output_dir"; req "output_filename"; req "source_sheet";
     req "new_sheet_name"]
    (WritesTo "file_output_dir") "while duplicating the sheet".

Definition apply_conditional_formatting : tool_impl :=
  mk_impl "apply_conditional_formatting"
    [req "file_path"; req "file_output_dir"; req "output_filename"; req "column_name";
     req "operator"; req "value"; req "color"; opt "sheet_name" VNone]
    (WritesTo "file_output_dir") "while applying conditional formatting".

(** [inspect.signature(f).parameters.keys()] *)
Definition signature_keys (f : tool_impl) : list string := map fst (impl_params f).

(** A tool that saves a file. *)
Definition is_write_tool (f : tool_impl) : bool :=
  match impl_entry f with ReadOnly => false | _ => true end.

(** ** Calling an implementation with keyword arguments *)

Definition quoted (n : string) : string := "'" ++ n ++ "'".

(** The list of names in CPython's "missing arguments" message, for three
    names or more: ['a', 'b', and 'c']. *)
Fixpoint names_with_and (names : list string) : string :=
  match names with
  | [] => ""
  | [a] => quoted a
  | [a; b] => quoted a ++ ", and " ++ quoted b
  | a :: rest => quoted a ++ ", " ++ names_with_and rest
  end.

Definition missing_message (fname : string) (names : list string) : string :=
  fname ++ "() missing " ++ str_of_nat (List.length names) ++
  " required positional argument" ++
  (match names with [_] => "" | _ => "s" end) ++ ": " ++
  (match names with
   | [a] => quoted a
   | [a; b] => quoted a ++ " and " ++ quoted b
   | _ => names_with_and names
   end).

(** The required parameters that [kwargs] leaves unbound. *)
Definition missing_params (f : tool_impl) (kwargs : pydict) : list string :=
  map fst
    (filter (fun p => match snd p with
                      | None => negb (dict_mem (fst p) kwargs)
                      | Some _ => false
                      end)
       (impl_params f)).

(** Binding of keyword arguments to the formal parameters: the bound
    arguments in signature order, defaults filled in, or [TypeError]. *)
Definition bind_arguments (f : tool_impl) (kwargs : pydict) : pyres pydict :=
  match find (fun kv => negb (name_in (fst kv) (signature_keys f))) kwargs with
  | Some (k, _) =>
      Raise (mk_exn TypeError
               (impl_name f ++ "() got an unexpected keyword argument " ++ quoted k))
  | None =>
      match missing_params f kwargs with
      | [] =>
          Ok (map (fun p =>
                     (fst p,
                      match dict_get (fst p) kwargs with
                      | Some v => v
                      | None => match snd p with Some dflt => dflt | None => VNone end
                      end))
                (impl_params f))
      | names => Raise (mk_exn TypeError (missing_message (impl_name f) names))
      end
  end.

Section Tools.
Context {H : Host}.

(** A local variable of the running tool. *)
Definition local (args : pydict) (n : string) : value :=
  match dict_get n args with Some v => v | None => VNone end.

(** The [try: ... except Exception as e: raise Exception(f"...: {e}")]
    that wraps every tool's work. *)
Definition run_body (f : tool_impl) (args : pydict) (final_output_path : option string)
    (w : world) : pyres value * world :=
  match tool_body (impl_name f) args final_output_path w with
  | (Ok v, w') => (Ok v, w')
  | (Raise e, w') =>
      (Raise (mk_exn BaseError
                ("An unexpected error occurred " ++ impl_doing f ++ ": " ++ exn_msg e)),
       w')
  end.

(** The statements of a tool that precede its [try:]: they yield the
    locals and [final_output_path], or raise with nothing done yet. *)
Definition prologue (f : tool_impl) (args : pydict) (w : world)
    : pyres (pydict * option string) :=
  match impl_entry f with
  | ReadOnly => Ok (args, None)
  | WritesTo dir =>
      match _get_safe_path (local args dir) (local args "output_filename") with
      | Raise e => Raise e
      | Ok p => Ok (args, Some p)
      end
  | ChartTo dir =>
      let args' :=
        match local args "output_filename" with
        | VNone =>
            dict_set "output_filename"
              (VStr ("chart_" ++ str_of_Z (time_now w) ++ ".png")) args
        | _ => args
        end in
      match _get_safe_path (local args' dir) (local args' "output_filename") with
      | Raise e => Raise e
      | Ok p => Ok (args', Some p)
      end
  end.

(** The call of [f] with the keyword arguments [kwargs]. *)
Definition call_tool (f : tool_impl) (kwargs : pydict) (w : world) : pyres value * world :=
  match bind_arguments f kwargs with
  | Raise e => (Raise e, w)
  | Ok args =>
      match prologue f args w with
      | Raise e => (Raise e, w)
      | Ok (args', path) => run_body f args' path w
      end
  end.
End Tools.

(** ** The registry ([tools.TOOLS]) *)

(** Each entry: the [name] of its schema and its [implementation]. *)
Definition TOOLS : list (string * tool_impl) :=
  [ ("get_data_summary", get_data_summary);
    ("read_rows", read_rows);
    ("get_unique_values", get_unique_values);
    ("column_aggregate", column_aggregate);
    ("filter_rows", filter_rows);
    ("sort_data", sort_data);
    ("add_column_from_formula", add_column_from_formula);
    ("create_pivot_table", create_pivot_table);
    ("create_chart", create_chart);
    ("delete_columns", delete_columns);
    ("rename_column", rename_column);
    ("handle_duplicates", handle_duplicates);
    ("fill_missing_values", fill_missing_values);
    ("string_manipulation_in_column", string_manipulation_in_column);
    ("list_sheets", list_sheets);
    ("lookup_and_merge_columns", lookup_and_merge_columns);
    ("group_by_and_aggregate", group_by_and_aggregate);
    ("conditional_value_column", conditional_value_column);
    ("create_sheet", create_sheet);
    ("delete_sheet", delete_sheet);
    ("duplicate_sheet", duplicate_sheet);
    ("apply_conditional_formatting", apply_conditional_formatting) ].

(** [{tool["schema"]["name"]: tool["implementation"] for tool in TOOLS}] *)
Definition _TOOL_IMPLEMENTATIONS : list (string * tool_impl) :=
  fold_left (fun acc t => dict_set (fst t) (snd t) acc) TOOLS [].

(** ** The dispatcher ([tools.execute_tool]) *)

Section Dispatcher.
Context {H : Host}.

(** [tool_name in _TOOL_IMPLEMENTATIONS] followed by the lookup: a list
    or a dict cannot be hashed; any other non-string is just not a key. *)
Definition resolve (tool_name : value) : pyres (option tool_impl) :=
  match tool_name with
  | VStr s => Ok (dict_get s _TOOL_IMPLEMENTATIONS)
  | VList _ | VDict _ =>
      Raise (mk_exn TypeError ("unhashable type: " ++ quoted (type_name tool_name)))
  | _ => Ok None
  end.

(** [{**context, **parameters}] *)
Definition full_params (context : pydict) (parameters : value) : pyres pydict :=
  match parameters with
  | VDict p => Ok (dict_merge context p)
  | _ =>
      Raise (mk_exn TypeError
               (quoted (type_name parameters) ++ " object is not a mapping"))
  end.

(** [{k: v for k, v in full_params.items() if k in accepted_params}] *)
Definition params_to_pass (f : tool_impl) (full : pydict) : pydict :=
  dict_filter_keys (fun k => name_in k (signature_keys f)) full.

Definition execute_tool (tool_name parameters : value) (context : pydict) (w : world)
    : pyres value * world :=
  match resolve tool_name with
  | Raise e => (Raise e, w)
  | Ok None =>
      (Ok (VDict [("error", VStr ("Tool '" ++ py_str tool_name ++ "' does not exist."))]), w)
  | Ok (Some tool_function) =>
      match full_params context parameters with
      | Raise e => (Raise e, w)
      | Ok full => call_tool tool_function (params_to_pass tool_function full) w
      end
  end.
End Dispatcher.

(** ** The agent loop ([agent.run_agent_task]) *)

(** The returned [{"answer": ..., "steps": ..., "observations": ...}]. *)
Record result : Type := mk_result {
  answer : value;
  result_steps : list pydict;
  result_observations : list value
}.

(** What the run did to its collaborators, in order (ghost state). *)
Inductive event : Type :=
| LLMCall (history : list turn)
| ToolCall (tool_name parameters : value).

Definition is_llm_call (e : event) : bool :=
  match e with LLMCall _ => true | ToolCall _ _ => false end.

Definition is_tool_call (e : event) : bool :=
  match e with LLMCall _ => false | ToolCall _ _ => true end.

Definition llm_calls (tr : list event) : nat := List.length (filter is_llm_call tr).
Definition tool_calls (tr : list event) : nat := List.length (filter is_tool_call tr).

Section Agent.
Context {H : Host}.

(** The state of one task: the world, the three lists the function
    mutates, and the trace. *)
Record machine : Type := mk_machine {
  env : world;
  conversation_history : list turn;
  steps : list pydict;
  observations : list value;
  trace : list event
}.

(** Statements: they run on the machine and return or raise. *)
Definition M (A : Type) : Type := machine -> pyres A * machine.

Definition ret {A} (a : A) : M A := fun m => (Ok a, m).

Definition bind {A B} (c : M A) (k : A -> M B) : M B :=
  fun m =>
    match c m with
    | (Ok a, m') => k a m'
    | (Raise e, m') => (Raise e, m')
    end.

Definition lift {A} (r : pyres A) : M A := fun m => (r, m).

(** [try: c except Exception as e: handler e] *)
Definition try_except {A} (c : M A) (handler : exn -> M A) : M A :=
  fun m =>
    match c m with
    | (Ok a, m') => (Ok a, m')
    | (Raise e, m') => handler e m'
    end.

Definition get_history : M (list turn) := fun m => (Ok (conversation_history m), m).

Definition record (e : event) : M unit :=
  fun m =>
    (Ok tt, mk_machine (env m) (conversation_history m) (steps m) (observations m)
              (trace m ++ [e])).

Definition on_world {A} (f : world -> pyres A * world) : M A :=
  fun m =>
    let (r, w') := f (env m) in
    (r, mk_machine w' (conversation_history m) (steps m) (observations m) (trace m)).

(** [conversation_history.append(t)] *)
Definition append_history (t : turn) : M unit :=
  fun m =>
    (Ok tt, mk_machine (env m) (conversation_history m ++ [t]) (steps m) (observations m)
              (trace m)).

(** [steps.append(s)] *)
Definition append_step (s : pydict) : M unit :=
  fun m =>
    (Ok tt, mk_machine (env m) (conversation_history m) (steps m ++ [s]) (observations m)
              (trace m)).

(** [observations.append(o)] *)
Definition append_observation (o : value) : M unit :=
  fun m =>
    (Ok tt, mk_machine (env m) (conversation_history m) (steps m) (observations m ++ [o])
              (trace m)).

(** [{"answer": a, "steps": steps, "observations": observations}] *)
Definition returned (a : value) : M result :=
  fun m => (Ok (mk_result a (steps m) (observations m)), m).

(** [print(text)] *)
Definition print (text : string) : M unit :=
  lift (if printable text then Ok tt else Raise encode_error).
End Agent.

Notation "x <- c1 ;; c2" := (bind c1 (fun x => c2))
  (at level 61, c1 at next level, right associativity).
Notation "c1 ;;; c2" := (bind c1 (fun _ => c2))
  (at level 61, right associativity).

Section Loop.
Context {H : Host}.

(** agent._call_llm *)
Definition _call_llm (history : list turn) : M string :=
  record (LLMCall history) ;;;
  on_world (llm_complete history).

(** The call [tools.execute_tool(tool_name, parameters, tool_context)]. *)
Definition tools_execute_tool (tool_name parameters : value) (context : pydict) : M value :=
  record (ToolCall tool_name parameters) ;;;
  on_world (execute_tool tool_name parameters context).

(** The inner [try/except] of the loop around the dispatcher. *)
Definition dispatch (tool_name parameters : value) (tool_context : pydict) : M value :=
  try_except
    (tools_execute_tool tool_name parameters tool_context)
    (fun e =>
       ret (VDict [("error",
                    VStr ("Tool '" ++ py_str tool_name ++ "' failed with error: "
                          ++ exn_msg e))])).

(** The body of the outer [try:] of one iteration.  [Some r] is
    [return r]; [None] falls through to the next iteration. *)
Definition loop_body (tool_context : pydict) : M (option result) :=
  history <- get_history ;;
  llm_response_str <- _call_llm history ;;
  append_history (mk_turn "assistant" llm_response_str) ;;;
  llm_response <- lift (json_loads llm_response_str) ;;
  thought <- lift (py_get llm_response "thought" (VStr "(No thought provided)")) ;;
  print ("LLM Thought: " ++ py_str thought) ;;;
  let current_step := [("thought", thought)] in
  has_final_answer <- lift (py_in "final_answer" llm_response) ;;
  if (has_final_answer : bool) then
    print "LLM provided final answer." ;;;
    append_step current_step ;;;
    final_answer <- lift (py_getitem llm_response "final_answer") ;;
    r <- returned final_answer ;;
    ret (Some r)
  else
    tool_call <- lift (py_get llm_response "tool_call" VNone) ;;
    if negb (truthy tool_call) then
      r <- returned (VStr "I am not sure how to proceed.") ;;
      ret (Some r)
    else
      let current_step := dict_set "tool_call" tool_call current_step in
      tool_name <- lift (py_get tool_call "tool_name" VNone) ;;
      parameters <- lift (py_get tool_call "parameters" (VDict [])) ;;
      print ("Executing Tool: " ++ py_str tool_name ++ " with params " ++ py_str parameters) ;;;
      observation_dict <- dispatch tool_name parameters tool_context ;;
      observation <- lift (json_dumps observation_dict) ;;
      append_observation observation_dict ;;;
      print ("Tool Observation: " ++ observation) ;;;
      let current_step := dict_set "observation" (VStr observation) current_step in
      append_step current_step ;;;
      append_history (mk_turn "user" ("Observation: " ++ observation)) ;;;
      ret None.

(** One iteration: the outer [try:] with its [except Exception as e:]. *)
Definition iteration (tool_context : pydict) : M (option result) :=
  try_except
    (loop_body tool_context)
    (fun e =>
       print ("An error occurred in the agent loop: " ++ exn_msg e) ;;;
       r <- returned (VStr "I encountered an unexpected error.") ;;
       ret (Some r)).

Definition max_steps : nat := 5.

(** The line printed at the top of iteration [i]. *)
Definition step_banner (i : nat) : string :=
  "--- Agent Step " ++ str_of_nat (i + 1) ++ " ---".

(** The last [n] iterations of [for i in range(max_steps): ...], followed
    by the statement after the loop: the iteration that has [n] more to go
    after it is iteration [max_steps - S n]. *)
Fixpoint agent_loop (n : nat) (tool_context : pydict) (m : machine)
    : pyres result * machine :=
  match n with
  | O =>
      (Ok (mk_result (VStr "I seem to be stuck in a loop.") (steps m) (observations m)), m)
  | S n' =>
      match print (step_banner (max_steps - S n')) m with
      | (Raise e, m0) => (Raise e, m0)
      | (Ok _, m0) =>
          match iteration tool_context m0 with
          | (Ok (Some r), m') => (Ok r, m')
          | (Ok None, m') => agent_loop n' tool_context m'
          | (Raise e, m') => (Raise e, m')
          end
      end
  end.

(** agent._create_system_prompt *)
Definition _create_system_prompt : string :=
  "You are a smart agent that can solve user requests by breaking them down into a series of steps using the available tools." ++ newline ++
  newline ++
  "Here is the list of tools available to you in a JSON schema format:" ++ newline ++
  tools_schema_str ++ newline ++
  newline ++
  "You must respond in a specific JSON format with two possible keys:" ++ newline ++
  "1. `thought`: Your reasoning and plan for the next step." ++ newline ++
  "2. `tool_call`: The specific tool to execute for this step. The `tool_name` must be one of the names from the schema. The `parameters` must adhere to the schema for that tool." ++ newline ++
  newline ++
  "OR" ++ newline ++
  newline ++
  "1. `thought`: Your reasoning for why you are finished." ++ newline ++
  "2. `final_answer`: A concise, natural language response to the user's original request, based on your observations." ++ newline ++
  newline ++
  "A key first step for many tasks is to use `get_data_summary` to understand the file's structure before trying to access columns." ++ newline ++
  "After receiving an " ++ dquote ++ "Observation" ++ dquote ++
  ", you must decide on the next step: either another `tool_call` or a `final_answer`." ++ newline.

(** The machine at the top of the loop. *)
Definition initial_machine (user_input file_path : string) (w : world) : machine :=
  let system_prompt := _create_system_prompt in
  mk_machine w
    [ mk_turn "system" system_prompt;
      mk_turn "user"
        ("User Request: " ++ dquote ++ user_input ++ dquote ++ newline ++
         "File to be used: " ++ dquote ++ file_path ++ dquote) ]
    [] [] [].

Definition tool_context (file_path chart_output_dir file_output_dir : string) : pydict :=
  [ ("file_path", VStr file_path);
    ("chart_output_dir", VStr chart_output_dir);
    ("file_output_dir", VStr file_output_dir) ].

(** The text of the [print] that opens a task. *)
Definition task_banner (user_input : string) : string :=
  "--- New Task ---" ++ newline ++ "User Input: " ++ user_input.

(** The returned record, or the exception that leaves the function, with
    the machine the run ends in. *)
Definition run_agent_task (user_input file_path chart_output_dir file_output_dir : string)
    (w : world) : pyres result * machine :=
  match print (task_banner user_input) (initial_machine user_input file_path w) with
  | (Raise e, m) => (Raise e, m)
  | (Ok _, m) =>
      agent_loop max_steps (tool_context file_path chart_output_dir file_output_dir) m
  end.
End Loop.


(** ** Vocabulary of the properties *)

(** The keys of a well-formed dict are pairwise distinct. *)
Fixpoint distinct_keys {V} (d : list (string * V)) : bool :=
  match d with
  | [] => true
  | (k, _) :: d' => negb (dict_mem k d') && distinct_keys d'
  end.

(** What [execute_tool] hands to the implementation. *)
Definition passed (f : tool_impl) (parameters context : pydict) : pydict :=
  params_to_pass f (dict_merge context parameters).

(** The design's words for the same mapping: the merge of the context and
    the declared parameters, declared parameters winning, restricted to
    the accepted names. *)
Definition merged_and_projected (accepted : list string) (parameters context : pydict)
    (k : string) : option value :=
  if name_in k accepted then
    match dict_get k parameters with
    | Some v => Some v
    | None => dict_get k context
    end
  else None.

(** The segments of a path between its [/]. *)
Fixpoint path_segments (s : string) : list string :=
  match s with
  | EmptyString => [EmptyString]
  | String a s' =>
      if Ascii.eqb a "/" then EmptyString :: path_segments s'
      else match path_segments s' with
           | [] => [String a EmptyString]
           | seg :: rest => String a seg :: rest
           end
  end.

(** The design's words: a filename with a parent-directory segment, or an
    absolute one. *)
Definition has_parent_segment (s : string) : bool :=
  existsb (String.eqb "..") (path_segments s).

Definition is_absolute (s : string) : bool :=
  match s with
  | String a _ => Ascii.eqb a "/"
  | EmptyString => false
  end.

Definition traversal_or_absolute (s : string) : bool :=
  has_parent_segment s || is_absolute s.

(** The error [_get_safe_path] raises. *)
Definition invalid_filename (s : string) : exn :=
  mk_exn ValueError
    ("Invalid filename '" ++ s ++ "'. Must be a relative path with no directory traversal.").

Section Vocabulary.
Context {H : Host}.

(** The observation the loop records for an exception of the dispatcher. *)
Definition failure_observation (tool_name : value) (e : exn) : value :=
  VDict [("error",
          VStr ("Tool '" ++ py_str tool_name ++ "' failed with error: " ++ exn_msg e))].

(** [llm_response.get('thought', '(No thought provided)')] on a dict. *)
Definition thought_of (d : pydict) : value :=
  match dict_get "thought" d with
  | Some t => t
  | None => VStr "(No thought provided)"
  end.

(** [n] iterations in a row, none of which returns. *)
Fixpoint continues (n : nat) (tool_context : pydict) (m : machine) : option machine :=
  match n with
  | O => Some m
  | S n' =>
      match iteration tool_context m with
      | (Ok None, m') => continues n' tool_context m'
      | _ => None
      end
  end.

(** The lines a turn prints for its thought, for the tool it is about to
    run, and for an exception that ends it. *)
Definition thought_line (d : pydict) : string :=
  "LLM Thought: " ++ py_str (thought_of d).

Definition tool_line (tool_name parameters : value) : string :=
  "Executing Tool: " ++ py_str tool_name ++ " with params " ++ py_str parameters.

Definition error_line (e : exn) : string :=
  "An error occurred in the agent loop: " ++ exn_msg e.

(** The record that ends a task in the handler of the loop. *)
Definition error_record (m : machine) : result :=
  mk_result (VStr "I encountered an unexpected error.") (steps m) (observations m).

(** The machine once the model has answered [s] and the answer is in the
    transcript. *)
Definition after_llm (m : machine) (s : string) (w' : world) : machine :=
  mk_machine w' (conversation_history m ++ [mk_turn "assistant" s])
    (steps m) (observations m) (trace m ++ [LLMCall (conversation_history m)]).
End Vocabulary.

(** ** A test double for the collaborators

    A scripted model, a file system that remembers which paths were
    written, decoders that know the handful of texts the script uses, and
    a UTF-8 console: of the characters outside ASCII it lacks one, which
    stands for a lone surrogate.  It instantiates [Host] wherever a
    statement is run on concrete input. *)

Module Stub.
Record stub_world : Type := mk_world {
  script : list string;     (* what the model will answer, in order *)
  written : list string;    (* the paths the tools have saved to *)
  clock : Z
}.

Definition q (s : string) : string := dquote ++ s ++ dquote.

(** Texts of LLM turns. *)
Definition final_text : string :=
  "{" ++ q "thought" ++ ": " ++ q "done" ++ ", " ++ q "final_answer" ++ ": " ++ q "42" ++ "}".
Definition list_sheets_text : string :=
  "{" ++ q "thought" ++ ": " ++ q "look" ++ ", " ++ q "tool_call" ++ ": {" ++
  q "tool_name" ++ ": " ++ q "list_sheets" ++ ", " ++ q "parameters" ++ ": {}}}".
Definition evil_text : string :=
  "{" ++ q "thought" ++ ": " ++ q "save" ++ ", " ++ q "tool_call" ++ ": {" ++
  q "tool_name" ++ ": " ++ q "create_sheet" ++ ", " ++ q "parameters" ++ ": {" ++
  q "output_filename" ++ ": " ++ q "../evil.xlsx" ++ ", " ++
  q "new_sheet_name" ++ ": " ++ q "S" ++ "}}}".
Definition thought_only_text : string :=
  "{" ++ q "thought" ++ ": " ++ q "hmm" ++ "}".
Definition invalid_text : string := "{not json".

(** A lone surrogate, and the texts of turns whose thought is one (in the
    JSON text it is the escape [\ud83d]). *)
Definition surrogate : ascii := "237"%char.
Definition mute : string := String surrogate EmptyString.
Definition mute_final_text : string :=
  "{" ++ q "thought" ++ ": " ++ q "\ud83d" ++ ", " ++ q "final_answer" ++ ": " ++ q "42" ++ "}".
Definition mute_thought_text : string :=
  "{" ++ q "thought" ++ ": " ++ q "\ud83d" ++ "}".

Definition list_sheets_call : value :=
  VDict [("tool_name", VStr "list_sheets"); ("parameters", VDict [])].
Definition evil_parameters : pydict :=
  [("output_filename", VStr "../evil.xlsx"); ("new_sheet_name", VStr "S")].
Definition evil_call : value :=
  VDict [("tool_name", VStr "create_sheet"); ("parameters", VDict evil_parameters)].

Definition decoded : list (string * value) :=
  [ (final_text, VDict [("thought", VStr "done"); ("final_answer", VStr "42")]);
    (list_sheets_text, VDict [("thought", VStr "look"); ("tool_call", list_sheets_call)]);
    (evil_text, VDict [("thought", VStr "save"); ("tool_call", evil_call)]);
    (thought_only_text, VDict [("thought", VStr "hmm")]);
    (mute_final_text, VDict [("thought", VStr mute); ("final_answer", VStr "42")]);
    (mute_thought_text, VDict [("thought", VStr mute)]) ].

Definition loads (s : string) : pyres value :=
  match dict_get s decoded with
  | Some v => Ok v
  | None =>
      Raise (mk_exn (HostError "JSONDecodeError")
               "Expecting property name enclosed in double quotes: line 1 column 2 (char 1)")
  end.

(** A serializer for values made of strings, booleans, [None], integers,
    lists and dicts; it has one text for all floats.  Of escaping it does
    what [ensure_ascii] asks: a character outside ASCII becomes
    [\u00XX], [XX] its code. *)
Fixpoint dumps_value (v : value) : string :=
  match v with
  | VNone => "null"
  | VBool true => "true"
  | VBool false => "false"
  | VInt z => str_of_Z z
  | VFloat _ => "<float>"
  | VStr s => q s
  | VList l =>
      "[" ++
      (fix items (l : list value) : string :=
         match l with
         | [] => ""
         | [x] => dumps_value x
         | x :: r => dumps_value x ++ ", " ++ items r
         end) l ++ "]"
  | VDict d =>
      "{" ++
      (fix items (d : list (string * value)) : string :=
         match d with
         | [] => ""
         | [(k, x)] => q k ++ ": " ++ dumps_value x
         | (k, x) :: r => q k ++ ": " ++ dumps_value x ++ ", " ++ items r
         end) d ++ "}"
  end.

Definition hex_digit (b3 b2 b1 b0 : bool) : ascii :=
  match b3, b2, b1, b0 with
  | false, false, false, false => "0"
  | false, false, false, true => "1"
  | false, false, true, false => "2"
  | false, false, true, true => "3"
  | false, true, false, false => "4"
  | false, true, false, true => "5"
  | false, true, true, false => "6"
  | false, true, true, true => "7"
  | true, false, false, false => "8"
  | true, false, false, true => "9"
  | true, false, true, false => "a"
  | true, false, true, true => "b"
  | true, true, false, false => "c"
  | true, true, false, true => "d"
  | true, true, true, false => "e"
  | true, true, true, true => "f"
  end%char.

Fixpoint ensure_ascii (s : string) : string :=
  match s with
  | EmptyString => EmptyString
  | String c s' =>
      match c with
      | Ascii b0 b1 b2 b3 b4 b5 b6 b7 =>
          if b7
          then "\u00" ++ String (hex_digit b7 b6 b5 b4)
                            (String (hex_digit b3 b2 b1 b0) (ensure_ascii s'))
          else String c (ensure_ascii s')
      end
  end.

Definition dumps (v : value) : pyres string := Ok (ensure_ascii (dumps_value v)).

(** [str(v)] for the values that are not strings. *)
Definition str_value (v : value) : string :=
  match v with
  | VNone => "None"
  | VBool true => "True"
  | VBool false => "False"
  | _ => dumps_value v
  end.

Definition complete (history : list turn) (w : stub_world) : pyres string * stub_world :=
  match script w with
  | [] => (Raise (mk_exn (HostError "APIConnectionError") "Connection error."), w)
  | s :: rest => (Ok s, mk_world rest (written w) (clock w))
  end.

(** A body that saves to [final_output_path] when it has one. *)
Definition body (name : string) (args : pydict) (path : option string) (w : stub_world)
    : pyres value * stub_world :=
  match path with
  | Some p =>
      (Ok (VDict [("success", VBool true); ("output_file", VStr p)]),
       mk_world (script w) (written w ++ [p]) (clock w))
  | None => (Ok (VDict [("success", VBool true)]), w)
  end.

#[export, refine] Instance host : Host := {|
  world := stub_world;
  llm_complete := complete;
  json_loads := loads;
  json_dumps := dumps;
  str_other := str_value;
  time_now := clock;
  tools_schema_str := "[]";
  tool_body := body;
  stdout_encodes := fun c => negb (Ascii.eqb c surrogate);
  json_dumps_ascii := _;
  json_dumps_error_ascii := _;
  json_loads_error_ascii := _
|}.
Proof.
  - intros v s [= <-]. induction (dumps_value v) as [|[b0 b1 b2 b3 b4 b5 b6 b7] t IH].
    + reflexivity.
    + cbn [ensure_ascii]. destruct b7.
      * cbn. rewrite IH. destruct b6, b5, b4, b3, b2, b1, b0; reflexivity.
      * cbn. exact IH.
  - intros v e [=].
  - intros s e. unfold loads. destruct (dict_get s decoded); intros [= <-]. reflexivity.
Defined.

Definition w0 (answers : list string) : stub_world := mk_world answers [] 1700000000.

Definition context : pydict :=
  tool_context "uploads/data.xlsx" "/srv/static/charts" "/srv/static/outputs".

(** The machine at the top of the loop of a task on such a world. *)
Definition m0 (answers : list string) : machine :=
  initial_machine "tidy the workbook" "uploads/data.xlsx" (w0 answers).

Definition run (answers : list string) : pyres result * machine :=
  run_agent_task "tidy the workbook" "uploads/data.xlsx"
    "/srv/static/charts" "/srv/static/outputs" (w0 answers).
End Stub.

(** ** The schemas of the tools ([tools.TOOLS], the [schema] of each entry) *)

Definition schema_get_data_summary : value :=
  VDict
    [ ("name", VStr "get_data_summary");
      ("description", VStr "Reads an Excel file and returns a summary of its contents, including sheet name, total rows, and header columns.");
      ("parameters", VDict
       [ ("type", VStr "object");
         ("properties", VDict
          [ ("sheet_name", VDict
             [ ("type", VStr "string");
               ("description", VStr "The name of the sheet to summarize. Defaults to the active sheet if not provided.") ]) ]);
         ("required", VList []) ]) ].

Definition schema_read_rows : value :=
  VDict
    [ ("name", VStr "read_rows");
      ("description", VStr "Reads a specific range of rows from an Excel sheet.");
      ("parameters", VDict
       [ ("type", VStr "object");
         ("properties", VDict
          [ ("sheet_name", VDict
             [ ("type", VStr "string");
               ("description", VStr "The name of the sheet to read from. Defaults to the active sheet.") ]);
            ("offset", VDict
             [ ("type", VStr "integer");
               ("description", VStr "The 0-based row number to start reading from. Defaults to 1.") ]);
            ("limit", VDict
             [ ("type", VStr "integer");
               ("description", VStr "The maximum number of rows to read. Defaults to 5.") ]) ]);
         ("required", VList []) ]) ].

Definition schema_get_unique_values : value :=
  VDict
    [ ("name", VStr "get_unique_values");
      ("description", VStr "Gets a list of unique values from a specified column.");
      ("parameters", VDict
       [ ("type", VStr "object");
         ("properties", VDict
          [ ("column_name", VDict
             [ ("type", VStr "string");
               ("description", VStr "The name of the column to get unique values from.") ]);
            ("sheet_name", VDict
             [ ("type", VStr "string");
               ("description", VStr "The name of the sheet to use. Defaults to the active sheet.") ]) ]);
         ("required", VList [VStr "column_name"]) ]) ].

Definition schema_column_aggregate : value :=
  VDict
    [ ("name", VStr "column_aggregate");
      ("description", VStr "Performs a simple aggregation (sum, mean, min, max) on a single column.");
      ("parameters", VDict
       [ ("type", VStr "object");
         ("properties", VDict
          [ ("column_name", VDict
             [ ("type", VStr "string");
               ("description", VStr "The name of the column to aggregate.") ]);
            ("aggregate_function", VDict
             [ ("type", VStr "string");
               ("description", VStr "The aggregation function to apply.");
               ("enum", VList [VStr "sum"; VStr "mean"; VStr "min"; VStr "max"]) ]);
            ("sheet_name", VDict
             [ ("type", VStr "string");
               ("description", VStr "The name of the sheet to use. Defaults to the active sheet.") ]) ]);
         ("required", VList [VStr "column_name"; VStr "aggregate_function"]) ]) ].

Definition schema_filter_rows : value :=
  VDict
    [ ("name", VStr "filter_rows");
      ("description", VStr "Filters rows based on a condition and saves the result to a new file.");
      ("parameters", VDict
       [ ("type", VStr "object");
         ("properties", VDict
          [ ("output_filename", VDict
             [ ("type", VStr "string");
               ("description", VStr "The name for the new output Excel file (e.g., 'filtered_data.xlsx').") ]);
            ("column_name", VDict
             [ ("type", VStr "string");
               ("description", VStr "The column to filter on.") ]);
            ("operator", VDict
             [ ("type", VStr "string");
               ("description", VStr "The comparison operator.");
               ("enum", VList [VStr "=="; VStr "!="; VStr ">"; VStr "<"; VStr ">="; VStr "<="; VStr "contains"]) ]);
            ("value", VDict
             [ ("type", VStr "string");
               ("description", VStr "The value to compare against. For numeric comparisons, provide a number as a string.") ]);
            ("sheet_name", VDict
             [ ("type", VStr "string");
               ("description", VStr "The name of the sheet to use. Defaults to the active sheet.") ]) ]);
         ("required", VList [VStr "output_filename"; VStr "column_name"; VStr "operator"; VStr "value"]) ]) ].

Definition schema_sort_data : value :=
  VDict
    [ ("name", VStr "sort_data");
      ("description", VStr "Sorts the data by a specific column and saves to a new file.");
      ("parameters", VDict
       [ ("type", VStr "object");
         ("properties", VDict
          [ ("output_filename", VDict
             [ ("type", VStr "string");
               ("description", VStr "The name for the new output Excel file (e.g., 'sorted_data.xlsx').") ]);
            ("sort_by_column", VDict
             [ ("type", VStr "string");
               ("description", VStr "The column to sort the data by.") ]);
            ("ascending", VDict
             [ ("type", VStr "boolean");
               ("description", VStr "Whether to sort in ascending (True) or descending (False) order. Defaults to True.") ]);
            ("sheet_name", VDict
             [ ("type", VStr "string");
               ("description", VStr "The name of the sheet to use. Defaults to the active sheet.") ]) ]);
         ("required", VList [VStr "output_filename"; VStr "sort_by_column"]) ]) ].

Definition schema_add_column_from_formula : value :=
  VDict
    [ ("name", VStr "add_column_from_formula");
      ("description", VStr "Adds a new column based on a formula involving two existing columns and saves to a new file.");
      ("parameters", VDict
       [ ("type", VStr "object");
         ("properties", VDict
          [ ("output_filename", VDict
             [ ("type", VStr "string");
               ("description", VStr "The name for the new output Excel file (e.g., 'calculated_data.xlsx').") ]);
            ("new_column_name", VDict
             [ ("type", VStr "string");
               ("description", VStr "The name for the new column being created.") ]);
            ("col1", VDict
             [ ("type", VStr "string");
               ("description", VStr "The name of the first column in the formula.") ]);
            ("operator", VDict
             [ ("type", VStr "string");
               ("description", VStr "The mathematical operator to use.");
               ("enum", VList [VStr "+"; VStr "-"; VStr "*"; VStr "/"]) ]);
            ("col2", VDict
             [ ("type", VStr "string");
               ("description", VStr "The name of the second column in the formula.") ]);
            ("sheet_name", VDict
             [ ("type", VStr "string");
               ("description", VStr "The name of the sheet to use. Defaults to the active sheet.") ]) ]);
         ("required", VList [VStr "output_filename"; VStr "new_column_name"; VStr "col1"; VStr "operator"; VStr "col2"]) ]) ].

Definition schema_create_pivot_table : value :=
  VDict
    [ ("name", VStr "create_pivot_table");
      ("description", VStr "Creates a pivot table and saves it to a new file.");
      ("parameters", VDict
       [ ("type", VStr "object");
         ("properties", VDict
          [ ("output_filename", VDict
             [ ("type", VStr "string");
               ("description", VStr "The name for the new output Excel file (e.g., 'pivot_table.xlsx').") ]);
            ("index_column", VDict
             [ ("type", VStr "string");
               ("description", VStr "The column to use as the pivot table's index (rows).") ]);
            ("columns_column", VDict
             [ ("type", VStr "string");
               ("description", VStr "The column to use for the pivot table's columns.") ]);
            ("values_column", VDict
             [ ("type", VStr "string");
               ("description", VStr "The column to aggregate.") ]);
            ("agg_func", VDict
             [ ("type", VStr "string");
               ("description", VStr "The aggregation function to use.");
               ("enum", VList [VStr "sum"; VStr "mean"; VStr "count"]) ]);
            ("sheet_name", VDict
             [ ("type", VStr "string");
               ("description", VStr "The name of the sheet to use. Defaults to the active sheet.") ]) ]);
         ("required", VList [VStr "output_filename"; VStr "index_column"; VStr "columns_column"; VStr "values_column"]) ]) ].

Definition schema_create_chart : value :=
  VDict
    [ ("name", VStr "create_chart");
      ("description", VStr "Creates a chart from data and saves it as an image file.");
      ("parameters", VDict
       [ ("type", VStr "object");
         ("properties", VDict
          [ ("chart_type", VDict
             [ ("type", VStr "string");
               ("description", VStr "The type of chart to create.");
               ("enum", VList [VStr "bar"; VStr "line"; VStr "scatter"]) ]);
            ("x_column", VDict
             [ ("type", VStr "string");
               ("description", VStr "The column to use for the x-axis.") ]);
            ("y_column", VDict
             [ ("type", VStr "string");
               ("description", VStr "The column to use for the y-axis.") ]);
            ("output_filename", VDict
             [ ("type", VStr "string");
               ("description", VStr "The name for the output image file (e.g., 'my_chart.png'). If not provided, a name will be generated.") ]);
            ("sheet_name", VDict
             [ ("type", VStr "string");
               ("description", VStr "The name of the sheet to use. Defaults to the active sheet.") ]) ]);
         ("required", VList [VStr "chart_type"; VStr "x_column"; VStr "y_column"]) ]) ].

Definition schema_delete_columns : value :=
  VDict
    [ ("name", VStr "delete_columns");
      ("description", VStr "Deletes one or more specified columns from a sheet and saves the result to a new file.");
      ("parameters", VDict
       [ ("type", VStr "object");
         ("properties", VDict
          [ ("output_filename", VDict
             [ ("type", VStr "string");
               ("description", VStr "The name for the new output Excel file (e.g., 'data_with_deleted_columns.xlsx').") ]);
            ("columns_to_delete", VDict
             [ ("type", VStr "array");
               ("items", VDict [("type", VStr "string")]);
               ("description", VStr "A list of column names to be deleted.") ]);
            ("sheet_name", VDict
             [ ("type", VStr "string");
               ("description", VStr "The name of the sheet to use. Defaults to the active sheet.") ]) ]);
         ("required", VList [VStr "output_filename"; VStr "columns_to_delete"]) ]) ].

Definition schema_rename_column : value :=
  VDict
    [ ("name", VStr "rename_column");
      ("description", VStr "Renames a single existing column to a new name.");
      ("parameters", VDict
       [ ("type", VStr "object");
         ("properties", VDict
          [ ("output_filename", VDict
             [ ("type", VStr "string");
               ("description", VStr "The name for the new output Excel file (e.g., 'data_renamed.xlsx').") ]);
            ("old_column_name", VDict
             [ ("type", VStr "string");
               ("description", VStr "The current name of the column you want to rename.") ]);
            ("new_column_name", VDict
             [ ("type", VStr "string");
               ("description", VStr "The new name for the column.") ]);
            ("sheet_name", VDict
             [ ("type", VStr "string");
               ("description", VStr "The name of the sheet to use. Defaults to the active sheet.") ]) ]);
         ("required", VList [VStr "output_filename"; VStr "old_column_name"; VStr "new_column_name"]) ]) ].

Definition schema_handle_duplicates : value :=
  VDict
    [ ("name", VStr "handle_duplicates");
      ("description", VStr "Finds or removes duplicate rows based on specified columns.");
      ("parameters", VDict
       [ ("type", VStr "object");
         ("properties", VDict
          [ ("output_filename", VDict
             [ ("type", VStr "string");
               ("description", VStr "The name for the new output Excel file (e.g., 'data_no_duplicates.xlsx'). Required only for 'remove' action.") ]);
            ("subset_columns", VDict
             [ ("type", VStr "array");
               ("items", VDict [("type", VStr "string")]);
               ("description", VStr "A list of column names to check for duplicates. If empty, all columns are used.") ]);
            ("action", VDict
             [ ("type", VStr "string");
               ("description", VStr "The action to perform: 'find' to report duplicates, 'remove' to delete them.");
               ("enum", VList [VStr "find"; VStr "remove"]) ]);
            ("sheet_name", VDict
             [ ("type", VStr "string");
               ("description", VStr "The name of the sheet to use. Defaults to the active sheet.") ]) ]);
         ("required", VList [VStr "action"]) ]) ].

Definition schema_fill_missing_values : value :=
  VDict
    [ ("name", VStr "fill_missing_values");
      ("description", VStr "Fills missing values (NaN) in a specified column with a given value.");
      ("parameters", VDict
       [ ("type", VStr "object");
         ("properties", VDict
          [ ("output_filename", VDict
             [ ("type", VStr "string");
               ("description", VStr "The name for the new output Excel file (e.g., 'data_filled.xlsx').") ]);
            ("column_name", VDict
             [ ("type", VStr "string");
               ("description", VStr "The name of the column with missing values to fill.") ]);
            ("fill_value", VDict
             [ ("type", VStr "string");
               ("description", VStr "The value to use for filling missing cells. It will be converted to numeric if the column is numeric.") ]);
            ("sheet_name", VDict
             [ ("type", VStr "string");
               ("description", VStr "The name of the sheet to use. Defaults to the active sheet.") ]) ]);
         ("required", VList [VStr "output_filename"; VStr "column_name"; VStr "fill_value"]) ]) ].

Definition schema_string_manipulation_in_column : value :=
  VDict
    [ ("name", VStr "string_manipulation_in_column");
      ("description", VStr "Performs a string operation (uppercase, lowercase, trim) on all values in a column.");
      ("parameters", VDict
       [ ("type", VStr "object");
         ("properties", VDict
          [ ("output_filename", VDict
             [ ("type", VStr "string");
               ("description", VStr "The name for the new output Excel file (e.g., 'data_string_op.xlsx').") ]);
            ("column_name", VDict
             [ ("type", VStr "string");
               ("description", VStr "The name of the column to perform the string operation on.") ]);
            ("operation", VDict
             [ ("type", VStr "string");
               ("description", VStr "The string operation to perform.");
               ("enum", VList [VStr "uppercase"; VStr "lowercase"; VStr "trim"]) ]);
            ("sheet_name", VDict
             [ ("type", VStr "string");
               ("description", VStr "The name of the sheet to use. Defaults to the active sheet.") ]) ]);
         ("required", VList [VStr "output_filename"; VStr "column_name"; VStr "operation"]) ]) ].

Definition schema_list_sheets : value :=
  VDict
    [ ("name", VStr "list_sheets");
      ("description", VStr "Lists all the names of the sheets in the Excel workbook.");
      ("parameters", VDict
       [ ("type", VStr "object");
         ("properties", VDict []);
         ("required", VList []) ]) ].

Definition schema_lookup_and_merge_columns : value :=
  VDict
    [ ("name", VStr "lookup_and_merge_columns");
      ("description", VStr "Merges columns from a secondary file/sheet into the primary file, similar to VLOOKUP.");
      ("parameters", VDict
       [ ("type", VStr "object");
         ("properties", VDict
          [ ("output_filename", VDict
             [ ("type", VStr "string");
               ("description", VStr "The name for the new output Excel file (e.g., 'merged_data.xlsx').") ]);
            ("left_on_column", VDict
             [ ("type", VStr "string");
               ("description", VStr "The key column in the primary (left) file to join on.") ]);
            ("right_file_path", VDict
             [ ("type", VStr "string");
               ("description", VStr "The absolute path to the secondary (right) file to merge from.") ]);
            ("right_on_column", VDict
             [ ("type", VStr "string");
               ("description", VStr "The key column in the secondary (right) file to join on.") ]);
            ("columns_to_merge", VDict
             [ ("type", VStr "array");
               ("items", VDict [("type", VStr "string")]);
               ("description", VStr "A list of column names from the secondary file to add to the primary file.") ]);
            ("sheet_name", VDict
             [ ("type", VStr "string");
               ("description", VStr "The sheet in the primary file to use. Defaults to the active sheet.") ]);
            ("right_sheet_name", VDict
             [ ("type", VStr "string");
               ("description", VStr "The sheet in the secondary file to use. Defaults to the active sheet.") ]) ]);
         ("required", VList [VStr "output_filename"; VStr "left_on_column"; VStr "right_file_path"; VStr "right_on_column"; VStr "columns_to_merge"]) ]) ].

Definition schema_group_by_and_aggregate : value :=
  VDict
    [ ("name", VStr "group_by_and_aggregate");
      ("description", VStr "Groups data by a column and calculates aggregations (e.g., sum, mean) for another column.");
      ("parameters", VDict
       [ ("type", VStr "object");
         ("properties", VDict
          [ ("output_filename", VDict
             [ ("type", VStr "string");
               ("description", VStr "The name for the new output Excel file (e.g., 'grouped_data.xlsx').") ]);
            ("group_by_column", VDict
             [ ("type", VStr "string");
               ("description", VStr "The column to group the data by.") ]);
            ("agg_column", VDict
             [ ("type", VStr "string");
               ("description", VStr "The numeric column to perform the aggregations on.") ]);
            ("agg_functions", VDict
             [ ("type", VStr "array");
               ("items", VDict
                [ ("type", VStr "string");
                  ("enum", VList [VStr "sum"; VStr "mean"; VStr "min"; VStr "max"; VStr "count"]) ]);
               ("description", VStr "A list of aggregation functions to apply.") ]);
            ("sheet_name", VDict
             [ ("type", VStr "string");
               ("description", VStr "The sheet to use. Defaults to the active sheet.") ]) ]);
         ("required", VList [VStr "output_filename"; VStr "group_by_column"; VStr "agg_column"; VStr "agg_functions"]) ]) ].

Definition schema_conditional_value_column : value :=
  VDict
    [ ("name", VStr "conditional_value_column");
      ("description", VStr "Creates a new column with values based on an if/else condition on a source column.");
      ("parameters", VDict
       [ ("type", VStr "object");
         ("properties", VDict
          [ ("output_filename", VDict
             [ ("type", VStr "string");
               ("description", VStr "The name for the new output Excel file (e.g., 'conditional_data.xlsx').") ]);
            ("new_column_name", VDict
             [ ("type", VStr "string");
               ("description", VStr "The name of the new column to create.") ]);
            ("source_column", VDict
             [ ("type", VStr "string");
               ("description", VStr "The name of the column to check the condition against.") ]);
            ("operator", VDict
             [ ("type", VStr "string");
               ("description", VStr "The comparison operator for the condition.");
               ("enum", VList [VStr "=="; VStr "!="; VStr ">"; VStr "<"; VStr ">="; VStr "<="; VStr "contains"]) ]);
            ("value", VDict
             [ ("type", VStr "string");
               ("description", VStr "The value to compare against in the condition.") ]);
            ("true_value", VDict
             [ ("type", VStr "string");
               ("description", VStr "The value to set in the new column if the condition is true.") ]);
            ("false_value", VDict
             [ ("type", VStr "string");
               ("description", VStr "The value to set in the new column if the condition is false.") ]);
            ("sheet_name", VDict
             [ ("type", VStr "string");
               ("description", VStr "The sheet to use. Defaults to the active sheet.") ]) ]);
         ("required", VList [VStr "output_filename"; VStr "new_column_name"; VStr "source_column"; VStr "operator"; VStr "value"; VStr "true_value"; VStr "false_value"]) ]) ].

Definition schema_create_sheet : value :=
  VDict
    [ ("name", VStr "create_sheet");
      ("description", VStr "Creates a new, empty sheet with a specified name in the workbook.");
      ("parameters", VDict
       [ ("type", VStr "object");
         ("properties", VDict
          [ ("output_filename", VDict
             [ ("type", VStr "string");
               ("description", VStr "The name for the new output Excel file (e.g., 'workbook_new_sheet.xlsx').") ]);
            ("new_sheet_name", VDict
             [ ("type", VStr "string");
               ("description", VStr "The name for the new sheet to be created.") ]) ]);
         ("required", VList [VStr "output_filename"; VStr "new_sheet_name"]) ]) ].

Definition schema_delete_sheet : value :=
  VDict
    [ ("name", VStr "delete_sheet");
      ("description", VStr "Deletes a specific sheet from the workbook.");
      ("parameters", VDict
       [ ("type", VStr "object");
         ("properties", VDict
          [ ("output_filename", VDict
             [ ("type", VStr "string");
               ("description", VStr "The name for the new output Excel file (e.g., 'workbook_deleted_sheet.xlsx').") ]);
            ("sheet_to_delete", VDict
             [ ("type", VStr "string");
               ("description", VStr "The name of the sheet to be deleted.") ]) ]);
         ("required", VList [VStr "output_filename"; VStr "sheet_to_delete"]) ]) ].

Definition schema_duplicate_sheet : value :=
  VDict
    [ ("name", VStr "duplicate_sheet");
      ("description", VStr "Duplicates an existing sheet and saves the workbook with the new sheet.");
      ("parameters", VDict
       [ ("type", VStr "object");
         ("properties", VDict
          [ ("output_filename", VDict
             [ ("type", VStr "string");
               ("description", VStr "The name for the new output Excel file (e.g., 'workbook_duplicated.xlsx').") ]);
            ("source_sheet", VDict
             [ ("type", VStr "string");
               ("description", VStr "The name of the existing sheet to duplicate.") ]);
            ("new_sheet_name", VDict
             [ ("type", VStr "string");
               ("description", VStr "The name for the newly created duplicate sheet.") ]) ]);
         ("required", VList [VStr "output_filename"; VStr "source_sheet"; VStr "new_sheet_name"]) ]) ].

Definition schema_apply_conditional_formatting : value :=
  VDict
    [ ("name", VStr "apply_conditional_formatting");
      ("description", VStr "Applies conditional formatting to a column based on a cell value condition.");
      ("parameters", VDict
       [ ("type", VStr "object");
         ("properties", VDict
          [ ("output_filename", VDict
             [ ("type", VStr "string");
               ("description", VStr "The name for the new output Excel file (e.g., 'formatted_data.xlsx').") ]);
            ("column_name", VDict
             [ ("type", VStr "string");
               ("description", VStr "The name of the column to apply the formatting to.") ]);
            ("operator", VDict
             [ ("type", VStr "string");
               ("description", VStr "The comparison operator for the rule.");
               ("enum", VList [VStr "greaterThan"; VStr "lessThan"; VStr "equal"; VStr "notEqual"]) ]);
            ("value", VDict
             [ ("type", VStr "string");
               ("description", VStr "The value to compare against. Must be a number for numeric comparisons.") ]);
            ("color", VDict
             [ ("type", VStr "string");
               ("description", VStr "The color to apply if the rule is met.");
               ("enum", VList [VStr "red"; VStr "green"; VStr "yellow"]) ]);
            ("sheet_name", VDict
             [ ("type", VStr "string");
               ("description", VStr "The sheet to use. Defaults to the active sheet.") ]) ]);
         ("required", VList [VStr "output_filename"; VStr "column_name"; VStr "operator"; VStr "value"; VStr "color"]) ]) ].

(** tools.get_tool_schemas *)
Definition get_tool_schemas : list value :=
  [ schema_get_data_summary;
    schema_read_rows;
    schema_get_unique_values;
    schema_column_aggregate;
    schema_filter_rows;
    schema_sort_data;
    schema_add_column_from_formula;
    schema_create_pivot_table;
    schema_create_chart;
    schema_delete_columns;
    schema_rename_column;
    schema_handle_duplicates;
    schema_fill_missing_values;
    schema_string_manipulation_in_column;
    schema_list_sheets;
    schema_lookup_and_merge_columns;
    schema_group_by_and_aggregate;
    schema_conditional_value_column;
    schema_create_sheet;
    schema_delete_sheet;
    schema_duplicate_sheet;
    schema_apply_conditional_formatting ].

(** [schema["name"]] *)
Definition schema_name (s : value) : string :=
  match py_getitem s "name" with
  | Ok (VStr n) => n
  | _ => EmptyString
  end.

(** The keys of [schema["parameters"]["properties"]] *)
Definition schema_properties (s : value) : list string :=
  match py_getitem s "parameters" with
  | Ok ps => match py_getitem ps "properties" with
             | Ok (VDict props) => dict_keys props
             | _ => []
             end
  | Raise _ => []
  end.

(** The names in [schema["parameters"]["required"]] *)
Definition schema_required (s : value) : list string :=
  match py_getitem s "parameters" with
  | Ok ps => match py_getitem ps "required" with
             | Ok (VList names) =>
                 flat_map (fun v => match v with VStr n => [n] | _ => [] end) names
             | _ => []
             end
  | Raise _ => []
  end.

(** The schema shown to the model for the tool of that name. *)
Definition schema_of (name : string) : option value :=
  find (fun s => String.eqb (schema_name s) name) get_tool_schemas.

(** The keys of the context built by [run_agent_task]. *)
Definition context_keys : list string := ["file_path"; "chart_output_dir"; "file_output_dir"].

(** Every key of [d] is one of [names]. *)
Definition keys_within (names : list string) (d : pydict) : bool :=
  forallb (fun kv => name_in (fst kv) names) d.

(** ** The web front end ([web_server.py]) *)

(** What the front end calls of Flask and of [os.path]. *)
Class WebHost {H : Host} : Type := {
  (** [flask.jsonify]: the body of the response *)
  jsonify : value -> pyres string;
  (** [os.path.abspath], which reads the working directory *)
  abspath : string -> world -> string
}.

Definition ALLOWED_EXTENSIONS : list string := ["xlsx"; "xls"].

(** [str.lower] (strings are byte strings: only [A]-[Z] change) *)
Definition lower_char (c : ascii) : ascii :=
  let n := nat_of_ascii c in
  if Nat.leb 65 n && Nat.leb n 90 then ascii_of_nat (n + 32) else c.

Fixpoint lower (s : string) : string :=
  match s with
  | EmptyString => EmptyString
  | String c s' => String (lower_char c) (lower s')
  end.

(** What follows the last [c] of [s], if [s] has one: [s.rsplit(c, 1)[1]],
    and [s[s.rfind(c) + 1:]]. *)
Fixpoint after_last (c : ascii) (s : string) : option string :=
  match s with
  | EmptyString => None
  | String a s' =>
      match after_last c s' with
      | Some t => Some t
      | None => if Ascii.eqb a c then Some s' else None
      end
  end.

(** web_server.allowed_file *)
Definition allowed_file (filename : string) : pyres bool :=
  if contains "." filename then
    match after_last "." filename with
    | Some extension => Ok (name_in (lower extension) ALLOWED_EXTENSIONS)
    | None => Raise (mk_exn (HostError "IndexError") "list index out of range")
    end
  else Ok false.

(** [posixpath.basename] *)
Definition basename (p : value) : pyres string :=
  match fspath p with
  | Raise e => Raise e
  | Ok s => Ok (match after_last "/" s with Some t => t | None => s end)
  end.

Definition chart_artifact (chart_filename : string) : value :=
  VDict [("type", VStr "chart"); ("url", VStr ("/static/charts/" ++ chart_filename))].

Definition file_artifact (output_filename : string) : value :=
  VDict [("type", VStr "file"); ("url", VStr ("/static/outputs/" ++ output_filename));
         ("filename", VStr output_filename)].

(** The artifact for the key [key] of a successful observation, if it has
    the key. *)
Definition artifact_for (d : pydict) (key : string) (make : string -> value)
    : pyres (list value) :=
  if truthy (match dict_get "success" d with Some v => v | None => VNone end)
     && dict_mem key d
  then
    match py_getitem (VDict d) key with
    | Raise e => Raise e
    | Ok p =>
        match basename p with
        | Raise e => Raise e
        | Ok n => Ok [make n]
        end
    end
  else Ok [].

(** The body of the loop over the observations in [run_agent]: what one
    observation appends to [artifacts]. *)
Definition observation_artifacts (observation : value) : pyres (list value) :=
  match observation with
  | VDict d =>
      match artifact_for d "chart_path" chart_artifact with
      | Raise e => Raise e
      | Ok charts =>
          match artifact_for d "output_file" file_artifact with
          | Raise e => Raise e
          | Ok files => Ok (charts ++ files)%list
          end
      end
  | _ => Ok []
  end.

(** The loop over the observations. *)
Fixpoint collect_artifacts (observations : list value) : pyres (list value) :=
  match observations with
  | [] => Ok []
  | o :: rest =>
      match observation_artifacts o with
      | Raise e => Raise e
      | Ok here =>
          match collect_artifacts rest with
          | Raise e => Raise e
          | Ok later => Ok (here ++ later)%list
          end
      end
  end.

Section WebServer.
Context {H : Host} {W : WebHost}.

(** [run_agent_task] on whatever values the request carries. *)
Definition initial_machine_any (user_input file_path : value) (w : world) : machine :=
  mk_machine w
    [ mk_turn "system" _create_system_prompt;
      mk_turn "user"
        ("User Request: " ++ dquote ++ py_str user_input ++ dquote ++ newline ++
         "File to be used: " ++ dquote ++ py_str file_path ++ dquote) ]
    [] [] [].

Definition tool_context_any (file_path : value) (chart_output_dir file_output_dir : string)
    : pydict :=
  [ ("file_path", file_path);
    ("chart_output_dir", VStr chart_output_dir);
    ("file_output_dir", VStr file_output_dir) ].

Definition run_agent_task_any (user_input file_path : value)
    (chart_output_dir file_output_dir : string) (w : world) : pyres result * machine :=
  match print (task_banner (py_str user_input)) (initial_machine_any user_input file_path w) with
  | (Raise e, m) => (Raise e, m)
  | (Ok _, m) =>
      agent_loop max_steps (tool_context_any file_path chart_output_dir file_output_dir) m
  end.

(** [return jsonify(body), status] *)
Definition respond (body : pyres string) (status : nat) : pyres (string * nat) :=
  match body with
  | Ok text => Ok (text, status)
  | Raise e => Raise e
  end.

(** The result record with [result['artifacts'] = artifacts]. *)
Definition with_artifacts (r : result) (artifacts : list value) : value :=
  VDict [("answer", answer r);
         ("steps", VList (map VDict (result_steps r)));
         ("observations", VList (result_observations r));
         ("artifacts", VList artifacts)].

(** web_server.run_agent, on the parsed body [data] of the request: the
    response and its status, or the exception Flask gets.  The handler's
    [traceback.print_exc()] writes to [sys.stderr] and leaves no trace in
    the response. *)
Definition run_agent (data : value) (w : world) : pyres (string * nat) * world :=
  match py_get data "prompt" VNone with
  | Raise e => (Raise e, w)
  | Ok user_input =>
      match py_get data "file_path" VNone with
      | Raise e => (Raise e, w)
      | Ok file_path =>
          if negb (truthy user_input) || negb (truthy file_path) then
            (respond (jsonify (VDict [("error", VStr "Prompt and file_path are required.")]))
               400, w)
          else
            let (ran, m) :=
              run_agent_task_any user_input file_path
                (abspath "static/charts" w) (abspath "static/outputs" w) w in
            let attempt :=
              match ran with
              | Raise e => Raise e
              | Ok r =>
                  match collect_artifacts (result_observations r) with
                  | Raise e => Raise e
                  | Ok artifacts => jsonify (with_artifacts r artifacts)
                  end
              end in
            match attempt with
            | Ok text => (Ok (text, 200), env m)
            | Raise e =>
                (respond (jsonify (VDict [("error", VStr (exn_msg e))])) 500, env m)
            end
      end
  end.
End WebServer.

(** The last component of a path. *)
Definition last_component (s : string) : string :=
  match after_last "/" s with Some t => t | None => s end.

(** ** Vocabulary of the loop invariants *)

(** [l2] is [l1] with something appended. *)
Definition extends_list {A} (l1 l2 : list A) : Prop := exists rest, l2 = (l1 ++ rest)%list.

(** The histories the model was called on, in order. *)
Fixpoint llm_histories (tr : list event) : list (list turn) :=
  match tr with
  | [] => []
  | LLMCall h :: tr' => h :: llm_histories tr'
  | ToolCall _ _ :: tr' => llm_histories tr'
  end.

(** A step has a thought, and an observation exactly when it has a tool call. *)
Definition step_shape (st : pydict) : bool :=
  dict_mem "thought" st &&
  Bool.eqb (dict_mem "tool_call" st) (dict_mem "observation" st).

(** [tool_call.get("tool_name")] and [tool_call.get("parameters", {})] on a dict. *)
Definition tool_name_of (c : pydict) : value :=
  match dict_get "tool_name" c with Some v => v | None => VNone end.
Definition parameters_of (c : pydict) : value :=
  match dict_get "parameters" c with Some v => v | None => VDict [] end.

Section LoopVocabulary.
Context {H : Host}.
(** One machine is a later state of another: the four lists only grew. *)
Definition grows (m m' : machine) : Prop :=
  extends_list (conversation_history m) (conversation_history m') /\
  extends_list (steps m) (steps m') /\
  extends_list (observations m) (observations m') /\
  extends_list (trace m) (trace m').
End LoopVocabulary.

(** Each history extends the one before it, the first one extends [h0]. *)
Fixpoint increasing (h0 : list turn) (hs : list (list turn)) : Prop :=
  match hs with
  | [] => True
  | h :: hs' => extends_list h0 h /\ increasing h hs'
  end.

(** The ["observation"] entries of the steps, in order. *)
Definition observation_texts (sts : list pydict) : list value :=
  flat_map (fun st => match dict_get "observation" st with
                      | Some v => [v]
                      | None => []
                      end) sts.

(** The kinds of the exceptions raised before the body of a tool runs. *)
Definition early_kind (e : exn) : Prop :=
  exn_kind e = TypeError \/ exn_kind e = ValueError.

(** No character of [s] is [c]. *)
Fixpoint lacks_char (c : ascii) (s : string) : bool :=
  match s with
  | EmptyString => true
  | String a s' => negb (Ascii.eqb a c) && lacks_char c s'
  end.

(** The parameter that names the directory a tool saves to. *)
Definition output_dir_param (f : tool_impl) : option string :=
  match impl_entry f with
  | ReadOnly => None
  | WritesTo dir => Some dir
  | ChartTo dir => Some dir
  end.

(** The name [create_chart] gives a chart at time [t]. *)
Definition default_chart_name (t : Z) : string := "chart_" ++ str_of_Z t ++ ".png".

Section RecordVocabulary.
Context {H : Host}.

(** An observation and the text recorded for it in its step. *)
Definition recorded_as (o v : value) : Prop :=
  exists s, json_dumps o = Ok s /\ v = VStr s.
End RecordVocabulary.

Section TurnVocabulary.
Context {H : Host}.

(** What the call site in the loop records for a tool call made on the
    world [w]: the observation of the dispatcher, or the failure
    observation when it raised. *)
Definition recorded_observation (tool_name parameters : value) (ctx : pydict) (w : world)
    : value :=
  match fst (execute_tool tool_name parameters ctx w) with
  | Ok obs => obs
  | Raise e => failure_observation tool_name e
  end.

(** The machine after a tool turn: the model said [s] (a decision with
    thought [thought] and tool call [c]), the tool ran on [w'], and the
    observation was serialized to [observation]. *)
Definition after_tool_turn (m : machine) (ctx : pydict) (s : string) (w' : world)
    (thought : value) (c : pydict) (observation : string) : machine :=
  mk_machine (snd (execute_tool (tool_name_of c) (parameters_of c) ctx w'))
    (conversation_history m ++
       [mk_turn "assistant" s; mk_turn "user" ("Observation: " ++ observation)])
    (steps m ++ [[("thought", thought); ("tool_call", VDict c);
                  ("observation", VStr observation)]])
    (observations m ++ [recorded_observation (tool_name_of c) (parameters_of c) ctx w'])
    (trace m ++ [LLMCall (conversation_history m);
                 ToolCall (tool_name_of c) (parameters_of c)]).
End TurnVocabulary.

(** ** A second test double

    As [Stub], with more model texts, a serializer that fails on the rows
    [read_rows] returns (as [json.dumps] does on a date cell), a body for
    [read_rows] that returns rows, and a console that encodes every
    character. *)

Module Lab.
Definition q (s : string) : string := Stub.q s.

Definition unknown_tool_text : string :=
  "{" ++ q "thought" ++ ": " ++ q "brew" ++ ", " ++ q "tool_call" ++ ": {" ++
  q "tool_name" ++ ": " ++ q "make_coffee" ++ ", " ++ q "parameters" ++ ": {}}}".
Definition string_call_text : string :=
  "{" ++ q "thought" ++ ": " ++ q "list" ++ ", " ++ q "tool_call" ++ ": " ++
  q "list_sheets" ++ "}".
Definition read_rows_text : string :=
  "{" ++ q "thought" ++ ": " ++ q "peek" ++ ", " ++ q "tool_call" ++ ": {" ++
  q "tool_name" ++ ": " ++ q "read_rows" ++ ", " ++ q "parameters" ++ ": {" ++
  q "limit" ++ ": 2}}}".
Definition sort_text : string :=
  "{" ++ q "thought" ++ ": " ++ q "sort" ++ ", " ++ q "tool_call" ++ ": {" ++
  q "tool_name" ++ ": " ++ q "sort_data" ++ ", " ++ q "parameters" ++ ": {" ++
  q "output_filename" ++ ": " ++ q "sorted.xlsx" ++ ", " ++
  q "sort_by_column" ++ ": " ++ q "Revenue" ++ "}}}".

Definition unknown_tool_call : pydict :=
  [("tool_name", VStr "make_coffee"); ("parameters", VDict [])].
Definition read_rows_call : pydict :=
  [("tool_name", VStr "read_rows"); ("parameters", VDict [("limit", VInt 2)])].
Definition sort_parameters : pydict :=
  [("output_filename", VStr "sorted.xlsx"); ("sort_by_column", VStr "Revenue")].
Definition sort_call : pydict :=
  [("tool_name", VStr "sort_data"); ("parameters", VDict sort_parameters)].

Definition decoded : list (string * value) :=
  [ (unknown_tool_text, VDict [("thought", VStr "brew"); ("tool_call", VDict unknown_tool_call)]);
    (string_call_text, VDict [("thought", VStr "list"); ("tool_call", VStr "list_sheets")]);
    (read_rows_text, VDict [("thought", VStr "peek"); ("tool_call", VDict read_rows_call)]);
    (sort_text, VDict [("thought", VStr "sort"); ("tool_call", VDict sort_call)]) ]
  ++ Stub.decoded.

Definition loads (s : string) : pyres value :=
  match dict_get s decoded with
  | Some v => Ok v
  | None => Raise (mk_exn (HostError "JSONDecodeError") "Expecting value: line 1 column 1 (char 0)")
  end.

Definition dumps (v : value) : pyres string :=
  match v with
  | VList _ => Raise (mk_exn TypeError "Object of type datetime is not JSON serializable")
  | _ => Stub.dumps v
  end.

Definition body (name : string) (args : pydict) (path : option string) (w : Stub.stub_world)
    : pyres value * Stub.stub_world :=
  if String.eqb name "read_rows"
  then (Ok (VList [VDict [("Month", VStr "Jan"); ("Revenue", VInt 10)];
                   VDict [("Month", VStr "Feb"); ("Revenue", VInt 20)]]), w)
  else Stub.body name args path w.

#[export, refine] Instance host : Host := {|
  world := Stub.stub_world;
  llm_complete := Stub.complete;
  json_loads := loads;
  json_dumps := dumps;
  str_other := Stub.str_value;
  time_now := Stub.clock;
  tools_schema_str := "[]";
  tool_body := body;
  stdout_encodes := fun _ => true;
  json_dumps_ascii := _;
  json_dumps_error_ascii := _;
  json_loads_error_ascii := _
|}.
Proof.
  - intros v s Hd.
    assert (Hs : Stub.dumps v = Ok s) by (destruct v; try exact Hd; discriminate Hd).
    exact (json_dumps_ascii (Host := Stub.host) v s Hs).
  - intros v e. destruct v; intros [= <-]. reflexivity.
  - intros s e. unfold loads. destruct (dict_get s decoded); intros [= <-]. reflexivity.
Defined.

Definition w0 (answers : list string) : Stub.stub_world := Stub.w0 answers.

Definition m0 (answers : list string) : machine :=
  initial_machine "tidy the workbook" "uploads/data.xlsx" (w0 answers).

Definition run (answers : list string) : pyres result * machine :=
  run_agent_task "tidy the workbook" "uploads/data.xlsx"
    "/srv/static/charts" "/srv/static/outputs" (w0 answers).
End Lab.

(** A test double for Flask and the working directory. *)
Module WebStub.
#[export] Instance web : WebHost (H := Lab.host) := {|
  jsonify := Stub.dumps;
  abspath := fun p _ => "/srv/" ++ p
|}.

End WebStub.

(** ** Artifact links *)

(** [artifact["url"]] *)
Definition artifact_url (a : value) : option string :=
  match py_getitem a "url" with
  | Ok (VStr u) => Some u
  | _ => None
  end.

(** A URL directly under one of the two static folders. *)
Definition flat_static_url (u : string) : Prop :=
  exists n, lacks_char "/" n = true /\
            (u = "/static/charts/" ++ n \/ u = "/static/outputs/" ++ n).

(** The values under [chart_path] and [output_file] of the observations
    that are records are strings. *)
Definition paths_are_strings (observations : list value) : Prop :=
  forall d key v,
    In (VDict d) observations ->
    key = "chart_path" \/ key = "output_file" ->
    dict_get key d = Some v ->
    exists s, v = VStr s.

(** * Properties *)

(** ** Tactics *)

Ltac unfold_iteration :=
  unfold iteration, try_except, loop_body, _call_llm, print, bind, ret, lift, get_history,
    record, on_world, append_history, append_step, append_observation, returned.

Ltac reduce_machine :=
  cbv beta iota zeta; cbn [env conversation_history steps observations trace fst snd].

(** Case analysis on the innermost scrutinee of the goal. *)
Ltac split_match :=
  match goal with
  | |- context [match ?x with _ => _ end] =>
      lazymatch x with
      | context [match _ with _ => _ end] => fail
      | _ => destruct x eqn:?
      end
  end.


(** ** The model on small inputs *)

Example safe_path_joins :
  _get_safe_path (H := Stub.host) (VStr "/srv/static/outputs") (VStr "sorted.xlsx")
  = Ok "/srv/static/outputs/sorted.xlsx"
  /\ _get_safe_path (H := Stub.host) (VStr "/srv/static/outputs/") (VStr "sub/sorted.xlsx")
     = Ok "/srv/static/outputs/sub/sorted.xlsx".
Proof. split; reflexivity. Qed.

Example safe_path_rejects :
  _get_safe_path (H := Stub.host) (VStr "/srv/static/outputs") (VStr "../evil.xlsx")
  = Raise (invalid_filename "../evil.xlsx")
  /\ _get_safe_path (H := Stub.host) (VStr "/srv/static/outputs") (VStr "/etc/passwd")
     = Raise (invalid_filename "/etc/passwd")
  /\ _get_safe_path (H := Stub.host) (VStr "/srv/static/outputs") (VStr "a..b.xlsx")
     = Raise (invalid_filename "a..b.xlsx")
  /\ _get_safe_path (H := Stub.host) (VStr "/srv/static/outputs") (VInt 7)
     = Raise (mk_exn TypeError "argument of type 'int' is not iterable").
Proof. repeat split; reflexivity. Qed.

Example missing_arguments_message :
  fst (execute_tool (H := Stub.host) (VStr "filter_rows")
         (VDict [("output_filename", VStr "out.xlsx")]) Stub.context (Stub.w0 []))
  = Raise (mk_exn TypeError
      "filter_rows() missing 3 required positional arguments: 'column_name', 'operator', and 'value'")
  /\ fst (execute_tool (H := Stub.host) (VStr "get_unique_values")
            (VDict []) Stub.context (Stub.w0 []))
     = Raise (mk_exn TypeError
         "get_unique_values() missing 1 required positional argument: 'column_name'").
Proof. split; reflexivity. Qed.

Example chart_default_filename :
  execute_tool (H := Stub.host) (VStr "create_chart")
    (VDict [("chart_type", VStr "bar"); ("x_column", VStr "Month"); ("y_column", VStr "Revenue")])
    Stub.context (Stub.w0 [])
  = (Ok (VDict [("success", VBool true);
                ("output_file", VStr "/srv/static/charts/chart_1700000000.png")]),
     Stub.mk_world [] ["/srv/static/charts/chart_1700000000.png"] 1700000000).
Proof. reflexivity. Qed.

Example parameters_not_a_mapping :
  fst (execute_tool (H := Stub.host) (VStr "list_sheets") VNone Stub.context (Stub.w0 []))
  = Raise (mk_exn TypeError "'NoneType' object is not a mapping")
  /\ fst (dispatch (H := Stub.host) (VStr "list_sheets") VNone Stub.context (Stub.m0 []))
     = Ok (VDict [("error",
                   VStr "Tool 'list_sheets' failed with error: 'NoneType' object is not a mapping")]).
Proof. split; reflexivity. Qed.

(** A task of three turns: a read, a rejected write, then a turn with no
    decision. *)
Example three_turn_task :
  let out := Stub.run [Stub.list_sheets_text; Stub.evil_text; Stub.thought_only_text] in
  exists r,
    fst out = Ok r
    /\ answer r = VStr "I am not sure how to proceed."
    /\ List.length (result_steps r) = 2
    /\ result_observations r
       = [ VDict [("success", VBool true)];
           VDict [("error",
                   VStr ("Tool 'create_sheet' failed with error: " ++
                         exn_msg (invalid_filename "../evil.xlsx")))] ]
    /\ llm_calls (trace (snd out)) = 3
    /\ tool_calls (trace (snd out)) = 2
    /\ Stub.written (env (snd out)) = [].
Proof. vm_compute. eexists. repeat split; reflexivity. Qed.

(** A turn whose thought the console cannot encode ends in the handler. *)
Example unprintable_thought_task :
  printable (H := Stub.host) ("LLM Thought: " ++ Stub.mute) = false
  /\ Stub.run [Stub.mute_final_text]
     = (Ok (mk_result (VStr "I encountered an unexpected error.") [] []),
        mk_machine (H := Stub.host) (Stub.w0 [])
          (conversation_history (Stub.m0 []) ++ [mk_turn "assistant" Stub.mute_final_text])
          [] [] [LLMCall (conversation_history (Stub.m0 []))]).
Proof. split; reflexivity. Qed.

(** ** Dictionaries *)

Section DictFacts.
Context {V : Type}.
Implicit Types (d a b : list (string * V)) (k : string) (v : V).

Lemma dict_get_set k k' v d :
  dict_get k (dict_set k' v d) = if String.eqb k k' then Some v else dict_get k d.
Proof.
  induction d as [|[k1 v1] d IH]; simpl.
  - reflexivity.
  - destruct (String.eqb k' k1) eqn:E1; simpl.
    + apply String.eqb_eq in E1. subst k1.
      destruct (String.eqb k k'); reflexivity.
    + rewrite IH. destruct (String.eqb k k1) eqn:E2; [|reflexivity].
      apply String.eqb_eq in E2. subst k1.
      rewrite String.eqb_sym, E1. reflexivity.
Qed.

Lemma dict_get_merge k a b :
  distinct_keys b = true ->
  dict_get k (dict_merge a b) =
  match dict_get k b with Some v => Some v | None => dict_get k a end.
Proof.
  unfold dict_merge. revert a.
  induction b as [|[k1 v1] b IH]; intros a Hb; simpl in *.
  - reflexivity.
  - apply andb_true_iff in Hb. destruct Hb as [Hk1 Hb].
    rewrite (IH _ Hb), dict_get_set.
    destruct (String.eqb k k1) eqn:E; [|reflexivity].
    apply String.eqb_eq in E. subst k1.
    unfold dict_mem in Hk1. destruct (dict_get k b); [discriminate|reflexivity].
Qed.

Lemma dict_get_filter_keys (p : string -> bool) k d :
  dict_get k (dict_filter_keys p d) = if p k then dict_get k d else None.
Proof.
  unfold dict_filter_keys.
  induction d as [|[k1 v1] d IH]; simpl.
  - destruct (p k); reflexivity.
  - destruct (p k1) eqn:P1; simpl.
    + destruct (String.eqb k k1) eqn:E; [|exact IH].
      apply String.eqb_eq in E. subst k1. rewrite P1. reflexivity.
    + rewrite IH. destruct (String.eqb k k1) eqn:E; [|reflexivity].
      apply String.eqb_eq in E. subst k1. rewrite P1. reflexivity.
Qed.

Lemma dict_filter_keys_sound (p : string -> bool) d k :
  In k (dict_keys (dict_filter_keys p d)) -> p k = true.
Proof.
  unfold dict_keys, dict_filter_keys. rewrite in_map_iff.
  intros [[k' v] [Hk Hin]]. simpl in Hk. subst k'.
  apply filter_In in Hin. exact (proj2 Hin).
Qed.

Lemma dict_mem_set k k' v d :
  dict_mem k (dict_set k' v d) = String.eqb k k' || dict_mem k d.
Proof.
  unfold dict_mem. rewrite dict_get_set.
  destruct (String.eqb k k'); reflexivity.
Qed.

Lemma distinct_keys_set k v d :
  distinct_keys d = true -> distinct_keys (dict_set k v d) = true.
Proof.
  induction d as [|[k1 v1] d IH]; simpl; intros Hd.
  - reflexivity.
  - apply andb_true_iff in Hd. destruct Hd as [H1 Hd].
    destruct (String.eqb k k1) eqn:E; simpl.
    + apply String.eqb_eq in E. subst k1. rewrite H1, Hd. reflexivity.
    + rewrite dict_mem_set, (String.eqb_sym k1 k), E. simpl.
      rewrite H1, (IH Hd). reflexivity.
Qed.

Lemma distinct_keys_merge a b :
  distinct_keys a = true -> distinct_keys (dict_merge a b) = true.
Proof.
  unfold dict_merge. revert a.
  induction b as [|[k1 v1] b IH]; intros a Ha; simpl.
  - exact Ha.
  - apply IH. apply distinct_keys_set. exact Ha.
Qed.

Lemma dict_mem_filter_keys (p : string -> bool) k d :
  dict_mem k (dict_filter_keys p d) = p k && dict_mem k d.
Proof.
  unfold dict_mem. rewrite dict_get_filter_keys.
  destruct (p k); reflexivity.
Qed.

Lemma distinct_keys_filter (p : string -> bool) d :
  distinct_keys d = true -> distinct_keys (dict_filter_keys p d) = true.
Proof.
  induction d as [|[k1 v1] d IH]; simpl; intros Hd.
  - reflexivity.
  - apply andb_true_iff in Hd. destruct Hd as [H1 Hd].
    destruct (p k1) eqn:P1; simpl.
    + fold (dict_filter_keys p d).
      rewrite dict_mem_filter_keys, P1. simpl.
      rewrite H1. simpl. apply IH, Hd.
    + apply IH, Hd.
Qed.
End DictFacts.

(** ** Strings *)

Lemma prefix_app (p s : string) : String.prefix p (p ++ s) = true.
Proof.
  induction p as [|a p IH]; simpl.
  - destruct s; reflexivity.
  - destruct (ascii_dec a a) as [_|N]; [exact IH | contradiction].
Qed.

Lemma contains_prefix (p s : string) : String.prefix p s = true -> contains p s = true.
Proof.
  intros Hp. destruct s; cbn [contains]; rewrite Hp; reflexivity.
Qed.

Lemma contains_app (p a b : string) : contains p (a ++ p ++ b) = true.
Proof.
  induction a as [|c a IH]; simpl.
  - apply contains_prefix, prefix_app.
  - rewrite IH. apply orb_true_r.
Qed.

(** ** The registry *)

Lemma registry_is_TOOLS : _TOOL_IMPLEMENTATIONS = TOOLS.
Proof. reflexivity. Qed.

Lemma registry_names_distinct : distinct_keys _TOOL_IMPLEMENTATIONS = true.
Proof. reflexivity. Qed.

Lemma registry_names_are_function_names :
  forallb (fun t => String.eqb (fst t) (impl_name (snd t))) _TOOL_IMPLEMENTATIONS = true.
Proof. reflexivity. Qed.

Lemma dict_get_In {V} (k : string) (d : list (string * V)) (v : V) :
  dict_get k d = Some v -> In (k, v) d.
Proof.
  induction d as [|[k1 v1] d IH]; simpl; [discriminate|].
  destruct (String.eqb k k1) eqn:E.
  - apply String.eqb_eq in E. intros [= ->]. subst. left. reflexivity.
  - intros Hd. right. exact (IH Hd).
Qed.

(** A property checked on every entry holds of every resolved tool. *)
Lemma registry_forall (P : tool_impl -> bool) :
  forallb (fun t => P (snd t)) _TOOL_IMPLEMENTATIONS = true ->
  forall name f, dict_get name _TOOL_IMPLEMENTATIONS = Some f -> P f = true.
Proof.
  intros HP name f Hf. apply dict_get_In in Hf.
  rewrite forallb_forall in HP. exact (HP _ Hf).
Qed.

(** ** The dispatcher *)

Section DispatcherFacts.
Context {H : Host}.

Lemma execute_tool_resolved name f (parameters context : pydict) w :
  dict_get name _TOOL_IMPLEMENTATIONS = Some f ->
  execute_tool (VStr name) (VDict parameters) context w =
  call_tool f (passed f parameters context) w.
Proof.
  intros Hf. unfold execute_tool, resolve, full_params, passed.
  rewrite Hf. reflexivity.
Qed.

Lemma passed_lookup f (parameters context : pydict) k :
  distinct_keys parameters = true ->
  dict_get k (passed f parameters context) =
  merged_and_projected (signature_keys f) parameters context k.
Proof.
  intros Hp. unfold passed, params_to_pass, merged_and_projected.
  rewrite dict_get_filter_keys, (dict_get_merge _ _ _ Hp). reflexivity.
Qed.

Lemma passed_keys_accepted f (parameters context : pydict) k :
  In k (dict_keys (passed f parameters context)) ->
  name_in k (signature_keys f) = true.
Proof.
  unfold passed, params_to_pass. intros Hk.
  exact (dict_filter_keys_sound _ _ _ Hk).
Qed.
End DispatcherFacts.

Lemma find_none_of_all {A} (p : A -> bool) (l : list A) :
  (forall x, In x l -> p x = false) -> find p l = None.
Proof.
  induction l as [|a l IH]; intros Hall; [reflexivity|].
  cbn [find]. rewrite (Hall a (or_introl eq_refl)).
  apply IH. intros x Hx. apply Hall. right. exact Hx.
Qed.

(** After the projection no keyword is unexpected: binding can only fail
    on a missing required parameter. *)
Lemma bind_passed (f : tool_impl) (parameters context : pydict) :
  missing_params f (passed f parameters context) = [] ->
  exists args, bind_arguments f (passed f parameters context) = Ok args.
Proof.
  intros Hm. unfold bind_arguments.
  rewrite find_none_of_all.
  - rewrite Hm. eexists. reflexivity.
  - intros [k v] Hin. cbn [fst].
    rewrite (passed_keys_accepted f parameters context k); [reflexivity|].
    unfold dict_keys. apply in_map_iff. exists (k, v). split; [reflexivity|exact Hin].
Qed.

(** C5. For a tool name that is not in the registry, whatever the
    parameters and the context, [execute_tool] returns the observation
    [{"error": "Tool '<name>' does not exist."}], whose message contains the
    name; it does not raise and leaves the world as it was. *)
Theorem execute_tool_unknown_name :
  forall (H : Host) (name : string) (parameters : value) (context : pydict) (w : world),
    dict_mem name _TOOL_IMPLEMENTATIONS = false ->
    execute_tool (VStr name) parameters context w =
      (Ok (VDict [("error", VStr ("Tool '" ++ name ++ "' does not exist."))]), w)
    /\ contains name ("Tool '" ++ name ++ "' does not exist.") = true.
Proof.
  intros H name parameters context w Hname. split.
  - unfold execute_tool, resolve. unfold dict_mem in Hname.
    destruct (dict_get name _TOOL_IMPLEMENTATIONS); [discriminate|reflexivity].
  - apply (contains_app name "Tool '" "' does not exist.").
Qed.

Lemma execute_tool_unknown_name_witness :
  dict_mem "no_such_tool" _TOOL_IMPLEMENTATIONS = false /\
  execute_tool (H := Stub.host) (VStr "no_such_tool") (VDict []) Stub.context (Stub.w0 []) =
    (Ok (VDict [("error", VStr "Tool 'no_such_tool' does not exist.")]), Stub.w0 []).
Proof.
  split; [reflexivity|].
  exact (proj1 (execute_tool_unknown_name Stub.host "no_such_tool" (VDict [])
                  Stub.context (Stub.w0 []) eq_refl)).
Defined.

(** C2. For a registered tool and any declared parameters and context,
    the implementation is called on a mapping that equals, key by key, the
    merge of the context and the declared parameters (the declared
    parameters winning on a shared key) restricted to the parameter names of
    the implementation's signature; every key of it is such a name, its
    keys are distinct, and the keys that were dropped cost nothing: the
    call binds as soon as no required parameter is missing. *)
Theorem execute_tool_passes_projected_merge :
  forall (H : Host) (name : string) (f : tool_impl) (parameters context : pydict) (w : world),
    dict_get name _TOOL_IMPLEMENTATIONS = Some f ->
    distinct_keys parameters = true ->
    distinct_keys context = true ->
    execute_tool (VStr name) (VDict parameters) context w =
      call_tool f (passed f parameters context) w
    /\ (forall k, dict_get k (passed f parameters context) =
                  merged_and_projected (signature_keys f) parameters context k)
    /\ (forall k, In k (dict_keys (passed f parameters context)) ->
                  name_in k (signature_keys f) = true)
    /\ distinct_keys (passed f parameters context) = true
    /\ (missing_params f (passed f parameters context) = [] ->
        exists args, bind_arguments f (passed f parameters context) = Ok args).
Proof.
  intros H name f parameters context w Hf Hp Hc.
  split; [exact (execute_tool_resolved name f parameters context w Hf)|].
  split; [intros k; exact (passed_lookup f parameters context k Hp)|].
  split; [intros k; exact (passed_keys_accepted f parameters context k)|].
  split; [|exact (bind_passed f parameters context)].
  unfold passed, params_to_pass.
  apply distinct_keys_filter, distinct_keys_merge, Hc.
Qed.

Lemma execute_tool_passes_projected_merge_witness :
  passed sort_data
    [("sheet_name", VStr "Q1"); ("sort_by_column", VStr "Revenue");
     ("output_filename", VStr "sorted.xlsx"); ("colour", VStr "red")]
    (("sheet_name", VStr "Sheet1") :: Stub.context)
  = [("sheet_name", VStr "Q1"); ("file_path", VStr "uploads/data.xlsx");
     ("file_output_dir", VStr "/srv/static/outputs");
     ("sort_by_column", VStr "Revenue"); ("output_filename", VStr "sorted.xlsx")]
  /\ dict_get "sheet_name"
       (passed sort_data
          [("sheet_name", VStr "Q1"); ("sort_by_column", VStr "Revenue");
           ("output_filename", VStr "sorted.xlsx"); ("colour", VStr "red")]
          (("sheet_name", VStr "Sheet1") :: Stub.context))
     = merged_and_projected (signature_keys sort_data)
         [("sheet_name", VStr "Q1"); ("sort_by_column", VStr "Revenue");
          ("output_filename", VStr "sorted.xlsx"); ("colour", VStr "red")]
         (("sheet_name", VStr "Sheet1") :: Stub.context) "sheet_name".
Proof.
  split; [reflexivity|].
  exact (proj1 (proj2 (execute_tool_passes_projected_merge Stub.host "sort_data" sort_data
    [("sheet_name", VStr "Q1"); ("sort_by_column", VStr "Revenue");
     ("output_filename", VStr "sorted.xlsx"); ("colour", VStr "red")]
    (("sheet_name", VStr "Sheet1") :: Stub.context) (Stub.w0 [])
    eq_refl eq_refl eq_refl)) "sheet_name").
Defined.

(** C1 (refuted on the code).  The declared parameters are merged over the
    context, so a declared [file_output_dir] replaces the caller's: with
    the caller's output directory [/srv/static/outputs] and the declared
    parameters below, [filter_rows] binds [file_output_dir] to [/tmp/evil]
    and runs its body on the output path [/tmp/evil/out.xlsx]; with the
    test double, that is the path written. *)
Theorem declared_output_dir_overrides_context :
  dict_get "file_output_dir"
    (passed filter_rows
       [("file_output_dir", VStr "/tmp/evil"); ("output_filename", VStr "out.xlsx");
        ("column_name", VStr "Revenue"); ("operator", VStr ">"); ("value", VInt 10)]
       (tool_context "uploads/data.xlsx" "/srv/static/charts" "/srv/static/outputs"))
  = Some (VStr "/tmp/evil")
  /\
  (forall (H : Host) (w : world),
     execute_tool (VStr "filter_rows")
       (VDict [("file_output_dir", VStr "/tmp/evil"); ("output_filename", VStr "out.xlsx");
               ("column_name", VStr "Revenue"); ("operator", VStr ">"); ("value", VInt 10)])
       (tool_context "uploads/data.xlsx" "/srv/static/charts" "/srv/static/outputs") w
     = run_body filter_rows
         [("file_path", VStr "uploads/data.xlsx"); ("file_output_dir", VStr "/tmp/evil");
          ("output_filename", VStr "out.xlsx"); ("column_name", VStr "Revenue");
          ("operator", VStr ">"); ("value", VInt 10); ("sheet_name", VNone)]
         (Some "/tmp/evil/out.xlsx") w)
  /\ Stub.written
       (snd (execute_tool (H := Stub.host) (VStr "filter_rows")
          (VDict [("file_output_dir", VStr "/tmp/evil"); ("output_filename", VStr "out.xlsx");
                  ("column_name", VStr "Revenue"); ("operator", VStr ">"); ("value", VInt 10)])
          (tool_context "uploads/data.xlsx" "/srv/static/charts" "/srv/static/outputs")
          (Stub.w0 [])))
     = ["/tmp/evil/out.xlsx"].
Proof.
  split; [reflexivity|]. split; [intros H w|]; reflexivity.
Qed.

(** ** Path validation *)

Lemma first_segment_prefix (s seg : string) (rest : list string) :
  path_segments s = seg :: rest -> String.prefix seg s = true.
Proof.
  revert seg rest. induction s as [|a s IH]; intros seg rest; simpl.
  - intros [= <- _]. reflexivity.
  - destruct (Ascii.eqb a "/").
    + intros [= <- _]. reflexivity.
    + destruct (path_segments s) as [|seg' rest'] eqn:E.
      * intros [= <- _]. simpl.
        destruct (ascii_dec a a) as [_|N]; [|contradiction]. destruct s; reflexivity.
      * intros [= <- _]. simpl.
        destruct (ascii_dec a a) as [_|N]; [|contradiction].
        exact (IH _ _ eq_refl).
Qed.

Lemma has_parent_segment_contains (s : string) :
  has_parent_segment s = true -> contains ".." s = true.
Proof.
  unfold has_parent_segment.
  induction s as [|a s IH].
  - cbn. discriminate.
  - cbn [path_segments contains]. destruct (Ascii.eqb a "/") eqn:Ea.
    + cbn [existsb]. intros Hs. apply orb_true_iff in Hs. destruct Hs as [Hs|Hs].
      * apply String.eqb_eq in Hs. discriminate Hs.
      * rewrite (IH Hs). apply orb_true_r.
    + destruct (path_segments s) as [|seg rest] eqn:E; cbn [existsb];
        intros Hs; apply orb_true_iff in Hs; destruct Hs as [Hs|Hs].
      * apply String.eqb_eq in Hs. discriminate Hs.
      * discriminate Hs.
      * apply String.eqb_eq in Hs. injection Hs as <- <-.
        pose proof (first_segment_prefix s _ _ E) as Hp.
        destruct s as [|b s]; [discriminate Hp|].
        cbn [String.prefix] in Hp.
        destruct (ascii_dec "." b) as [<-|]; [|discriminate Hp].
        destruct s; reflexivity.
      * rewrite IH; [apply orb_true_r|].
        cbn [existsb]. rewrite Hs. apply orb_true_r.
Qed.

Lemma is_absolute_startswith (s : string) :
  is_absolute s = true -> startswith "/" s = true.
Proof.
  destruct s as [|a s]; simpl; [discriminate|].
  intros Ha. apply Ascii.eqb_eq in Ha. subst a. destruct s; reflexivity.
Qed.

Section PathFacts.
Context {H : Host}.

Lemma _get_safe_path_rejects (output_dir : value) (s : string) :
  traversal_or_absolute s = true ->
  _get_safe_path output_dir (VStr s) = Raise (invalid_filename s).
Proof.
  unfold traversal_or_absolute. intros Hs.
  unfold _get_safe_path, py_in, isabs, fspath, py_str.
  destruct (contains ".." s) eqn:Ec; [reflexivity|].
  destruct (has_parent_segment s) eqn:Ep.
  - rewrite (has_parent_segment_contains s Ep) in Ec. discriminate.
  - simpl in Hs. rewrite (is_absolute_startswith s Hs). reflexivity.
Qed.
End PathFacts.

(** ** Binding and the entry of a write tool *)

Lemma bound_lookup (kwargs : pydict) (params : list (string * option value)) k v :
  name_in k (map fst params) = true ->
  dict_get k kwargs = Some v ->
  dict_get k
    (map (fun p =>
            (fst p,
             match dict_get (fst p) kwargs with
             | Some x => x
             | None => match snd p with Some dflt => dflt | None => VNone end
             end)) params) = Some v.
Proof.
  intros Hin Hk. induction params as [|p ps IH]; [discriminate Hin|].
  cbn [map dict_get fst]. unfold name_in in Hin. cbn [map existsb] in Hin.
  destruct (String.eqb k (fst p)) eqn:E.
  - apply String.eqb_eq in E. subst k. rewrite Hk. reflexivity.
  - apply IH. exact Hin.
Qed.

Lemma bind_arguments_lookup (f : tool_impl) (kwargs args : pydict) k v :
  bind_arguments f kwargs = Ok args ->
  name_in k (signature_keys f) = true ->
  dict_get k kwargs = Some v ->
  local args k = v.
Proof.
  unfold bind_arguments, local. intros Hb Hin Hk.
  destruct (find _ kwargs) as [[k' v']|]; [discriminate Hb|].
  destruct (missing_params f kwargs); [|discriminate Hb].
  injection Hb as <-.
  rewrite (bound_lookup kwargs (impl_params f) k v Hin Hk). reflexivity.
Qed.

Section WriteToolFacts.
Context {H : Host}.

Lemma prologue_rejects (f : tool_impl) (args : pydict) (s : string) (w : world) :
  is_write_tool f = true ->
  local args "output_filename" = VStr s ->
  traversal_or_absolute s = true ->
  prologue f args w = Raise (invalid_filename s).
Proof.
  unfold is_write_tool, prologue. intros Hw Hl Hs.
  destruct (impl_entry f) as [|dir|dir]; [discriminate Hw| |].
  - rewrite Hl, (_get_safe_path_rejects _ s Hs). reflexivity.
  - rewrite Hl. rewrite Hl, (_get_safe_path_rejects _ s Hs). reflexivity.
Qed.

(** A write tool called with an unsafe [output_filename] raises, and the
    world is as before the call. *)
Lemma call_tool_rejects (f : tool_impl) (kwargs : pydict) (s : string) (w : world) :
  is_write_tool f = true ->
  name_in "output_filename" (signature_keys f) = true ->
  dict_get "output_filename" kwargs = Some (VStr s) ->
  traversal_or_absolute s = true ->
  exists e,
    call_tool f kwargs w = (Raise e, w) /\
    (forall args, bind_arguments f kwargs = Ok args -> e = invalid_filename s).
Proof.
  intros Hw Hin Hk Hs. unfold call_tool.
  destruct (bind_arguments f kwargs) as [args|e] eqn:Hb.
  - exists (invalid_filename s).
    rewrite (prologue_rejects f args s w Hw
               (bind_arguments_lookup f kwargs args _ _ Hb Hin Hk) Hs).
    split; reflexivity.
  - exists e. split; [reflexivity|]. intros args Habs. discriminate Habs.
Qed.

(** The call site in the loop, in one equation. *)
Lemma dispatch_eq (tool_name parameters : value) (context : pydict) (m : machine) :
  dispatch tool_name parameters context m =
  (Ok (match fst (execute_tool tool_name parameters context (env m)) with
       | Ok obs => obs
       | Raise e => failure_observation tool_name e
       end),
   mk_machine (snd (execute_tool tool_name parameters context (env m)))
     (conversation_history m) (steps m) (observations m)
     (trace m ++ [ToolCall tool_name parameters])).
Proof.
  unfold dispatch, try_except, tools_execute_tool, bind, record, on_world, ret.
  cbn [env conversation_history steps observations trace].
  destruct (execute_tool tool_name parameters context (env m)) as [[obs|e] w'];
    reflexivity.
Qed.
End WriteToolFacts.

Lemma write_tools_take_output_filename :
  forallb (fun t => implb (is_write_tool (snd t))
                      (name_in "output_filename" (signature_keys (snd t))))
    _TOOL_IMPLEMENTATIONS = true.
Proof. reflexivity. Qed.

(** C3 (as stated, refuted).  [execute_tool] has no handler of its own: the
    [ValueError] that [create_sheet] raises on the filename [../evil.xlsx]
    comes out of [execute_tool] as an exception, not as an observation. *)
Lemma execute_tool_lets_exception_escape :
  execute_tool (H := Stub.host) (VStr "create_sheet") (VDict Stub.evil_parameters)
    Stub.context (Stub.w0 [])
  = (Raise (invalid_filename "../evil.xlsx"), Stub.w0 [])
  /\ ~ (forall (H : Host) (name : string) (parameters context : pydict) (w : world),
          exists obs, fst (execute_tool (VStr name) (VDict parameters) context w) = Ok obs).
Proof.
  split; [reflexivity|].
  intros Hall.
  destruct (Hall Stub.host "create_sheet" Stub.evil_parameters Stub.context (Stub.w0 []))
    as [obs Hobs].
  discriminate Hobs.
Qed.

(** C3 (amended).  An exception raised by the implementation of a
    registered tool leaves [execute_tool] unchanged, and the [try/except]
    around the call in the agent loop turns it into the observation
    [{"error": "Tool '<name>' failed with error: <message>"}]; that call
    site never raises, whatever the tool name, parameters and context. *)
Theorem tool_exception_caught_at_call_site :
  forall (H : Host) (name : string) (f : tool_impl) (parameters context : pydict)
         (m : machine) (e : exn) (w' : world),
    dict_get name _TOOL_IMPLEMENTATIONS = Some f ->
    call_tool f (passed f parameters context) (env m) = (Raise e, w') ->
    execute_tool (VStr name) (VDict parameters) context (env m) = (Raise e, w')
    /\ dispatch (VStr name) (VDict parameters) context m =
         (Ok (VDict [("error",
                      VStr ("Tool '" ++ name ++ "' failed with error: " ++ exn_msg e))]),
          mk_machine w' (conversation_history m) (steps m) (observations m)
            (trace m ++ [ToolCall (VStr name) (VDict parameters)]))
    /\ (forall (tool_name' parameters' : value) (context' : pydict) (m' : machine),
          exists obs m'', dispatch tool_name' parameters' context' m' = (Ok obs, m'')).
Proof.
  intros H name f parameters context m e w' Hf Hcall.
  assert (Hexec : execute_tool (VStr name) (VDict parameters) context (env m) = (Raise e, w')).
  { rewrite (execute_tool_resolved name f parameters context (env m) Hf). exact Hcall. }
  split; [exact Hexec|]. split.
  - rewrite dispatch_eq, Hexec. reflexivity.
  - intros tool_name' parameters' context' m'.
    rewrite dispatch_eq. eexists. eexists. reflexivity.
Qed.

Lemma tool_exception_caught_at_call_site_witness :
  dispatch (H := Stub.host) (VStr "create_sheet") (VDict Stub.evil_parameters) Stub.context
    (Stub.m0 [])
  = (Ok (VDict [("error",
                 VStr ("Tool 'create_sheet' failed with error: " ++
                       exn_msg (invalid_filename "../evil.xlsx")))]),
     mk_machine (H := Stub.host) (Stub.w0 []) (conversation_history (Stub.m0 []))
       [] [] [ToolCall (VStr "create_sheet") (VDict Stub.evil_parameters)]).
Proof.
  exact (proj1 (proj2
    (tool_exception_caught_at_call_site Stub.host "create_sheet" create_sheet
       Stub.evil_parameters Stub.context (Stub.m0 [])
       (invalid_filename "../evil.xlsx") (Stub.w0 []) eq_refl eq_refl))).
Defined.

(** C8. For every write tool of the registry and every output filename
    that has a parent-directory segment or is absolute, (1) the tool raises
    before its body runs, on an unchanged world, and the exception is the
    path-validation [ValueError] whenever the call binds; (2) through the
    dispatcher the same holds, and the observation the loop records is an
    [{"error": ...}] record, the world still unchanged: nothing is written. *)
Theorem unsafe_output_filename_rejected :
  forall (H : Host) (name : string) (f : tool_impl) (s : string),
    dict_get name _TOOL_IMPLEMENTATIONS = Some f ->
    is_write_tool f = true ->
    traversal_or_absolute s = true ->
    (forall (kwargs : pydict) (w : world),
       dict_get "output_filename" kwargs = Some (VStr s) ->
       exists e,
         call_tool f kwargs w = (Raise e, w) /\
         (forall args, bind_arguments f kwargs = Ok args -> e = invalid_filename s))
    /\
    (forall (parameters context : pydict) (m : machine),
       distinct_keys parameters = true ->
       dict_get "output_filename" parameters = Some (VStr s) ->
       exists e,
         execute_tool (VStr name) (VDict parameters) context (env m) = (Raise e, env m)
         /\ (missing_params f (passed f parameters context) = [] -> e = invalid_filename s)
         /\ dispatch (VStr name) (VDict parameters) context m =
              (Ok (VDict [("error",
                           VStr ("Tool '" ++ name ++ "' failed with error: " ++ exn_msg e))]),
               mk_machine (env m) (conversation_history m) (steps m) (observations m)
                 (trace m ++ [ToolCall (VStr name) (VDict parameters)]))).
Proof.
  intros H name f s Hf Hw Hs.
  pose proof (registry_forall
                (fun g => implb (is_write_tool g)
                            (name_in "output_filename" (signature_keys g)))
                write_tools_take_output_filename name f Hf) as Hin.
  cbv beta in Hin. rewrite Hw in Hin. cbn [implb] in Hin.
  split.
  - intros kwargs w Hk. exact (call_tool_rejects f kwargs s w Hw Hin Hk Hs).
  - intros parameters context m Hp Hk.
    assert (Hpassed : dict_get "output_filename" (passed f parameters context)
                      = Some (VStr s)).
    { rewrite (passed_lookup f parameters context _ Hp).
      unfold merged_and_projected. rewrite Hin, Hk. reflexivity. }
    destruct (call_tool_rejects f (passed f parameters context) s (env m) Hw Hin Hpassed Hs)
      as [e [Hcall He]].
    assert (Hexec : execute_tool (VStr name) (VDict parameters) context (env m)
                    = (Raise e, env m)).
    { rewrite (execute_tool_resolved name f parameters context (env m) Hf). exact Hcall. }
    exists e. split; [exact Hexec|]. split.
    + intros Hm. destruct (bind_passed f parameters context Hm) as [args Hargs].
      exact (He args Hargs).
    + rewrite dispatch_eq, Hexec. reflexivity.
Qed.

Lemma unsafe_output_filename_rejected_witness :
  traversal_or_absolute "../evil.xlsx" = true /\
  exists e,
    execute_tool (H := Stub.host) (VStr "create_sheet") (VDict Stub.evil_parameters)
      Stub.context (Stub.w0 []) = (Raise e, Stub.w0 [])
    /\ (missing_params create_sheet (passed create_sheet Stub.evil_parameters Stub.context) = []
        -> e = invalid_filename "../evil.xlsx").
Proof.
  split; [reflexivity|].
  destruct (proj2 (unsafe_output_filename_rejected Stub.host "create_sheet" create_sheet
                     "../evil.xlsx" eq_refl eq_refl eq_refl)
              Stub.evil_parameters Stub.context (Stub.m0 [])
              eq_refl eq_refl) as [e [Hexec [He _]]].
  exists e. split; [exact Hexec | exact He].
Defined.

(** ** The console *)

Section ConsoleFacts.
Context {H : Host}.
Implicit Types (m : machine).

Lemma printable_app (a b : string) : printable (a ++ b) = printable a && printable b.
Proof.
  induction a as [|c a IH]; cbn [append printable]; [reflexivity|].
  rewrite IH, andb_assoc. reflexivity.
Qed.

Lemma ascii_text_app (a b : string) : ascii_text (a ++ b) = ascii_text a && ascii_text b.
Proof.
  induction a as [|c a IH]; cbn [append ascii_text]; [reflexivity|].
  rewrite IH, andb_assoc. reflexivity.
Qed.

Lemma ascii_printable (s : string) : ascii_text s = true -> printable s = true.
Proof.
  induction s as [|c s IH]; cbn [ascii_text printable]; [reflexivity|].
  intros Hs. apply andb_true_iff in Hs. destruct Hs as [Hc Hs].
  unfold encodable. rewrite Hc, (IH Hs). reflexivity.
Qed.

Lemma print_ok (text : string) m : printable text = true -> print text m = (Ok tt, m).
Proof. intros Hp. unfold print, lift. rewrite Hp. reflexivity. Qed.


Lemma string_of_uint_ascii (d : Decimal.uint) :
  ascii_text (NilEmpty.string_of_uint d) = true.
Proof. induction d; cbn [NilEmpty.string_of_uint ascii_text]; try exact IHd; reflexivity. Qed.

(** The line at the top of an iteration is ASCII: that [print] does not
    raise. *)
Lemma step_banner_printable (i : nat) : printable (step_banner i) = true.
Proof.
  apply ascii_printable. unfold step_banner, str_of_nat.
  rewrite !ascii_text_app, string_of_uint_ascii. reflexivity.
Qed.

Lemma error_line_printable (e : exn) :
  ascii_text (exn_msg e) = true -> printable (error_line e) = true.
Proof.
  intros He. apply ascii_printable. unfold error_line.
  rewrite ascii_text_app, He. reflexivity.
Qed.

Lemma encode_error_line_printable : printable (error_line encode_error) = true.
Proof. apply error_line_printable. reflexivity. Qed.

(** The text of an observation is the output of [json.dumps]: printing it
    does not raise. *)
Lemma observation_line_printable (v : value) (s : string) :
  json_dumps v = Ok s -> printable ("Tool Observation: " ++ s) = true.
Proof.
  intros Hd. apply ascii_printable.
  rewrite ascii_text_app, (json_dumps_ascii v s Hd). reflexivity.
Qed.

(** The messages of the exceptions of the operators on values are ASCII
    text when the key is. *)
Lemma type_name_ascii (v : value) : ascii_text (type_name v) = true.
Proof. destruct v; reflexivity. Qed.




Lemma final_line_printable : printable "LLM provided final answer." = true.
Proof. reflexivity. Qed.

End ConsoleFacts.

(** A branch in which [print] raised on the text of an observation. *)
Ltac absurd_observation_line :=
  match goal with
  | Hd : json_dumps _ = Ok ?o, Hp : printable ("Tool Observation: " ++ ?o) = false |- _ =>
      exfalso; rewrite (observation_line_printable _ _ Hd) in Hp; discriminate Hp
  end.

(** ** The agent loop *)

Section LoopFacts.
Context {H : Host}.
Implicit Types (m : machine) (ctx : pydict).

Lemma llm_calls_app tr1 tr2 : llm_calls (tr1 ++ tr2) = llm_calls tr1 + llm_calls tr2.
Proof. unfold llm_calls. rewrite filter_app, length_app. reflexivity. Qed.

Lemma tool_calls_app tr1 tr2 : tool_calls (tr1 ++ tr2) = tool_calls tr1 + tool_calls tr2.
Proof. unfold tool_calls. rewrite filter_app, length_app. reflexivity. Qed.

(** The iteration at the head of the loop, its opening line printed. *)
Lemma agent_loop_S n ctx m :
  agent_loop (S n) ctx m =
  match iteration ctx m with
  | (Ok (Some r), m') => (Ok r, m')
  | (Ok None, m') => agent_loop n ctx m'
  | (Raise e, m') => (Raise e, m')
  end.
Proof.
  cbn [agent_loop]. rewrite (print_ok _ m (step_banner_printable _)). reflexivity.
Qed.

(** Every iteration asks the model exactly once. *)
Lemma iteration_one_llm_call ctx m :
  llm_calls (trace (snd (iteration ctx m))) = S (llm_calls (trace m)).
Proof.
  unfold_iteration. reduce_machine.
  repeat (first [rewrite dispatch_eq | split_match]; reduce_machine);
    rewrite ?llm_calls_app; cbn; lia.
Qed.

(** An iteration that falls through has run one tool and recorded one
    step and one observation. *)
Lemma iteration_fallthrough ctx m m' :
  iteration ctx m = (Ok None, m') ->
  List.length (steps m') = S (List.length (steps m)) /\
  List.length (observations m') = S (List.length (observations m)) /\
  tool_calls (trace m') = S (tool_calls (trace m)).
Proof.
  unfold_iteration. reduce_machine.
  repeat (first [rewrite dispatch_eq | split_match]; reduce_machine);
    intros Heq; try discriminate Heq.
  all: injection Heq as <-; cbn [steps observations trace].
  all: rewrite !length_app, !tool_calls_app; cbn; repeat split; lia.
Qed.

Lemma agent_loop_llm_calls n ctx m :
  llm_calls (trace (snd (agent_loop n ctx m))) <= llm_calls (trace m) + n.
Proof.
  revert m. induction n as [|n IH]; intros m.
  - cbn. lia.
  - rewrite agent_loop_S.
    pose proof (iteration_one_llm_call ctx m) as Hone.
    destruct (iteration ctx m) as [[[r|]|e] m1]; cbn [snd] in *.
    + lia.
    + specialize (IH m1). lia.
    + lia.
Qed.

Lemma agent_loop_exhausted n ctx m m' :
  continues n ctx m = Some m' ->
  agent_loop n ctx m =
    (Ok (mk_result (VStr "I seem to be stuck in a loop.") (steps m') (observations m')), m')
  /\ llm_calls (trace m') = llm_calls (trace m) + n
  /\ tool_calls (trace m') = tool_calls (trace m) + n
  /\ List.length (steps m') = List.length (steps m) + n
  /\ List.length (observations m') = List.length (observations m) + n.
Proof.
  revert m. induction n as [|n IH]; intros m.
  - cbn [agent_loop continues]. intros [= <-]. repeat split; lia.
  - rewrite agent_loop_S. cbn [continues].
    pose proof (iteration_one_llm_call ctx m) as Hone.
    pose proof (iteration_fallthrough ctx m) as Hfall.
    destruct (iteration ctx m) as [[[r|]|e] m1]; try discriminate.
    intros Hc. destruct (IH m1 Hc) as (-> & H1 & H2 & H3 & H4).
    destruct (Hfall m1 eq_refl) as (F1 & F2 & F3). cbn [snd] in Hone.
    repeat split; lia.
Qed.
End LoopFacts.

Section LoopCases.
Context {H : Host}.
Implicit Types (m : machine) (ctx : pydict).

Lemma iteration_appends_response ctx m s w' :
  llm_complete (conversation_history m) (env m) = (Ok s, w') ->
  exists rest,
    conversation_history (snd (iteration ctx m)) =
    (conversation_history m ++ mk_turn "assistant" s :: rest)%list.
Proof.
  intros Hllm. unfold_iteration. reduce_machine. rewrite Hllm. reduce_machine.
  repeat (first [rewrite dispatch_eq | split_match]; reduce_machine);
    try (exists []; reflexivity).
  all: rewrite <- app_assoc; eexists; reflexivity.
Qed.

(** When the call to the model raises, the handler gets the exception at
    once. *)
Lemma iteration_llm_raises ctx m e w' :
  llm_complete (conversation_history m) (env m) = (Raise e, w') ->
  iteration ctx m =
    (if printable (error_line e)
     then Ok (Some (mk_result (VStr "I encountered an unexpected error.")
                      (steps m) (observations m)))
     else Raise encode_error,
     mk_machine w' (conversation_history m) (steps m) (observations m)
       (trace m ++ [LLMCall (conversation_history m)])).
Proof.
  intros Hllm. unfold_iteration. reduce_machine. rewrite Hllm. reduce_machine.
  fold (error_line e). destruct (printable (error_line e)); reflexivity.
Qed.

Lemma iteration_invalid_json ctx m s w' e :
  llm_complete (conversation_history m) (env m) = (Ok s, w') ->
  json_loads s = Raise e ->
  iteration ctx m =
    (Ok (Some (mk_result (VStr "I encountered an unexpected error.")
                 (steps m) (observations m))),
     after_llm m s w').
Proof.
  intros Hllm Hjson. unfold_iteration. reduce_machine.
  rewrite Hllm. reduce_machine. rewrite Hjson. reduce_machine.
  fold (error_line e).
  rewrite (error_line_printable e (json_loads_error_ascii s e Hjson)). reflexivity.
Qed.

(** A decision whose thought cannot be printed ends the turn in the
    handler, whatever else it holds. *)
Lemma iteration_unprintable_thought ctx m s w' d :
  llm_complete (conversation_history m) (env m) = (Ok s, w') ->
  json_loads s = Ok (VDict d) ->
  printable (thought_line d) = false ->
  iteration ctx m =
    (Ok (Some (mk_result (VStr "I encountered an unexpected error.")
                 (steps m) (observations m))),
     after_llm m s w').
Proof.
  intros Hllm Hjson Hp. unfold_iteration. reduce_machine.
  rewrite Hllm. reduce_machine. rewrite Hjson.
  cbn [py_get]. fold (thought_of d). fold (thought_line d). rewrite Hp. reduce_machine.
  fold (error_line encode_error). rewrite encode_error_line_printable. reflexivity.
Qed.

Lemma iteration_final_answer ctx m s w' d a :
  llm_complete (conversation_history m) (env m) = (Ok s, w') ->
  json_loads s = Ok (VDict d) ->
  dict_get "final_answer" d = Some a ->
  printable (thought_line d) = true ->
  iteration ctx m =
    (Ok (Some (mk_result a (steps m ++ [[("thought", thought_of d)]]) (observations m))),
     mk_machine w' (conversation_history m ++ [mk_turn "assistant" s])
       (steps m ++ [[("thought", thought_of d)]]) (observations m)
       (trace m ++ [LLMCall (conversation_history m)])).
Proof.
  intros Hllm Hjson Hfa Hp. unfold_iteration. reduce_machine.
  rewrite Hllm. reduce_machine. rewrite Hjson.
  cbn [py_get py_in py_getitem]. fold (thought_of d). fold (thought_line d). rewrite Hp.
  unfold dict_mem. rewrite Hfa. reduce_machine.
  rewrite final_line_printable. reflexivity.
Qed.

Lemma iteration_unsure ctx m s w' d :
  llm_complete (conversation_history m) (env m) = (Ok s, w') ->
  json_loads s = Ok (VDict d) ->
  dict_get "final_answer" d = None ->
  truthy (match dict_get "tool_call" d with Some c => c | None => VNone end) = false ->
  printable (thought_line d) = true ->
  iteration ctx m =
    (Ok (Some (mk_result (VStr "I am not sure how to proceed.") (steps m) (observations m))),
     after_llm m s w').
Proof.
  intros Hllm Hjson Hfa Htc Hp. unfold_iteration. reduce_machine.
  rewrite Hllm. reduce_machine. rewrite Hjson.
  cbn [py_get py_in py_getitem]. fold (thought_of d). fold (thought_line d). rewrite Hp.
  unfold dict_mem. rewrite Hfa.
  reduce_machine. rewrite Htc. reflexivity.
Qed.
End LoopCases.

(** C4. A task asks the model at most five times, whether it returns or
    raises; and when the task has printed its opening line and five
    iterations in a row fall through (none returns an answer), it returns
    ["I seem to be stuck in a loop."] with the steps and observations
    accumulated by then, five of each, after exactly five model calls: it
    does not raise. *)
Theorem run_agent_task_step_budget :
  forall (H : Host) (user_input file_path chart_output_dir file_output_dir : string)
         (w : world),
    max_steps = 5
    /\ llm_calls
         (trace (snd (run_agent_task user_input file_path chart_output_dir file_output_dir w)))
       <= 5
    /\ (forall m',
          printable (task_banner user_input) = true ->
          continues max_steps (tool_context file_path chart_output_dir file_output_dir)
            (initial_machine user_input file_path w) = Some m' ->
          run_agent_task user_input file_path chart_output_dir file_output_dir w =
            (Ok (mk_result (VStr "I seem to be stuck in a loop.") (steps m') (observations m')),
             m')
          /\ llm_calls (trace m') = 5
          /\ List.length (steps m') = 5
          /\ List.length (observations m') = 5).
Proof.
  intros H user_input file_path chart_output_dir file_output_dir w.
  split; [reflexivity|]. split.
  - unfold run_agent_task, print, lift.
    destruct (printable (task_banner user_input)); [|cbn; lia].
    pose proof (agent_loop_llm_calls max_steps
                  (tool_context file_path chart_output_dir file_output_dir)
                  (initial_machine user_input file_path w)) as Hle.
    cbn [initial_machine trace] in Hle. exact Hle.
  - intros m' Hp Hc. unfold run_agent_task. rewrite (print_ok _ _ Hp).
    destruct (agent_loop_exhausted _ _ _ _ Hc) as (Hrun & Hllm & _ & Hsteps & Hobs).
    cbn [initial_machine trace steps observations] in Hllm, Hsteps, Hobs.
    repeat split; assumption.
Qed.

Lemma run_agent_task_step_budget_witness :
  exists m',
    Stub.run (repeat Stub.list_sheets_text 7)
    = (Ok (mk_result (VStr "I seem to be stuck in a loop.") (steps m') (observations m')), m')
    /\ llm_calls (trace m') = 5
    /\ List.length (steps m') = 5
    /\ List.length (observations m') = 5.
Proof.
  exists (snd (Stub.run (repeat Stub.list_sheets_text 7))).
  exact (proj2 (proj2 (run_agent_task_step_budget Stub.host
                         "tidy the workbook" "uploads/data.xlsx"
                         "/srv/static/charts" "/srv/static/outputs"
                         (Stub.w0 (repeat Stub.list_sheets_text 7))))
           (snd (Stub.run (repeat Stub.list_sheets_text 7)))
           eq_refl
           ltac:(vm_compute; reflexivity)).
Defined.

(** C6. In every iteration in which the model answers, its raw text is
    appended to the transcript as an assistant turn, whatever parsing then
    gives; and when the text does not parse, the task ends at once with
    ["I encountered an unexpected error."], the steps and observations as
    they were, no tool run and no further model call, and a transcript
    whose last turn is the raw text. *)
Theorem raw_response_appended_before_parsing :
  forall (H : Host) (ctx : pydict) (m : machine) (s : string) (w' : world),
    llm_complete (conversation_history m) (env m) = (Ok s, w') ->
    (exists rest,
       conversation_history (snd (iteration ctx m)) =
       (conversation_history m ++ mk_turn "assistant" s :: rest)%list)
    /\ (forall (e : exn) (n : nat),
          json_loads s = Raise e ->
          agent_loop (S n) ctx m =
            (Ok (mk_result (VStr "I encountered an unexpected error.")
                   (steps m) (observations m)),
             mk_machine w' (conversation_history m ++ [mk_turn "assistant" s])
               (steps m) (observations m)
               (trace m ++ [LLMCall (conversation_history m)]))).
Proof.
  intros H ctx m s w' Hllm. split.
  - exact (iteration_appends_response ctx m s w' Hllm).
  - intros e n Hjson. rewrite agent_loop_S.
    rewrite (iteration_invalid_json ctx m s w' e Hllm Hjson). reflexivity.
Qed.

Lemma raw_response_appended_before_parsing_witness :
  exists r,
    fst (Stub.run [Stub.invalid_text]) = Ok r
    /\ answer r = VStr "I encountered an unexpected error."
    /\ last (conversation_history (snd (Stub.run [Stub.invalid_text]))) (mk_turn "" "")
       = mk_turn "assistant" Stub.invalid_text.
Proof.
  pose proof (proj2 (raw_response_appended_before_parsing Stub.host Stub.context
                       (Stub.m0 [Stub.invalid_text]) Stub.invalid_text (Stub.w0 []) eq_refl)
                (mk_exn (HostError "JSONDecodeError")
                   "Expecting property name enclosed in double quotes: line 1 column 2 (char 1)")
                4 eq_refl) as Hrun.
  assert (Hsame : Stub.run [Stub.invalid_text]
                  = agent_loop 5 Stub.context (Stub.m0 [Stub.invalid_text])) by reflexivity.
  rewrite Hsame, Hrun. eexists. repeat split; reflexivity.
Defined.

(** C7. When the parsed decision has a [final_answer], the task returns at
    once, with the observations so far and the steps so far, to which this
    turn's step (its thought only) is added when the turn got as far as
    the final answer; the only event of the turn is the model call, so no
    tool runs, even if the decision also has a [tool_call].  The turn gets
    that far, and the answer returned is the final answer, when its thought
    can be printed; otherwise the [print] of the thought raises and the
    handler returns ["I encountered an unexpected error."] with the steps
    as they were.  In particular a first turn with a final answer ends the
    task after exactly one model call, no tool call, and no step that has
    a [tool_call]. *)
Theorem final_answer_returns_at_once :
  forall (H : Host),
    (forall (ctx : pydict) (m : machine) (s : string) (w' : world) (d : pydict) (a : value)
            (n : nat),
       llm_complete (conversation_history m) (env m) = (Ok s, w') ->
       json_loads s = Ok (VDict d) ->
       dict_get "final_answer" d = Some a ->
       let recorded :=
         if printable (thought_line d)
         then (steps m ++ [[("thought", thought_of d)]])%list
         else steps m in
       agent_loop (S n) ctx m =
         (Ok (mk_result
                (if printable (thought_line d) then a
                 else VStr "I encountered an unexpected error.")
                recorded (observations m)),
          mk_machine w' (conversation_history m ++ [mk_turn "assistant" s])
            recorded (observations m)
            (trace m ++ [LLMCall (conversation_history m)])))
    /\
    (forall (user_input file_path chart_output_dir file_output_dir : string)
            (w w' : world) (s : string) (d : pydict) (a : value),
       printable (task_banner user_input) = true ->
       llm_complete (conversation_history (initial_machine user_input file_path w)) w
         = (Ok s, w') ->
       json_loads s = Ok (VDict d) ->
       dict_get "final_answer" d = Some a ->
       let out := run_agent_task user_input file_path chart_output_dir file_output_dir w in
       exists r,
         fst out = Ok r
         /\ (printable (thought_line d) = true ->
             answer r = a /\ result_steps r = [[("thought", thought_of d)]])
         /\ result_observations r = []
         /\ llm_calls (trace (snd out)) = 1
         /\ tool_calls (trace (snd out)) = 0
         /\ forallb (fun step => negb (dict_mem "tool_call" step)) (result_steps r) = true).
Proof.
  intros H.
  assert (Hturn : forall (ctx : pydict) (m : machine) (s : string) (w' : world) (d : pydict)
                         (a : value) (n : nat),
             llm_complete (conversation_history m) (env m) = (Ok s, w') ->
             json_loads s = Ok (VDict d) ->
             dict_get "final_answer" d = Some a ->
             agent_loop (S n) ctx m =
               (Ok (mk_result
                      (if printable (thought_line d) then a
                       else VStr "I encountered an unexpected error.")
                      (if printable (thought_line d)
                       then (steps m ++ [[("thought", thought_of d)]])%list
                       else steps m)
                      (observations m)),
                mk_machine w' (conversation_history m ++ [mk_turn "assistant" s])
                  (if printable (thought_line d)
                   then (steps m ++ [[("thought", thought_of d)]])%list
                   else steps m)
                  (observations m)
                  (trace m ++ [LLMCall (conversation_history m)]))).
  { intros ctx m s w' d a n Hllm Hjson Hfa. rewrite agent_loop_S.
    destruct (printable (thought_line d)) eqn:Hp.
    - rewrite (iteration_final_answer ctx m s w' d a Hllm Hjson Hfa Hp). reflexivity.
    - rewrite (iteration_unprintable_thought ctx m s w' d Hllm Hjson Hp). reflexivity. }
  split.
  - intros ctx m s w' d a n Hllm Hjson Hfa. cbv zeta.
    exact (Hturn ctx m s w' d a n Hllm Hjson Hfa).
  - intros user_input file_path chart_output_dir file_output_dir w w' s d a
           Hp Hllm Hjson Hfa.
    cbv zeta. unfold run_agent_task. rewrite (print_ok _ _ Hp).
    change max_steps with 5.
    rewrite (Hturn _ _ s w' d a 4 Hllm Hjson Hfa).
    cbn [fst snd answer result_steps result_observations trace
         initial_machine steps observations app].
    eexists. split; [reflexivity|].
    cbn [answer result_steps result_observations].
    destruct (printable (thought_line d)).
    + repeat split; reflexivity.
    + split; [intros Habs; discriminate Habs|]. repeat split; reflexivity.
Qed.

Lemma final_answer_returns_at_once_witness :
  exists r,
    fst (Stub.run [Stub.final_text]) = Ok r
    /\ answer r = VStr "42"
    /\ llm_calls (trace (snd (Stub.run [Stub.final_text]))) = 1
    /\ tool_calls (trace (snd (Stub.run [Stub.final_text]))) = 0.
Proof.
  destruct (proj2 (final_answer_returns_at_once Stub.host)
              "tidy the workbook" "uploads/data.xlsx" "/srv/static/charts"
              "/srv/static/outputs" (Stub.w0 [Stub.final_text]) (Stub.w0 [])
              Stub.final_text
              [("thought", VStr "done"); ("final_answer", VStr "42")] (VStr "42")
              eq_refl eq_refl eq_refl eq_refl)
    as (r & Hr & Ha & _ & Hl & Ht & _).
  exists r. split; [exact Hr|]. split; [exact (proj1 (Ha eq_refl))|].
  split; [exact Hl | exact Ht].
Defined.

(** A decision that parses to something other than a JSON object has no
    [get]: the turn ends in the outer handler. *)
Lemma non_object_decision_aborts :
  forall (H : Host) (ctx : pydict) (m : machine) (s : string) (w' : world) (v : value)
         (n : nat),
    llm_complete (conversation_history m) (env m) = (Ok s, w') ->
    json_loads s = Ok v ->
    (forall d, v <> VDict d) ->
    agent_loop (S n) ctx m =
      (Ok (mk_result (VStr "I encountered an unexpected error.") (steps m) (observations m)),
       after_llm m s w').
Proof.
  intros H ctx m s w' v n Hllm Hjson Hv. rewrite agent_loop_S.
  unfold_iteration. reduce_machine. rewrite Hllm. reduce_machine. rewrite Hjson.
  destruct v; try reflexivity.
  exfalso. exact (Hv d eq_refl).
Qed.

(** C9 (as stated, refuted).  A turn whose decision is a record with a
    thought only, a thought the console cannot encode: the [print] of the
    thought raises inside the [try], and the task ends with
    ["I encountered an unexpected error."], not with
    ["I am not sure how to proceed."]. *)
Lemma undecided_turn_with_unprintable_thought :
  json_loads (Host := Stub.host) Stub.mute_thought_text
  = Ok (VDict [("thought", VStr Stub.mute)])
  /\ fst (Stub.run [Stub.mute_thought_text])
     = Ok (mk_result (VStr "I encountered an unexpected error.") [] [])
  /\ ~ (forall (H : Host) (ctx : pydict) (m : machine) (s : string) (w' : world)
               (d : pydict) (n : nat),
          llm_complete (conversation_history m) (env m) = (Ok s, w') ->
          json_loads s = Ok (VDict d) ->
          dict_get "final_answer" d = None ->
          dict_get "tool_call" d = None ->
          exists r,
            fst (agent_loop (S n) ctx m) = Ok r
            /\ answer r = VStr "I am not sure how to proceed.").
Proof.
  split; [reflexivity|]. split; [reflexivity|].
  intros Hall.
  destruct (Hall Stub.host Stub.context (Stub.m0 [Stub.mute_thought_text])
              Stub.mute_thought_text (Stub.w0 []) [("thought", VStr Stub.mute)] 4
              eq_refl eq_refl eq_refl eq_refl) as (r & Hr & Ha).
  vm_compute in Hr. injection Hr as <-. discriminate Ha.
Qed.

(** C9 (amended).  When the parsed decision is a record with neither
    [final_answer] nor [tool_call], the task ends at once, nothing
    recorded and no tool run: with ["I am not sure how to proceed."] when
    the turn's thought can be printed, and with
    ["I encountered an unexpected error."] when it cannot.  Neither is the
    answer of an exhausted step budget, ["I seem to be stuck in a loop."]. *)
Theorem missing_decision_answer :
  forall (H : Host) (ctx : pydict) (m : machine) (s : string) (w' : world) (d : pydict)
         (n : nat),
    llm_complete (conversation_history m) (env m) = (Ok s, w') ->
    json_loads s = Ok (VDict d) ->
    dict_get "final_answer" d = None ->
    dict_get "tool_call" d = None ->
    agent_loop (S n) ctx m =
      (Ok (mk_result
             (if printable (thought_line d) then VStr "I am not sure how to proceed."
              else VStr "I encountered an unexpected error.")
             (steps m) (observations m)),
       mk_machine w' (conversation_history m ++ [mk_turn "assistant" s])
         (steps m) (observations m) (trace m ++ [LLMCall (conversation_history m)]))
    /\ fst (agent_loop 0 ctx m) =
         Ok (mk_result (VStr "I seem to be stuck in a loop.") (steps m) (observations m))
    /\ fst (agent_loop (S n) ctx m) <> fst (agent_loop 0 ctx m).
Proof.
  intros H ctx m s w' d n Hllm Hjson Hfa Htc.
  assert (Hrun : agent_loop (S n) ctx m =
                 (Ok (mk_result
                        (if printable (thought_line d)
                         then VStr "I am not sure how to proceed."
                         else VStr "I encountered an unexpected error.")
                        (steps m) (observations m)),
                  after_llm m s w')).
  { rewrite agent_loop_S. destruct (printable (thought_line d)) eqn:Hp.
    - rewrite (iteration_unsure ctx m s w' d Hllm Hjson Hfa); [reflexivity| |exact Hp].
      rewrite Htc. reflexivity.
    - rewrite (iteration_unprintable_thought ctx m s w' d Hllm Hjson Hp). reflexivity. }
  split; [exact Hrun|]. split; [reflexivity|].
  rewrite Hrun. cbn [agent_loop fst]. intros Habs.
  destruct (printable (thought_line d)); discriminate Habs.
Qed.

Lemma missing_decision_answer_witness :
  fst (Stub.run [Stub.thought_only_text])
  = Ok (mk_result (VStr "I am not sure how to proceed.") [] []).
Proof.
  pose proof (proj1 (missing_decision_answer Stub.host Stub.context
                       (Stub.m0 [Stub.thought_only_text]) Stub.thought_only_text
                       (Stub.w0 []) [("thought", VStr "hmm")] 4
                       eq_refl eq_refl eq_refl eq_refl)) as Hrun.
  assert (Hsame : Stub.run [Stub.thought_only_text]
                  = agent_loop 5 Stub.context (Stub.m0 [Stub.thought_only_text]))
    by reflexivity.
  rewrite Hsame, Hrun. reflexivity.
Defined.

(** C10. On the turn that ends the task for want of a decision, nothing
    is appended to [steps]: the returned steps are those of the earlier
    turns and the turn's thought is not among them; on the final-answer
    path, which a turn with a [final_answer] takes once its thought is
    printed, the turn's step, with its thought, is appended before
    returning. *)
Theorem undecided_turn_not_recorded :
  forall (H : Host) (ctx : pydict) (m : machine) (s : string) (w' : world) (d : pydict)
         (n : nat),
    llm_complete (conversation_history m) (env m) = (Ok s, w') ->
    json_loads s = Ok (VDict d) ->
    (dict_get "final_answer" d = None ->
     dict_get "tool_call" d = None ->
     exists r,
       fst (agent_loop (S n) ctx m) = Ok r
       /\ result_steps r = steps m
       /\ steps (snd (agent_loop (S n) ctx m)) = steps m
       /\ (printable (thought_line d) = true ->
           answer r = VStr "I am not sure how to proceed."))
    /\
    (forall a,
       dict_get "final_answer" d = Some a ->
       printable (thought_line d) = true ->
       exists r,
         fst (agent_loop (S n) ctx m) = Ok r
         /\ answer r = a
         /\ result_steps r = (steps m ++ [[("thought", thought_of d)]])%list).
Proof.
  intros H ctx m s w' d n Hllm Hjson. split.
  - intros Hfa Htc. rewrite agent_loop_S.
    destruct (printable (thought_line d)) eqn:Hp.
    + rewrite (iteration_unsure ctx m s w' d Hllm Hjson Hfa); [| |exact Hp].
      * eexists. repeat split; reflexivity.
      * rewrite Htc. reflexivity.
    + rewrite (iteration_unprintable_thought ctx m s w' d Hllm Hjson Hp).
      eexists. repeat split; try reflexivity. intros Habs. discriminate Habs.
  - intros a Hfa Hp. rewrite agent_loop_S.
    rewrite (iteration_final_answer ctx m s w' d a Hllm Hjson Hfa Hp).
    eexists. repeat split; reflexivity.
Qed.

Lemma undecided_turn_not_recorded_witness :
  (exists r,
     fst (agent_loop (H := Stub.host) 5 Stub.context (Stub.m0 [Stub.thought_only_text])) = Ok r
     /\ result_steps r = [])
  /\ (exists r,
        fst (agent_loop (H := Stub.host) 5 Stub.context (Stub.m0 [Stub.final_text])) = Ok r
        /\ result_steps r = [[("thought", VStr "done")]]).
Proof.
  split.
  - destruct (proj1 (undecided_turn_not_recorded Stub.host Stub.context
                       (Stub.m0 [Stub.thought_only_text]) Stub.thought_only_text
                       (Stub.w0 []) [("thought", VStr "hmm")] 4 eq_refl eq_refl)
                eq_refl eq_refl) as (r & Hr & Hs & _).
    exists r. split; [exact Hr | exact Hs].
  - destruct (proj2 (undecided_turn_not_recorded Stub.host Stub.context
                       (Stub.m0 [Stub.final_text]) Stub.final_text (Stub.w0 [])
                       [("thought", VStr "done"); ("final_answer", VStr "42")] 4
                       eq_refl eq_refl)
                (VStr "42") eq_refl eq_refl) as (r & Hr & _ & Hs).
    exists r. split; [exact Hr | exact Hs].
Defined.

(** * Further properties *)


Lemma extends_list_refl {A} (l : list A) : extends_list l l.
Proof. exists []. rewrite app_nil_r. reflexivity. Qed.

Lemma extends_list_app {A} (l r : list A) : extends_list l (l ++ r).
Proof. exists r. reflexivity. Qed.

Lemma extends_list_trans {A} (l1 l2 l3 : list A) :
  extends_list l1 l2 -> extends_list l2 l3 -> extends_list l1 l3.
Proof.
  intros [r1 ->] [r2 ->]. exists (r1 ++ r2)%list. rewrite app_assoc. reflexivity.
Qed.

Section LoopInvariants.
Context {H : Host}.
Implicit Types (m : machine) (ctx : pydict).

Lemma grows_refl m : grows m m.
Proof. repeat split; apply extends_list_refl. Qed.

Lemma grows_trans m1 m2 m3 : grows m1 m2 -> grows m2 m3 -> grows m1 m3.
Proof.
  intros (A1 & A2 & A3 & A4) (B1 & B2 & B3 & B4).
  repeat split; eapply extends_list_trans; eassumption.
Qed.

Lemma iteration_grows ctx m : grows m (snd (iteration ctx m)).
Proof.
  unfold grows. unfold_iteration. reduce_machine.
  repeat (first [rewrite dispatch_eq | split_match]; reduce_machine);
    repeat split;
    first [ apply extends_list_refl
          | apply extends_list_app
          | rewrite <- !app_assoc; apply extends_list_app ].
Qed.

Lemma iteration_returns_lists ctx m r m' :
  iteration ctx m = (Ok (Some r), m') ->
  result_steps r = steps m' /\ result_observations r = observations m'.
Proof.
  unfold_iteration. reduce_machine.
  repeat (first [rewrite dispatch_eq | split_match]; reduce_machine);
    intros Heq; try discriminate Heq.
  all: injection Heq as <- <-; split; reflexivity.
Qed.


Lemma agent_loop_grows n ctx m :
  grows m (snd (agent_loop n ctx m)) /\
  (forall r,
     fst (agent_loop n ctx m) = Ok r ->
     result_steps r = steps (snd (agent_loop n ctx m)) /\
     result_observations r = observations (snd (agent_loop n ctx m))).
Proof.
  revert m. induction n as [|n IH]; intros m.
  - cbn [agent_loop fst snd]. split; [apply grows_refl|].
    intros r [= <-]. split; reflexivity.
  - rewrite agent_loop_S.
    pose proof (iteration_grows ctx m) as Hg.
    pose proof (iteration_returns_lists ctx m) as Hr.
    destruct (iteration ctx m) as [[[r|]|e] m1]; cbn [fst snd] in *.
    + split; [exact Hg|]. intros r' [= <-]. exact (Hr r m1 eq_refl).
    + destruct (IH m1) as (Hg1 & Hl).
      split; [exact (grows_trans _ _ _ Hg Hg1) | exact Hl].
    + split; [exact Hg|]. intros r' Habs. discriminate Habs.
Qed.

End LoopInvariants.

Section LoopBounds.
Context {H : Host}.
Implicit Types (m : machine) (ctx : pydict).

(** What one iteration adds to the counters. *)
Lemma iteration_deltas ctx m :
  let m' := snd (iteration ctx m) in
  List.length (observations m') - List.length (observations m)
    <= List.length (steps m') - List.length (steps m)
  /\ List.length (steps m') <= S (List.length (steps m))
  /\ List.length (steps m) <= List.length (steps m')
  /\ List.length (observations m) <= List.length (observations m')
  /\ List.length (observations m') - List.length (observations m)
     <= tool_calls (trace m') - tool_calls (trace m)
  /\ tool_calls (trace m') <= S (tool_calls (trace m))
  /\ tool_calls (trace m) <= tool_calls (trace m').
Proof.
  cbv zeta. unfold_iteration. reduce_machine.
  repeat (first [rewrite dispatch_eq | split_match]; reduce_machine);
    try absurd_observation_line;
    rewrite ?length_app, ?tool_calls_app; cbn; repeat split; lia.
Qed.

Lemma agent_loop_counts n ctx m :
  let m' := snd (agent_loop n ctx m) in
  List.length (observations m') - List.length (observations m)
    <= List.length (steps m') - List.length (steps m)
  /\ List.length (steps m') - List.length (steps m)
     <= llm_calls (trace m') - llm_calls (trace m)
  /\ List.length (observations m') - List.length (observations m)
     <= tool_calls (trace m') - tool_calls (trace m)
  /\ tool_calls (trace m') - tool_calls (trace m)
     <= llm_calls (trace m') - llm_calls (trace m)
  /\ llm_calls (trace m') <= llm_calls (trace m) + n
  /\ List.length (steps m) <= List.length (steps m')
  /\ List.length (observations m) <= List.length (observations m')
  /\ tool_calls (trace m) <= tool_calls (trace m')
  /\ llm_calls (trace m) <= llm_calls (trace m').
Proof.
  cbv zeta. revert m. induction n as [|n IH]; intros m.
  - cbn [agent_loop snd]. repeat split; lia.
  - rewrite agent_loop_S.
    pose proof (iteration_deltas ctx m) as Hd. cbv zeta in Hd.
    pose proof (iteration_one_llm_call ctx m) as Hl.
    destruct (iteration ctx m) as [[[r|]|e] m1]; cbn [fst snd] in *.
    + repeat split; lia.
    + specialize (IH m1). repeat split; lia.
    + repeat split; lia.
Qed.
End LoopBounds.

(** The run of a task whose opening line is printed is the loop on the
    initial machine; otherwise the [print] raises before anything else is
    done. *)
Lemma run_agent_task_eq (H : Host)
    (user_input file_path chart_output_dir file_output_dir : string) (w : world) :
  run_agent_task user_input file_path chart_output_dir file_output_dir w =
  if printable (task_banner user_input)
  then agent_loop max_steps (tool_context file_path chart_output_dir file_output_dir)
         (initial_machine user_input file_path w)
  else (Raise encode_error, initial_machine user_input file_path w).
Proof.
  unfold run_agent_task, print, lift.
  destruct (printable (task_banner user_input)); reflexivity.
Qed.

(** X1. At the end of a task there are at most five steps, no more
    observations than steps, no more tool calls than model calls and no
    more than five of either; the record a task returns holds these steps
    and observations. *)
Theorem returned_record_bounds :
  forall (H : Host) (user_input file_path chart_output_dir file_output_dir : string)
         (w : world),
    let out := run_agent_task user_input file_path chart_output_dir file_output_dir w in
    (forall r,
       fst out = Ok r ->
       result_steps r = steps (snd out) /\ result_observations r = observations (snd out))
    /\ List.length (observations (snd out)) <= List.length (steps (snd out))
    /\ List.length (steps (snd out)) <= llm_calls (trace (snd out))
    /\ List.length (observations (snd out)) <= tool_calls (trace (snd out))
    /\ tool_calls (trace (snd out)) <= llm_calls (trace (snd out))
    /\ llm_calls (trace (snd out)) <= 5.
Proof.
  intros H user_input file_path chart_output_dir file_output_dir w. cbv zeta.
  rewrite run_agent_task_eq.
  destruct (printable (task_banner user_input)).
  - set (ctx := tool_context file_path chart_output_dir file_output_dir).
    set (m0 := initial_machine user_input file_path w).
    destruct (agent_loop_grows max_steps ctx m0) as (_ & Hlists).
    pose proof (agent_loop_counts max_steps ctx m0) as Hc. cbv zeta in Hc.
    change max_steps with 5 in *.
    replace (List.length (steps m0)) with 0 in Hc by reflexivity.
    replace (List.length (observations m0)) with 0 in Hc by reflexivity.
    replace (tool_calls (trace m0)) with 0 in Hc by reflexivity.
    replace (llm_calls (trace m0)) with 0 in Hc by reflexivity.
    split; [exact Hlists|]. repeat split; lia.
  - cbn [fst snd initial_machine steps observations trace].
    split; [intros r Habs; discriminate Habs|]. cbn. repeat split; lia.
Qed.

Lemma returned_record_bounds_witness :
  let out := Stub.run [Stub.list_sheets_text; Stub.final_text] in
  (forall r,
     fst out = Ok r ->
     result_steps r = steps (snd out) /\ result_observations r = observations (snd out))
  /\ List.length (observations (snd out)) <= List.length (steps (snd out))
  /\ List.length (steps (snd out)) <= llm_calls (trace (snd out))
  /\ List.length (observations (snd out)) <= tool_calls (trace (snd out))
  /\ tool_calls (trace (snd out)) <= llm_calls (trace (snd out))
  /\ llm_calls (trace (snd out)) <= 5.
Proof.
  exact (returned_record_bounds Stub.host "tidy the workbook" "uploads/data.xlsx"
           "/srv/static/charts" "/srv/static/outputs"
           (Stub.w0 [Stub.list_sheets_text; Stub.final_text])).
Defined.

Section LoopTurns.
Context {H : Host}.
Implicit Types (m : machine) (ctx : pydict).

(** The turn of a decision that is a record with a non-empty [tool_call] record
    and no [final_answer], once its two lines are printed, up to the
    serialization of the observation. *)
Lemma iteration_tool_turn ctx m s w' d c :
  llm_complete (conversation_history m) (env m) = (Ok s, w') ->
  json_loads s = Ok (VDict d) ->
  dict_get "final_answer" d = None ->
  dict_get "tool_call" d = Some (VDict c) ->
  c <> [] ->
  printable (thought_line d) = true ->
  printable (tool_line (tool_name_of c) (parameters_of c)) = true ->
  let ran := execute_tool (tool_name_of c) (parameters_of c) ctx w' in
  let observation_dict :=
    match fst ran with
    | Ok obs => obs
    | Raise e => failure_observation (tool_name_of c) e
    end in
  let tr := (trace m ++ [LLMCall (conversation_history m);
                         ToolCall (tool_name_of c) (parameters_of c)])%list in
  iteration ctx m =
    match json_dumps observation_dict with
    | Ok observation =>
        (Ok None,
         mk_machine (snd ran)
           (conversation_history m ++
              [mk_turn "assistant" s; mk_turn "user" ("Observation: " ++ observation)])
           (steps m ++ [[("thought", thought_of d); ("tool_call", VDict c);
                         ("observation", VStr observation)]])
           (observations m ++ [observation_dict])
           tr)
    | Raise _ =>
        (Ok (Some (mk_result (VStr "I encountered an unexpected error.")
                     (steps m) (observations m))),
         mk_machine (snd ran) (conversation_history m ++ [mk_turn "assistant" s])
           (steps m) (observations m) tr)
    end.
Proof.
  intros Hllm Hjson Hfa Htc Hc Hp Hq. cbv zeta.
  assert (Htruthy : truthy (VDict c) = true) by (destruct c; [contradiction|reflexivity]).
  unfold_iteration. reduce_machine. rewrite Hllm. reduce_machine. rewrite Hjson.
  cbn [py_get py_in py_getitem]. fold (thought_of d). fold (thought_line d). rewrite Hp.
  unfold dict_mem. rewrite Hfa, Htc. reduce_machine.
  rewrite Htruthy. cbn [negb py_get]. reduce_machine.
  fold (tool_name_of c). fold (parameters_of c).
  fold (tool_line (tool_name_of c) (parameters_of c)). rewrite Hq. reduce_machine.
  rewrite dispatch_eq. reduce_machine.
  destruct (json_dumps _) as [o|e] eqn:Hd; reduce_machine.
  - rewrite (observation_line_printable _ _ Hd). reduce_machine.
    rewrite <- !app_assoc. reflexivity.
  - fold (error_line e).
    rewrite (error_line_printable e (json_dumps_error_ascii _ _ Hd)).
    rewrite <- !app_assoc. reflexivity.
Qed.

End LoopTurns.

Lemma llm_histories_app tr1 tr2 :
  llm_histories (tr1 ++ tr2) = (llm_histories tr1 ++ llm_histories tr2)%list.
Proof.
  induction tr1 as [|[h|n p] tr1 IH]; cbn [llm_histories app].
  - reflexivity.
  - rewrite IH. reflexivity.
  - exact IH.
Qed.

Lemma increasing_weaken h0 h1 hs :
  extends_list h0 h1 -> increasing h1 hs -> increasing h0 hs.
Proof.
  destruct hs as [|h hs]; cbn [increasing]; [trivial|].
  intros H01 [H1 Hrest]. split; [exact (extends_list_trans _ _ _ H01 H1) | exact Hrest].
Qed.

Section LoopShape.
Context {H : Host}.
Implicit Types (m : machine) (ctx : pydict).

Lemma iteration_histories ctx m :
  llm_histories (trace (snd (iteration ctx m))) =
  (llm_histories (trace m) ++ [conversation_history m])%list.
Proof.
  unfold_iteration. reduce_machine.
  repeat (first [rewrite dispatch_eq | split_match]; reduce_machine);
    rewrite !llm_histories_app; cbn [llm_histories]; rewrite ?app_nil_r; reflexivity.
Qed.

Lemma agent_loop_histories n ctx m :
  exists hs,
    llm_histories (trace (snd (agent_loop n ctx m))) = (llm_histories (trace m) ++ hs)%list
    /\ increasing (conversation_history m) hs
    /\ (n <> 0 -> hd_error hs = Some (conversation_history m)).
Proof.
  revert m. induction n as [|n IH]; intros m.
  - exists []. cbn [agent_loop snd]. rewrite app_nil_r. repeat split.
    intros Hn. contradiction.
  - rewrite agent_loop_S.
    pose proof (iteration_histories ctx m) as Hh.
    pose proof (iteration_grows ctx m) as (Hg & _).
    assert (Hone : exists hs,
               llm_histories (trace (snd (iteration ctx m)))
               = (llm_histories (trace m) ++ hs)%list
               /\ increasing (conversation_history m) hs
               /\ (S n <> 0 -> hd_error hs = Some (conversation_history m))).
    { exists [conversation_history m]. split; [exact Hh|].
      split; [|reflexivity]. cbn [increasing]. split; [apply extends_list_refl|exact I]. }
    destruct (iteration ctx m) as [[[r|]|e] m1]; cbn [fst snd] in *.
    + exact Hone.
    + destruct (IH m1) as (hs & Hhs & Hinc & _).
      exists (conversation_history m :: hs). split.
      * rewrite Hhs, Hh, <- app_assoc. reflexivity.
      * split; [|reflexivity]. cbn [increasing].
        split; [apply extends_list_refl|].
        exact (increasing_weaken _ _ _ Hg Hinc).
    + exact Hone.
Qed.

Lemma iteration_step_shape ctx m :
  forallb step_shape (steps m) = true ->
  forallb step_shape (steps (snd (iteration ctx m))) = true.
Proof.
  intros Hm. unfold_iteration. reduce_machine.
  repeat (first [rewrite dispatch_eq | split_match]; reduce_machine);
    rewrite ?forallb_app, ?Hm; try reflexivity.
  all: cbn [forallb andb]; rewrite andb_true_r.
  all: unfold step_shape, dict_mem; cbn [dict_set]; reflexivity.
Qed.

Lemma agent_loop_step_shape n ctx m :
  forallb step_shape (steps m) = true ->
  forallb step_shape (steps (snd (agent_loop n ctx m))) = true.
Proof.
  revert m. induction n as [|n IH]; intros m Hm.
  - exact Hm.
  - rewrite agent_loop_S.
    pose proof (iteration_step_shape ctx m Hm) as Hs.
    destruct (iteration ctx m) as [[[r|]|e] m1]; cbn [fst snd] in *.
    + exact Hs.
    + exact (IH m1 Hs).
    + exact Hs.
Qed.
End LoopShape.

Lemma observation_texts_app (a b : list pydict) :
  observation_texts (a ++ b) = (observation_texts a ++ observation_texts b)%list.
Proof. unfold observation_texts. apply flat_map_app. Qed.

Section LoopRecord.
Context {H : Host}.
Implicit Types (m : machine) (ctx : pydict).

Lemma iteration_alignment ctx m :
  Forall2 recorded_as (observations m) (observation_texts (steps m)) ->
  Forall2 recorded_as (observations (snd (iteration ctx m)))
    (observation_texts (steps (snd (iteration ctx m)))).
Proof.
  intros Hm. unfold_iteration. reduce_machine.
  repeat (first [rewrite dispatch_eq | split_match]; reduce_machine);
    try absurd_observation_line; try exact Hm.
  all: rewrite observation_texts_app; cbn [observation_texts flat_map dict_get dict_set];
    cbn; rewrite ?app_nil_r; try exact Hm.
  all: apply Forall2_app; [exact Hm|].
  all: constructor; [|constructor].
  all: eexists; split; [eassumption|reflexivity].
Qed.

Lemma agent_loop_alignment n ctx m :
  Forall2 recorded_as (observations m) (observation_texts (steps m)) ->
  Forall2 recorded_as (observations (snd (agent_loop n ctx m)))
    (observation_texts (steps (snd (agent_loop n ctx m)))).
Proof.
  revert m. induction n as [|n IH]; intros m Hm.
  - exact Hm.
  - rewrite agent_loop_S.
    pose proof (iteration_alignment ctx m Hm) as Hs.
    destruct (iteration ctx m) as [[[r|]|e] m1]; cbn [fst snd] in *.
    + exact Hs.
    + exact (IH m1 Hs).
    + exact Hs.
Qed.
End LoopRecord.


Section LoopRaises.
Context {H : Host}.
Implicit Types (m : machine) (ctx : pydict).


End LoopRaises.

(** ** Properties of the loop beyond the design's list *)

(** X2. When the call to the model raises, the task ends at once, with
    the steps and observations of the earlier turns and a transcript to
    which nothing was appended: it returns
    ["I encountered an unexpected error."] when the handler can print the
    message of the exception, and otherwise the handler's own [print]
    raises and the [UnicodeEncodeError] leaves the loop. *)
Theorem llm_failure_ends_task :
  forall (H : Host) (ctx : pydict) (m : machine) (e : exn) (w' : world) (n : nat),
    llm_complete (conversation_history m) (env m) = (Raise e, w') ->
    agent_loop (S n) ctx m =
      (if printable (error_line e)
       then Ok (mk_result (VStr "I encountered an unexpected error.")
                  (steps m) (observations m))
       else Raise encode_error,
       mk_machine w' (conversation_history m) (steps m) (observations m)
         (trace m ++ [LLMCall (conversation_history m)])).
Proof.
  intros H ctx m e w' n Hllm. rewrite agent_loop_S.
  rewrite (iteration_llm_raises ctx m e w' Hllm).
  destruct (printable (error_line e)); reflexivity.
Qed.

Lemma llm_failure_ends_task_witness :
  fst (Stub.run []) = Ok (mk_result (VStr "I encountered an unexpected error.") [] [])
  /\ conversation_history (snd (Stub.run [])) = conversation_history (Stub.m0 []).
Proof.
  pose proof (llm_failure_ends_task Stub.host Stub.context (Stub.m0 [])
                (mk_exn (HostError "APIConnectionError") "Connection error.")
                (Stub.w0 []) 4 eq_refl) as Hrun.
  assert (Hsame : Stub.run [] = agent_loop 5 Stub.context (Stub.m0 [])) by reflexivity.
  rewrite Hsame, Hrun. split; reflexivity.
Defined.

(** X3. The loop only appends: after any number of iterations the
    transcript, the steps, the observations and the trace of calls each
    start with what they were, and the lists in a returned record are the
    lists of the final state.  So the final transcript of a task starts
    with the system prompt and the user's request. *)
Theorem loop_is_append_only :
  forall (H : Host),
    (forall (n : nat) (ctx : pydict) (m : machine),
       grows m (snd (agent_loop n ctx m))
       /\ (forall r,
             fst (agent_loop n ctx m) = Ok r ->
             result_steps r = steps (snd (agent_loop n ctx m))
             /\ result_observations r = observations (snd (agent_loop n ctx m))))
    /\
    (forall (user_input file_path chart_output_dir file_output_dir : string) (w : world),
       extends_list (conversation_history (initial_machine user_input file_path w))
         (conversation_history
            (snd (run_agent_task user_input file_path chart_output_dir file_output_dir w)))).
Proof.
  intros H. split.
  - intros n ctx m. exact (agent_loop_grows n ctx m).
  - intros user_input file_path chart_output_dir file_output_dir w.
    rewrite run_agent_task_eq. destruct (printable (task_banner user_input)).
    + exact (proj1 (proj1 (agent_loop_grows _ _ _))).
    + apply extends_list_refl.
Qed.

(** X4. Every call to the model is made on a transcript that extends the
    transcript of the call before it; the first call of a task, made once
    the task's opening line is printed, is made on exactly the system
    prompt and the user's request.  A task that cannot print its opening
    line calls no model. *)
Theorem model_sees_growing_transcript :
  forall (H : Host) (user_input file_path chart_output_dir file_output_dir : string)
         (w : world),
    let tr :=
      trace (snd (run_agent_task user_input file_path chart_output_dir file_output_dir w)) in
    (printable (task_banner user_input) = true ->
     exists hs,
       llm_histories tr = conversation_history (initial_machine user_input file_path w) :: hs
       /\ increasing (conversation_history (initial_machine user_input file_path w)) hs)
    /\ (printable (task_banner user_input) = false -> llm_histories tr = []).
Proof.
  intros H user_input file_path chart_output_dir file_output_dir w. cbv zeta.
  rewrite run_agent_task_eq. split; intros Hp; rewrite Hp; [|reflexivity].
  destruct (agent_loop_histories max_steps
              (tool_context file_path chart_output_dir file_output_dir)
              (initial_machine user_input file_path w)) as (hs & Hhs & Hinc & Hhd).
  cbn [initial_machine trace llm_histories app] in Hhs.
  destruct hs as [|h hs].
  - specialize (Hhd ltac:(discriminate)). discriminate Hhd.
  - specialize (Hhd ltac:(discriminate)). cbn [hd_error] in Hhd.
    injection Hhd as ->. exists hs. split; [exact Hhs|].
    cbn [increasing] in Hinc. exact (proj2 Hinc).
Qed.

Lemma model_sees_growing_transcript_witness :
  (exists hs,
     llm_histories (trace (snd (Stub.run [Stub.list_sheets_text; Stub.final_text])))
     = conversation_history (Stub.m0 [Stub.list_sheets_text; Stub.final_text]) :: hs
     /\ increasing (conversation_history (Stub.m0 [Stub.list_sheets_text; Stub.final_text])) hs)
  /\ llm_histories
       (trace (snd (run_agent_task (H := Stub.host) Stub.mute "uploads/data.xlsx"
                      "/srv/static/charts" "/srv/static/outputs"
                      (Stub.w0 [Stub.final_text]))))
     = [].
Proof.
  split.
  - exact (proj1 (model_sees_growing_transcript Stub.host "tidy the workbook"
                    "uploads/data.xlsx" "/srv/static/charts" "/srv/static/outputs"
                    (Stub.w0 [Stub.list_sheets_text; Stub.final_text])) eq_refl).
  - exact (proj2 (model_sees_growing_transcript Stub.host Stub.mute
                    "uploads/data.xlsx" "/srv/static/charts" "/srv/static/outputs"
                    (Stub.w0 [Stub.final_text])) eq_refl).
Defined.

(** X5. Every step recorded by a task, and so every step of a returned
    record, has a thought, and has an observation exactly when it has a
    tool call. *)
Theorem returned_steps_shape :
  forall (H : Host) (user_input file_path chart_output_dir file_output_dir : string)
         (w : world),
    let out := run_agent_task user_input file_path chart_output_dir file_output_dir w in
    forallb step_shape (steps (snd out)) = true
    /\ (forall r, fst out = Ok r -> forallb step_shape (result_steps r) = true).
Proof.
  intros H user_input file_path chart_output_dir file_output_dir w. cbv zeta.
  rewrite run_agent_task_eq. destruct (printable (task_banner user_input)).
  - assert (Hshape : forallb step_shape
                       (steps (snd (agent_loop max_steps
                                      (tool_context file_path chart_output_dir file_output_dir)
                                      (initial_machine user_input file_path w)))) = true)
      by (apply agent_loop_step_shape; reflexivity).
    split; [exact Hshape|].
    intros r Hr. rewrite (proj1 (proj2 (agent_loop_grows _ _ _) r Hr)). exact Hshape.
  - split; [reflexivity|]. intros r Habs. discriminate Habs.
Qed.

(** X6. The observations and the steps of a task agree, in its final
    state and so in a returned record: the observations are, in order,
    the objects whose [json.dumps] texts are the ["observation"] entries
    of the steps. *)
Theorem returned_observations_match_steps :
  forall (H : Host) (user_input file_path chart_output_dir file_output_dir : string)
         (w : world),
    let out := run_agent_task user_input file_path chart_output_dir file_output_dir w in
    Forall2 recorded_as (observations (snd out)) (observation_texts (steps (snd out)))
    /\ (forall r,
          fst out = Ok r ->
          Forall2 recorded_as (result_observations r) (observation_texts (result_steps r))).
Proof.
  intros H user_input file_path chart_output_dir file_output_dir w. cbv zeta.
  rewrite run_agent_task_eq. destruct (printable (task_banner user_input)).
  - assert (Hal : Forall2 recorded_as
                    (observations
                       (snd (agent_loop max_steps
                               (tool_context file_path chart_output_dir file_output_dir)
                               (initial_machine user_input file_path w))))
                    (observation_texts
                       (steps
                          (snd (agent_loop max_steps
                                  (tool_context file_path chart_output_dir file_output_dir)
                                  (initial_machine user_input file_path w))))))
      by (apply agent_loop_alignment; constructor).
    split; [exact Hal|].
    intros r Hr. destruct (proj2 (agent_loop_grows _ _ _) r Hr) as (-> & ->). exact Hal.
  - split; [constructor|]. intros r Habs. discriminate Habs.
Qed.

(** X7. A turn whose decision is a record with a non-empty [tool_call]
    record and no [final_answer], and whose two lines (the thought, the
    tool with its parameters) can be printed, does not end the task when
    the observation serializes: whether the tool returned or raised, the
    loop records one step (thought, tool call, observation text) and one
    observation, appends the model's text and a user turn
    ["Observation: <text>"] to the transcript, and goes on with the next
    iteration. *)
Theorem tool_turn_feeds_observation_back :
  forall (H : Host) (ctx : pydict) (m : machine) (s : string) (w' : world)
         (d c : pydict) (observation : string) (n : nat),
    llm_complete (conversation_history m) (env m) = (Ok s, w') ->
    json_loads s = Ok (VDict d) ->
    dict_get "final_answer" d = None ->
    dict_get "tool_call" d = Some (VDict c) ->
    c <> [] ->
    printable (thought_line d) = true ->
    printable (tool_line (tool_name_of c) (parameters_of c)) = true ->
    json_dumps (recorded_observation (tool_name_of c) (parameters_of c) ctx w')
      = Ok observation ->
    agent_loop (S n) ctx m =
    agent_loop n ctx (after_tool_turn m ctx s w' (thought_of d) c observation).
Proof.
  intros H ctx m s w' d c observation n Hllm Hjson Hfa Htc Hc Hp Hq Hdumps.
  rewrite agent_loop_S.
  rewrite (iteration_tool_turn ctx m s w' d c Hllm Hjson Hfa Htc Hc Hp Hq). cbv zeta.
  fold (recorded_observation (tool_name_of c) (parameters_of c) ctx w').
  rewrite Hdumps. reflexivity.
Qed.

Lemma tool_turn_feeds_observation_back_witness :
  exists r,
    fst (Lab.run [Lab.sort_text; Stub.final_text]) = Ok r
    /\ answer r = VStr "42"
    /\ Stub.written (env (snd (Lab.run [Lab.sort_text; Stub.final_text])))
       = ["/srv/static/outputs/sorted.xlsx"].
Proof.
  pose proof (tool_turn_feeds_observation_back Lab.host Stub.context
                (Lab.m0 [Lab.sort_text; Stub.final_text]) Lab.sort_text
                (Lab.w0 [Stub.final_text])
                [("thought", VStr "sort"); ("tool_call", VDict Lab.sort_call)]
                Lab.sort_call
                (Stub.dumps_value
                   (VDict [("success", VBool true);
                           ("output_file", VStr "/srv/static/outputs/sorted.xlsx")]))
                4 eq_refl eq_refl eq_refl eq_refl ltac:(discriminate)
                eq_refl eq_refl eq_refl) as Hrun.
  assert (Hsame : Lab.run [Lab.sort_text; Stub.final_text]
                  = agent_loop 5 Stub.context (Lab.m0 [Lab.sort_text; Stub.final_text]))
    by reflexivity.
  rewrite Hsame, Hrun. eexists. repeat split; vm_compute; reflexivity.
Defined.

(** X8. A tool name that is not in the registry does not end the task
    when the turn's two lines can be printed: the tool call changes
    nothing in the world, the observation
    [{"error": "Tool '<name>' does not exist."}] is recorded and fed back to
    the model as a user turn, and the loop goes on. *)
Theorem unknown_tool_is_recoverable :
  forall (H : Host) (ctx : pydict) (m : machine) (s : string) (w' : world)
         (d c : pydict) (name observation : string) (n : nat),
    llm_complete (conversation_history m) (env m) = (Ok s, w') ->
    json_loads s = Ok (VDict d) ->
    dict_get "final_answer" d = None ->
    dict_get "tool_call" d = Some (VDict c) ->
    dict_get "tool_name" c = Some (VStr name) ->
    dict_mem name _TOOL_IMPLEMENTATIONS = false ->
    printable (thought_line d) = true ->
    printable (tool_line (VStr name) (parameters_of c)) = true ->
    json_dumps (VDict [("error", VStr ("Tool '" ++ name ++ "' does not exist."))])
      = Ok observation ->
    agent_loop (S n) ctx m =
    agent_loop n ctx
      (mk_machine w'
         (conversation_history m ++
            [mk_turn "assistant" s; mk_turn "user" ("Observation: " ++ observation)])
         (steps m ++ [[("thought", thought_of d); ("tool_call", VDict c);
                       ("observation", VStr observation)]])
         (observations m ++
            [VDict [("error", VStr ("Tool '" ++ name ++ "' does not exist."))]])
         (trace m ++ [LLMCall (conversation_history m);
                      ToolCall (VStr name) (parameters_of c)])).
Proof.
  intros H ctx m s w' d c name observation n Hllm Hjson Hfa Htc Hname Hreg Hp Hq Hdumps.
  assert (Hc : c <> []) by (intros ->; discriminate Hname).
  assert (Htn : tool_name_of c = VStr name) by (unfold tool_name_of; rewrite Hname; reflexivity).
  assert (Hexec : execute_tool (VStr name) (parameters_of c) ctx w' =
                  (Ok (VDict [("error", VStr ("Tool '" ++ name ++ "' does not exist."))]), w')).
  { unfold execute_tool, resolve. unfold dict_mem in Hreg.
    destruct (dict_get name _TOOL_IMPLEMENTATIONS); [discriminate Hreg|reflexivity]. }
  rewrite <- Htn in Hq.
  rewrite agent_loop_S.
  rewrite (iteration_tool_turn ctx m s w' d c Hllm Hjson Hfa Htc Hc Hp Hq). cbv zeta.
  rewrite Htn, Hexec. cbn [fst snd]. rewrite Hdumps. reflexivity.
Qed.

Lemma unknown_tool_is_recoverable_witness :
  exists r,
    fst (Lab.run [Lab.unknown_tool_text; Stub.final_text]) = Ok r
    /\ answer r = VStr "42"
    /\ result_observations r
       = [VDict [("error", VStr "Tool 'make_coffee' does not exist.")]].
Proof.
  pose proof (unknown_tool_is_recoverable Lab.host Stub.context
                (Lab.m0 [Lab.unknown_tool_text; Stub.final_text]) Lab.unknown_tool_text
                (Lab.w0 [Stub.final_text])
                [("thought", VStr "brew"); ("tool_call", VDict Lab.unknown_tool_call)]
                Lab.unknown_tool_call "make_coffee"
                (Stub.dumps_value
                   (VDict [("error", VStr "Tool 'make_coffee' does not exist.")]))
                4 eq_refl eq_refl eq_refl eq_refl eq_refl eq_refl eq_refl eq_refl eq_refl)
    as Hrun.
  assert (Hsame : Lab.run [Lab.unknown_tool_text; Stub.final_text]
                  = agent_loop 5 Stub.context (Lab.m0 [Lab.unknown_tool_text; Stub.final_text]))
    by reflexivity.
  rewrite Hsame, Hrun. eexists. repeat split; vm_compute; reflexivity.
Defined.

(** X9. When the observation of a tool call cannot be serialized, the task
    ends with ["I encountered an unexpected error."]: the turn's two lines
    were printed and the tool has run (the world is the one it left, the
    call is in the trace) but neither a step nor an observation is recorded
    for the turn. *)
Theorem unserializable_observation_ends_task :
  forall (H : Host) (ctx : pydict) (m : machine) (s : string) (w' : world)
         (d c : pydict) (e : exn) (n : nat),
    llm_complete (conversation_history m) (env m) = (Ok s, w') ->
    json_loads s = Ok (VDict d) ->
    dict_get "final_answer" d = None ->
    dict_get "tool_call" d = Some (VDict c) ->
    c <> [] ->
    printable (thought_line d) = true ->
    printable (tool_line (tool_name_of c) (parameters_of c)) = true ->
    json_dumps (recorded_observation (tool_name_of c) (parameters_of c) ctx w')
      = Raise e ->
    agent_loop (S n) ctx m =
      (Ok (mk_result (VStr "I encountered an unexpected error.") (steps m) (observations m)),
       mk_machine (snd (execute_tool (tool_name_of c) (parameters_of c) ctx w'))
         (conversation_history m ++ [mk_turn "assistant" s])
         (steps m) (observations m)
         (trace m ++ [LLMCall (conversation_history m);
                      ToolCall (tool_name_of c) (parameters_of c)])).
Proof.
  intros H ctx m s w' d c e n Hllm Hjson Hfa Htc Hc Hp Hq Hdumps.
  rewrite agent_loop_S.
  rewrite (iteration_tool_turn ctx m s w' d c Hllm Hjson Hfa Htc Hc Hp Hq). cbv zeta.
  fold (recorded_observation (tool_name_of c) (parameters_of c) ctx w').
  rewrite Hdumps. reflexivity.
Qed.

Lemma unserializable_observation_ends_task_witness :
  fst (Lab.run [Lab.read_rows_text; Stub.final_text])
  = Ok (mk_result (VStr "I encountered an unexpected error.") [] [])
  /\ tool_calls (trace (snd (Lab.run [Lab.read_rows_text; Stub.final_text]))) = 1.
Proof.
  pose proof (unserializable_observation_ends_task Lab.host Stub.context
                (Lab.m0 [Lab.read_rows_text; Stub.final_text]) Lab.read_rows_text
                (Lab.w0 [Stub.final_text])
                [("thought", VStr "peek"); ("tool_call", VDict Lab.read_rows_call)]
                Lab.read_rows_call
                (mk_exn TypeError "Object of type datetime is not JSON serializable")
                4 eq_refl eq_refl eq_refl eq_refl ltac:(discriminate)
                eq_refl eq_refl eq_refl) as Hrun.
  assert (Hsame : Lab.run [Lab.read_rows_text; Stub.final_text]
                  = agent_loop 5 Stub.context (Lab.m0 [Lab.read_rows_text; Stub.final_text]))
    by reflexivity.
  rewrite Hsame, Hrun. split; vm_compute; reflexivity.
Defined.

(** X10. A [tool_call] that is truthy but not a record (a string, a
    number, a list) ends the task with ["I encountered an unexpected
    error."] before any tool is run; nothing is recorded for the turn. *)
Theorem malformed_tool_call_ends_task :
  forall (H : Host) (ctx : pydict) (m : machine) (s : string) (w' : world)
         (d : pydict) (v : value) (n : nat),
    llm_complete (conversation_history m) (env m) = (Ok s, w') ->
    json_loads s = Ok (VDict d) ->
    dict_get "final_answer" d = None ->
    dict_get "tool_call" d = Some v ->
    truthy v = true ->
    (forall c, v <> VDict c) ->
    agent_loop (S n) ctx m =
      (Ok (mk_result (VStr "I encountered an unexpected error.") (steps m) (observations m)),
       after_llm m s w').
Proof.
  intros H ctx m s w' d v n Hllm Hjson Hfa Htc Htruthy Hv.
  rewrite agent_loop_S.
  destruct (printable (thought_line d)) eqn:Hp;
    [|rewrite (iteration_unprintable_thought ctx m s w' d Hllm Hjson Hp); reflexivity].
  unfold_iteration. reduce_machine.
  rewrite Hllm. reduce_machine. rewrite Hjson.
  cbn [py_get py_in py_getitem]. fold (thought_of d). fold (thought_line d). rewrite Hp.
  unfold dict_mem. rewrite Hfa, Htc. reduce_machine.
  rewrite Htruthy. cbn [negb]. reduce_machine.
  destruct v; try reflexivity.
  exfalso. exact (Hv d0 eq_refl).
Qed.

Lemma malformed_tool_call_ends_task_witness :
  fst (Lab.run [Lab.string_call_text; Stub.final_text])
  = Ok (mk_result (VStr "I encountered an unexpected error.") [] [])
  /\ tool_calls (trace (snd (Lab.run [Lab.string_call_text; Stub.final_text]))) = 0.
Proof.
  pose proof (malformed_tool_call_ends_task Lab.host Stub.context
                (Lab.m0 [Lab.string_call_text; Stub.final_text]) Lab.string_call_text
                (Lab.w0 [Stub.final_text])
                [("thought", VStr "list"); ("tool_call", VStr "list_sheets")]
                (VStr "list_sheets") 4
                eq_refl eq_refl eq_refl eq_refl eq_refl ltac:(discriminate)) as Hrun.
  assert (Hsame : Lab.run [Lab.string_call_text; Stub.final_text]
                  = agent_loop 5 Stub.context (Lab.m0 [Lab.string_call_text; Stub.final_text]))
    by reflexivity.
  rewrite Hsame, Hrun. split; vm_compute; reflexivity.
Defined.





(** ** Binding, defaults and the exceptions of a tool call *)

Lemma in_params_name_in (params : list (string * option value)) k od :
  In (k, od) params -> name_in k (map fst params) = true.
Proof.
  intros Hin. unfold name_in. apply existsb_exists. exists k.
  split; [|apply String.eqb_refl].
  apply in_map_iff. exists (k, od). split; [reflexivity|exact Hin].
Qed.

Lemma dict_get_params_in (params : list (string * option value)) k od :
  dict_get k params = Some od -> In (k, od) params.
Proof. exact (dict_get_In k params od). Qed.

Lemma missing_params_spec (f : tool_impl) (kwargs : pydict) k :
  In k (missing_params f kwargs) <->
  In (k, None) (impl_params f) /\ dict_get k kwargs = None.
Proof.
  unfold missing_params. rewrite in_map_iff. split.
  - intros [[k' od] [Hk Hin]]. cbn [fst] in Hk. subst k'.
    apply filter_In in Hin. destruct Hin as [Hin Hp]. cbn [fst snd] in Hp.
    destruct od as [dflt|]; [discriminate Hp|].
    split; [exact Hin|]. unfold dict_mem in Hp.
    destruct (dict_get k kwargs); [discriminate Hp|reflexivity].
  - intros [Hin Hk]. exists (k, None). split; [reflexivity|].
    apply filter_In. split; [exact Hin|]. cbn [fst snd].
    unfold dict_mem. rewrite Hk. reflexivity.
Qed.

Lemma passed_no_unexpected (f : tool_impl) (parameters context : pydict) :
  find (fun kv => negb (name_in (fst kv) (signature_keys f))) (passed f parameters context)
  = None.
Proof.
  apply find_none_of_all. intros [k v] Hin. cbn [fst].
  rewrite (passed_keys_accepted f parameters context k); [reflexivity|].
  unfold dict_keys. apply in_map_iff. exists (k, v). split; [reflexivity|exact Hin].
Qed.

(** X11. A registered tool called without some of the required parameters
    of its implementation raises, before anything runs, the [TypeError]
    that names them; they are exactly the parameters without a default that
    neither the declared parameters nor the context supply. *)
Theorem missing_arguments_raise_type_error :
  forall (H : Host) (name : string) (f : tool_impl) (parameters context : pydict) (w : world),
    dict_get name _TOOL_IMPLEMENTATIONS = Some f ->
    distinct_keys parameters = true ->
    missing_params f (passed f parameters context) <> [] ->
    execute_tool (VStr name) (VDict parameters) context w =
      (Raise (mk_exn TypeError
                (missing_message (impl_name f)
                   (missing_params f (passed f parameters context)))), w)
    /\ (forall k,
          In k (missing_params f (passed f parameters context)) <->
          (In (k, None) (impl_params f)
           /\ dict_get k parameters = None /\ dict_get k context = None)).
Proof.
  intros H name f parameters context w Hf Hp Hm. split.
  - rewrite (execute_tool_resolved name f parameters context w Hf).
    unfold call_tool, bind_arguments. rewrite passed_no_unexpected.
    destruct (missing_params f (passed f parameters context)); [contradiction|reflexivity].
  - intros k. rewrite missing_params_spec, (passed_lookup f parameters context k Hp).
    unfold merged_and_projected. split.
    + intros [Hin Hk]. split; [exact Hin|].
      unfold signature_keys in Hk. rewrite (in_params_name_in _ _ _ Hin) in Hk.
      destruct (dict_get k parameters); [discriminate Hk|]. split; [reflexivity|exact Hk].
    + intros (Hin & Hkp & Hkc). split; [exact Hin|].
      unfold signature_keys. rewrite (in_params_name_in _ _ _ Hin), Hkp. exact Hkc.
Qed.

Lemma missing_arguments_raise_type_error_witness :
  execute_tool (H := Stub.host) (VStr "rename_column")
    (VDict [("old_column_name", VStr "Rev")]) Stub.context (Stub.w0 [])
  = (Raise (mk_exn TypeError
       "rename_column() missing 2 required positional arguments: 'output_filename' and 'new_column_name'"),
     Stub.w0 []).
Proof.
  exact (proj1 (missing_arguments_raise_type_error Stub.host "rename_column" rename_column
                  [("old_column_name", VStr "Rev")] Stub.context (Stub.w0 [])
                  eq_refl eq_refl ltac:(discriminate))).
Defined.

Lemma bound_keys (kwargs : pydict) (params : list (string * option value)) :
  map fst
    (map (fun p =>
            (fst p,
             match dict_get (fst p) kwargs with
             | Some x => x
             | None => match snd p with Some dflt => dflt | None => VNone end
             end)) params) = map fst params.
Proof. rewrite map_map. reflexivity. Qed.

Lemma bound_default (kwargs : pydict) (params : list (string * option value)) k od :
  dict_get k params = Some od ->
  dict_get k
    (map (fun p =>
            (fst p,
             match dict_get (fst p) kwargs with
             | Some x => x
             | None => match snd p with Some dflt => dflt | None => VNone end
             end)) params)
  = Some (match dict_get k kwargs with
          | Some x => x
          | None => match od with Some dflt => dflt | None => VNone end
          end).
Proof.
  induction params as [|[k1 od1] ps IH]; cbn [map dict_get fst snd]; [discriminate|].
  destruct (String.eqb k k1) eqn:E.
  - apply String.eqb_eq in E. subst k1. intros [= ->]. reflexivity.
  - exact IH.
Qed.

Lemma bind_arguments_shape (f : tool_impl) (parameters context args : pydict) :
  bind_arguments f (passed f parameters context) = Ok args ->
  args =
  map (fun p =>
         (fst p,
          match dict_get (fst p) (passed f parameters context) with
          | Some x => x
          | None => match snd p with Some dflt => dflt | None => VNone end
          end)) (impl_params f).
Proof.
  intros Hb. unfold bind_arguments in Hb. rewrite passed_no_unexpected in Hb.
  destruct (missing_params f (passed f parameters context)); [|discriminate Hb].
  injection Hb as <-. reflexivity.
Qed.

Lemma bound_from_context (f : tool_impl) (parameters context args : pydict) k v :
  distinct_keys parameters = true ->
  bind_arguments f (passed f parameters context) = Ok args ->
  name_in k (signature_keys f) = true ->
  dict_get k parameters = None ->
  dict_get k context = Some v ->
  local args k = v.
Proof.
  intros Hp Hb Hin Hk Hc. apply (bind_arguments_lookup f _ args k v Hb Hin).
  rewrite (passed_lookup f parameters context k Hp). unfold merged_and_projected.
  rewrite Hin, Hk. exact Hc.
Qed.

Lemma bound_from_default (f : tool_impl) (parameters context args : pydict) k dflt :
  distinct_keys parameters = true ->
  bind_arguments f (passed f parameters context) = Ok args ->
  dict_get k (impl_params f) = Some (Some dflt) ->
  dict_get k parameters = None ->
  dict_get k context = None ->
  local args k = dflt.
Proof.
  intros Hp Hb Hd Hk Hc. unfold local.
  rewrite (bind_arguments_shape f parameters context args Hb), (bound_default _ _ k _ Hd).
  rewrite (passed_lookup f parameters context k Hp). unfold merged_and_projected.
  rewrite Hk, Hc. destruct (name_in k (signature_keys f)); reflexivity.
Qed.

(** X12. When the call of a tool binds, its locals are the
    parameters of its signature, in order, and each one holds the declared
    value if the model declared one, else the value of the context, else
    the default of the signature. *)
Theorem bound_arguments_values :
  forall (f : tool_impl) (parameters context args : pydict),
    distinct_keys parameters = true ->
    bind_arguments f (passed f parameters context) = Ok args ->
    map fst args = signature_keys f
    /\ (forall k v, name_in k (signature_keys f) = true ->
                    dict_get k parameters = Some v -> local args k = v)
    /\ (forall k v, name_in k (signature_keys f) = true ->
                    dict_get k parameters = None -> dict_get k context = Some v ->
                    local args k = v)
    /\ (forall k dflt, dict_get k (impl_params f) = Some (Some dflt) ->
                       dict_get k parameters = None -> dict_get k context = None ->
                       local args k = dflt).
Proof.
  intros f parameters context args Hp Hb.
  split; [|split; [|split]].
  - rewrite (bind_arguments_shape f parameters context args Hb). apply bound_keys.
  - intros k v Hin Hk. apply (bind_arguments_lookup f _ args k v Hb Hin).
    rewrite (passed_lookup f parameters context k Hp). unfold merged_and_projected.
    rewrite Hin, Hk. reflexivity.
  - intros k v Hin Hk Hc.
    exact (bound_from_context f parameters context args k v Hp Hb Hin Hk Hc).
  - intros k dflt Hd Hk Hc.
    exact (bound_from_default f parameters context args k dflt Hp Hb Hd Hk Hc).
Qed.

Lemma bound_arguments_values_witness :
  bind_arguments read_rows
    (passed read_rows [("limit", VInt 10); ("colour", VStr "red")] Stub.context)
  = Ok [("file_path", VStr "uploads/data.xlsx"); ("sheet_name", VNone);
        ("offset", VInt 1); ("limit", VInt 10)]
  /\ local [("file_path", VStr "uploads/data.xlsx"); ("sheet_name", VNone);
            ("offset", VInt 1); ("limit", VInt 10)] "offset" = VInt 1.
Proof.
  split; [reflexivity|].
  exact (proj2 (proj2 (proj2
    (bound_arguments_values read_rows
       [("limit", VInt 10); ("colour", VStr "red")] Stub.context
       [("file_path", VStr "uploads/data.xlsx"); ("sheet_name", VNone);
        ("offset", VInt 1); ("limit", VInt 10)]
       eq_refl eq_refl))) "offset" (VInt 1) eq_refl eq_refl eq_refl).
Defined.

(** ** Exceptions of the dispatcher *)

Section ExceptionFacts.
Context {H : Host}.

Lemma _get_safe_path_raises (output_dir filename : value) (e : exn) :
  _get_safe_path output_dir filename = Raise e -> early_kind e.
Proof.
  unfold _get_safe_path, py_in, isabs, path_join, fspath, early_kind.
  destruct filename; destruct output_dir;
    repeat match goal with
           | |- context [if ?b then _ else _] => destruct b
           end;
    intros [= <-]; cbn; auto.
Qed.

Lemma prologue_raises (f : tool_impl) (args : pydict) (w : world) (e : exn) :
  prologue f args w = Raise e -> early_kind e.
Proof.
  unfold prologue. destruct (impl_entry f) as [|dir|dir].
  - discriminate.
  - destruct (_get_safe_path _ _) eqn:E; [discriminate|].
    intros [= <-]. exact (_get_safe_path_raises _ _ _ E).
  - destruct (_get_safe_path _ _) eqn:E; [discriminate|].
    intros [= <-]. exact (_get_safe_path_raises _ _ _ E).
Qed.

Lemma bind_arguments_raises (f : tool_impl) (kwargs : pydict) (e : exn) :
  bind_arguments f kwargs = Raise e -> exn_kind e = TypeError.
Proof.
  unfold bind_arguments.
  destruct (find _ kwargs) as [[k v]|]; [intros [= <-]; reflexivity|].
  destruct (missing_params f kwargs); [discriminate|intros [= <-]; reflexivity].
Qed.

Lemma run_body_raises (f : tool_impl) (args : pydict) (path : option string)
    (w w' : world) (e : exn) :
  run_body f args path w = (Raise e, w') ->
  exn_kind e = BaseError /\
  exists inner, exn_msg e = "An unexpected error occurred " ++ impl_doing f ++ ": " ++ inner.
Proof.
  unfold run_body. destruct (tool_body _ _ _ _) as [[v|e0] w1]; [discriminate|].
  intros [= <- _]. split; [reflexivity|]. exists (exn_msg e0). reflexivity.
Qed.

Lemma call_tool_raises (f : tool_impl) (kwargs : pydict) (w w' : world) (e : exn) :
  call_tool f kwargs w = (Raise e, w') ->
  (w' = w /\ early_kind e) \/
  (exn_kind e = BaseError /\
   exists inner, exn_msg e = "An unexpected error occurred " ++ impl_doing f ++ ": " ++ inner).
Proof.
  unfold call_tool.
  destruct (bind_arguments f kwargs) as [args|e0] eqn:Hb.
  - destruct (prologue f args w) as [[args' path]|e0] eqn:Hp.
    + intros Hr. right. exact (run_body_raises _ _ _ _ _ _ Hr).
    + intros [= <- <-]. left. split; [reflexivity|exact (prologue_raises _ _ _ _ Hp)].
  - intros [= <- <-]. left. split; [reflexivity|].
    left. exact (bind_arguments_raises _ _ _ Hb).
Qed.
End ExceptionFacts.

(** X13. An exception that leaves the dispatcher is of one of two kinds:
    a [TypeError] or [ValueError] raised before the body of a tool has
    started, with the world as it was; or the plain [Exception] into which
    a tool wraps whatever its body raised, whose message starts with
    ["An unexpected error occurred "]. *)
Theorem dispatcher_exceptions :
  forall (H : Host) (tool_name parameters : value) (context : pydict) (w w' : world)
         (e : exn),
    execute_tool tool_name parameters context w = (Raise e, w') ->
    (w' = w /\ (exn_kind e = TypeError \/ exn_kind e = ValueError))
    \/ (exn_kind e = BaseError
        /\ String.prefix "An unexpected error occurred " (exn_msg e) = true).
Proof.
  intros H tool_name parameters context w w' e. unfold execute_tool.
  destruct (resolve tool_name) as [[f|]|e0] eqn:Hr.
  - destruct (full_params context parameters) as [full|e0] eqn:Hfp.
    + intros Hc. destruct (call_tool_raises _ _ _ _ _ Hc) as [Hearly|[Hk [inner Hmsg]]].
      * left. exact Hearly.
      * right. split; [exact Hk|]. rewrite Hmsg. apply prefix_app.
    + intros [= <- <-]. left. split; [reflexivity|]. left.
      unfold full_params in Hfp. destruct parameters; try (injection Hfp as <-; reflexivity).
      discriminate Hfp.
  - discriminate.
  - intros [= <- <-]. left. split; [reflexivity|]. left.
    unfold resolve in Hr. destruct tool_name; try discriminate Hr;
      injection Hr as <-; reflexivity.
Qed.

Lemma dispatcher_exceptions_witness :
  Stub.w0 [] = Stub.w0 []
  /\ (exn_kind (invalid_filename "../evil.xlsx") = TypeError
      \/ exn_kind (invalid_filename "../evil.xlsx") = ValueError).
Proof.
  destruct (dispatcher_exceptions Stub.host (VStr "create_sheet") (VDict Stub.evil_parameters)
              Stub.context (Stub.w0 []) (Stub.w0 []) (invalid_filename "../evil.xlsx")
              eq_refl) as [Hearly|[Hk _]].
  - exact Hearly.
  - discriminate Hk.
Defined.

(** ** The paths [_get_safe_path] returns *)

Lemma prefix_empty (s : string) : String.prefix "" s = true.
Proof. destruct s; reflexivity. Qed.

Lemma prefix_app_r (p a b : string) : String.prefix p a = true -> String.prefix p (a ++ b) = true.
Proof.
  revert a. induction p as [|c p IH]; intros a; [intros _; apply prefix_empty|].
  destruct a as [|c' a]; cbn [String.prefix append]; [discriminate|].
  destruct (ascii_dec c c'); [apply IH|discriminate].
Qed.

Lemma prefix_refl (s : string) : String.prefix s s = true.
Proof.
  induction s as [|c s IH]; [reflexivity|]. cbn [String.prefix].
  destruct (ascii_dec c c); [exact IH|contradiction].
Qed.

Lemma append_assoc (a b c : string) : (a ++ b) ++ c = a ++ b ++ c.
Proof. induction a as [|x a IH]; cbn [append]; [reflexivity|rewrite IH; reflexivity]. Qed.

Lemma append_empty_r (a : string) : a ++ "" = a.
Proof. induction a as [|x a IH]; cbn [append]; [reflexivity|rewrite IH; reflexivity]. Qed.

(** Two dots in a row of [a ++ b], when [a] is empty or ends with [/], lie
    in [a] or in [b]. *)
Lemma contains_dots_app (a b : string) :
  (a = "" \/ ends_with_char "/" a = true) ->
  contains ".." (a ++ b) = contains ".." a || contains ".." b.
Proof.
  induction a as [|c a IH]; intros Ha.
  - cbn [append]. reflexivity.
  - destruct Ha as [Ha|Ha]; [discriminate Ha|].
    cbn [append contains].
    destruct a as [|c1 a1].
    + cbn [ends_with_char] in Ha. apply Ascii.eqb_eq in Ha. subst c.
      cbn [append contains]. destruct b as [|b0 b1]; reflexivity.
    + assert (Ha' : ends_with_char "/" (String c1 a1) = true) by exact Ha.
      rewrite (IH (or_intror Ha')).
      assert (Hp : String.prefix ".." (String c (String c1 a1 ++ b))
                   = String.prefix ".." (String c (String c1 a1))).
      { cbn [append String.prefix].
        destruct (ascii_dec "." c); [|reflexivity].
        destruct (ascii_dec "." c1); [|reflexivity].
        rewrite !prefix_empty. reflexivity. }
      rewrite Hp. rewrite orb_assoc. reflexivity.
Qed.

Lemma ends_with_char_app (c : ascii) (a : string) :
  ends_with_char c (a ++ String c "") = true.
Proof.
  induction a as [|x a IH]; cbn [append ends_with_char].
  - apply Ascii.eqb_refl.
  - destruct (a ++ String c "") eqn:E.
    + destruct a; discriminate E.
    + exact IH.
Qed.

Lemma contains_dots_slash (a : string) :
  contains ".." (a ++ "/") = contains ".." a.
Proof.
  induction a as [|c a IH]; [reflexivity|].
  cbn [append contains]. rewrite IH. f_equal.
  cbn [String.prefix]. destruct (ascii_dec "." c); [|reflexivity].
  destruct a as [|c1 a1]; cbn [append String.prefix]; [reflexivity|].
  destruct (ascii_dec "." c1); [|reflexivity].
  rewrite !prefix_empty. reflexivity.
Qed.

Section SafePathFacts.
Context {H : Host}.

Lemma _get_safe_path_ok (output_dir s p : string) :
  _get_safe_path (VStr output_dir) (VStr s) = Ok p ->
  contains ".." s = false /\ startswith "/" s = false
  /\ (p = output_dir ++ s \/ p = output_dir ++ "/" ++ s)
  /\ String.prefix output_dir p = true
  /\ contains ".." p = contains ".." output_dir.
Proof.
  unfold _get_safe_path, py_in, isabs, path_join, fspath.
  destruct (contains ".." s) eqn:Hc; [discriminate|].
  destruct (startswith "/" s) eqn:Hs; [discriminate|].
  intros Hp. split; [reflexivity|]. split; [reflexivity|]. revert Hp.
  destruct (String.eqb output_dir "" || ends_with_char "/" output_dir) eqn:Hd;
    intros [= <-].
  - split; [left; reflexivity|]. split; [apply prefix_app|].
    rewrite contains_dots_app, Hc, orb_false_r; [reflexivity|].
    apply orb_true_iff in Hd. destruct Hd as [Hd|Hd]; [left|right; exact Hd].
    apply String.eqb_eq. exact Hd.
  - split; [right; reflexivity|]. split; [apply prefix_app|].
    replace (output_dir ++ String "/" s) with ((output_dir ++ "/") ++ s)
      by apply append_assoc.
    rewrite contains_dots_app, Hc, orb_false_r.
    + apply contains_dots_slash.
    + right. apply ends_with_char_app.
Qed.

Lemma _get_safe_path_accepts (output_dir s : string) :
  contains ".." s || startswith "/" s = false ->
  exists p,
    _get_safe_path (VStr output_dir) (VStr s) = Ok p
    /\ (p = output_dir ++ s \/ p = output_dir ++ "/" ++ s).
Proof.
  intros Hs. apply orb_false_iff in Hs. destruct Hs as [Hc Hs].
  unfold _get_safe_path, py_in, isabs, path_join, fspath. rewrite Hc, Hs.
  destruct (String.eqb output_dir "" || ends_with_char "/" output_dir);
    eexists; (split; [reflexivity|]); [left|right]; reflexivity.
Qed.
End SafePathFacts.

(** X14. For a directory and a filename that are strings,
    [_get_safe_path] rejects the filename exactly when it has two dots in a
    row anywhere (also inside a name, as in [a..b.xlsx]) or starts with [/];
    otherwise it returns the directory followed by the filename, with one
    [/] between them unless the directory is empty or ends with [/]: the
    path starts with the directory and has two dots in a row only if the
    directory has. *)
Theorem safe_path_characterised :
  forall (H : Host) (output_dir s : string),
    (contains ".." s || startswith "/" s = true ->
     _get_safe_path (VStr output_dir) (VStr s) = Raise (invalid_filename s))
    /\
    (contains ".." s || startswith "/" s = false ->
     exists p,
       _get_safe_path (VStr output_dir) (VStr s) = Ok p
       /\ (p = output_dir ++ s \/ p = output_dir ++ "/" ++ s)
       /\ String.prefix output_dir p = true
       /\ contains ".." p = contains ".." output_dir).
Proof.
  intros H output_dir s. split.
  - intros Hs. unfold _get_safe_path, py_in, isabs, fspath, py_str, invalid_filename.
    destruct (contains ".." s); [reflexivity|]. cbn [orb] in Hs. rewrite Hs. reflexivity.
  - intros Hs. destruct (_get_safe_path_accepts output_dir s Hs) as (p & Hp & Hshape).
    exists p. split; [exact Hp|].
    destruct (_get_safe_path_ok output_dir s p Hp) as (_ & _ & _ & Hpre & Hdots).
    split; [exact Hshape|]. split; [exact Hpre|exact Hdots].
Qed.

Lemma safe_path_characterised_witness :
  _get_safe_path (H := Stub.host) (VStr "/srv/static/outputs") (VStr "a..b.xlsx")
  = Raise (invalid_filename "a..b.xlsx")
  /\ exists p,
       _get_safe_path (H := Stub.host) (VStr "/srv/static/outputs") (VStr "q1/sorted.xlsx")
       = Ok p
       /\ String.prefix "/srv/static/outputs" p = true.
Proof.
  split.
  - exact (proj1 (safe_path_characterised Stub.host "/srv/static/outputs" "a..b.xlsx") eq_refl).
  - destruct (proj2 (safe_path_characterised Stub.host "/srv/static/outputs" "q1/sorted.xlsx")
                eq_refl) as (p & Hp & _ & Hpre & _).
    exists p. split; [exact Hp|exact Hpre].
Defined.

(** ** The directory a write tool saves to *)

Lemma output_dirs_in_signature :
  forallb (fun t => match output_dir_param (snd t) with
                    | None => true
                    | Some dir =>
                        name_in dir (signature_keys (snd t)) &&
                        negb (String.eqb dir "output_filename")
                    end) _TOOL_IMPLEMENTATIONS = true.
Proof. reflexivity. Qed.

Lemma local_dict_set_same (args : pydict) k v : local (dict_set k v args) k = v.
Proof. unfold local. rewrite dict_get_set, String.eqb_refl. reflexivity. Qed.

Lemma local_dict_set (args : pydict) k k' v :
  String.eqb k' k = false -> local (dict_set k v args) k' = local args k'.
Proof. intros Hk. unfold local. rewrite dict_get_set, Hk. reflexivity. Qed.

Section SandboxFacts.
Context {H : Host}.

Lemma _get_safe_path_ok_strings (output_dir : string) (filename : value) (p : string) :
  _get_safe_path (VStr output_dir) filename = Ok p ->
  exists s, filename = VStr s.
Proof.
  unfold _get_safe_path, py_in, isabs, path_join, fspath.
  destruct filename; try discriminate.
  - intros _. eexists. reflexivity.
  - destruct (existsb _ l); discriminate.
  - destruct (dict_mem ".." d); discriminate.
Qed.

Lemma prologue_ok_path (f : tool_impl) (args args' : pydict) (path : option string)
    (w : world) (dir d : string) :
  output_dir_param f = Some dir ->
  String.eqb dir "output_filename" = false ->
  local args dir = VStr d ->
  prologue f args w = Ok (args', path) ->
  exists pth,
    path = Some pth /\ String.prefix d pth = true /\ contains ".." pth = contains ".." d.
Proof.
  unfold output_dir_param, prologue. intros Hdir Hne Hl.
  destruct (impl_entry f) as [|dir0|dir0]; [discriminate Hdir| |];
    injection Hdir as ->.
  - rewrite Hl.
    destruct (_get_safe_path (VStr d) (local args "output_filename")) as [p|e] eqn:E;
      [|discriminate].
    intros [= <- <-]. exists p. split; [reflexivity|].
    destruct (_get_safe_path_ok_strings d _ p E) as [s Hs]. rewrite Hs in E.
    destruct (_get_safe_path_ok d s p E) as (_ & _ & _ & Hpre & Hdots).
    split; assumption.
  - set (args1 := match local args "output_filename" with
                  | VNone => dict_set "output_filename"
                               (VStr ("chart_" ++ str_of_Z (time_now w) ++ ".png")) args
                  | _ => args
                  end).
    assert (Hl1 : local args1 dir = VStr d).
    { unfold args1. destruct (local args "output_filename"); try exact Hl.
      rewrite (local_dict_set _ _ _ _ Hne). exact Hl. }
    rewrite Hl1.
    destruct (_get_safe_path (VStr d) (local args1 "output_filename")) as [p|e] eqn:E;
      [|discriminate].
    intros [= <- <-]. exists p. split; [reflexivity|].
    destruct (_get_safe_path_ok_strings d _ p E) as [s Hs]. rewrite Hs in E.
    destruct (_get_safe_path_ok d s p E) as (_ & _ & _ & Hpre & Hdots).
    split; assumption.
Qed.
End SandboxFacts.

(** X15. When the declared parameters do not name the output directory of
    a write tool, the directory the tool uses is the caller's: if the tool
    gets as far as its body, the body runs on a path that starts with the
    directory of the context and has two dots in a row only if that
    directory has. *)
Theorem undeclared_output_dir_is_the_callers :
  forall (H : Host) (name : string) (f : tool_impl) (dir d : string)
         (parameters context args args' : pydict) (path : option string) (w : world),
    dict_get name _TOOL_IMPLEMENTATIONS = Some f ->
    output_dir_param f = Some dir ->
    distinct_keys parameters = true ->
    dict_get dir parameters = None ->
    dict_get dir context = Some (VStr d) ->
    bind_arguments f (passed f parameters context) = Ok args ->
    prologue f args w = Ok (args', path) ->
    exists pth,
      path = Some pth
      /\ String.prefix d pth = true
      /\ contains ".." pth = contains ".." d
      /\ execute_tool (VStr name) (VDict parameters) context w
         = run_body f args' (Some pth) w.
Proof.
  intros H name f dir d parameters context args args' path w
         Hf Hdir Hp Hkp Hkc Hb Hpro.
  pose proof (registry_forall
                (fun g => match output_dir_param g with
                          | None => true
                          | Some dir0 =>
                              name_in dir0 (signature_keys g) &&
                              negb (String.eqb dir0 "output_filename")
                          end)
                output_dirs_in_signature name f Hf) as Htab.
  cbv beta in Htab. rewrite Hdir in Htab.
  apply andb_true_iff in Htab. destruct Htab as [Hin Hne].
  apply negb_true_iff in Hne.
  assert (Hl : local args dir = VStr d).
  { apply (bind_arguments_lookup f _ args dir (VStr d) Hb Hin).
    rewrite (passed_lookup f parameters context dir Hp). unfold merged_and_projected.
    rewrite Hin, Hkp. exact Hkc. }
  destruct (prologue_ok_path f args args' path w dir d Hdir Hne Hl Hpro)
    as (pth & -> & Hpre & Hdots).
  exists pth. split; [reflexivity|]. split; [exact Hpre|]. split; [exact Hdots|].
  rewrite (execute_tool_resolved name f parameters context w Hf).
  unfold call_tool. rewrite Hb, Hpro. reflexivity.
Qed.

Lemma undeclared_output_dir_is_the_callers_witness :
  exists pth,
    String.prefix "/srv/static/outputs" pth = true
    /\ execute_tool (H := Stub.host) (VStr "sort_data") (VDict Lab.sort_parameters)
         Stub.context (Stub.w0 [])
       = run_body (H := Stub.host) sort_data
           [("file_path", VStr "uploads/data.xlsx");
            ("file_output_dir", VStr "/srv/static/outputs");
            ("output_filename", VStr "sorted.xlsx"); ("sort_by_column", VStr "Revenue");
            ("ascending", VBool true); ("sheet_name", VNone)]
           (Some pth) (Stub.w0 []).
Proof.
  destruct (undeclared_output_dir_is_the_callers Stub.host "sort_data" sort_data
              "file_output_dir" "/srv/static/outputs" Lab.sort_parameters Stub.context
              [("file_path", VStr "uploads/data.xlsx");
               ("file_output_dir", VStr "/srv/static/outputs");
               ("output_filename", VStr "sorted.xlsx"); ("sort_by_column", VStr "Revenue");
               ("ascending", VBool true); ("sheet_name", VNone)]
              [("file_path", VStr "uploads/data.xlsx");
               ("file_output_dir", VStr "/srv/static/outputs");
               ("output_filename", VStr "sorted.xlsx"); ("sort_by_column", VStr "Revenue");
               ("ascending", VBool true); ("sheet_name", VNone)]
              (Some "/srv/static/outputs/sorted.xlsx") (Stub.w0 [])
              eq_refl eq_refl eq_refl eq_refl eq_refl eq_refl eq_refl)
    as (pth & _ & Hpre & _ & Hexec).
  exists pth. split; [exact Hpre|exact Hexec].
Defined.

(** ** The default name of a chart *)

Lemma string_of_uint_lacks_dot (d : Decimal.uint) :
  lacks_char "." (NilEmpty.string_of_uint d) = true.
Proof. induction d; cbn [NilEmpty.string_of_uint lacks_char]; try exact IHd; reflexivity. Qed.

Lemma str_of_Z_lacks_dot (z : Z) : lacks_char "." (str_of_Z z) = true.
Proof.
  unfold str_of_Z, NilZero.string_of_int, NilZero.string_of_uint.
  destruct (Z.to_int z) as [d|d]; cbn [lacks_char];
    destruct d; first [reflexivity | apply string_of_uint_lacks_dot].
Qed.

Lemma lacks_dot_then_png (x : string) :
  lacks_char "." x = true -> contains ".." (x ++ ".png") = false.
Proof.
  induction x as [|c x IH]; [reflexivity|].
  cbn [lacks_char]. intros Hx. apply andb_true_iff in Hx. destruct Hx as [Hc Hx].
  cbn [append contains]. rewrite (IH Hx), orb_false_r.
  cbn [String.prefix]. destruct (ascii_dec "." c) as [<-|]; [discriminate Hc|reflexivity].
Qed.

Lemma default_chart_name_safe (t : Z) :
  contains ".." (default_chart_name t) = false
  /\ startswith "/" (default_chart_name t) = false.
Proof.
  split; [|reflexivity].
  unfold default_chart_name.
  change ("chart_" ++ str_of_Z t ++ ".png") with (("chart_" ++ str_of_Z t) ++ ".png").
  apply lacks_dot_then_png. cbn [append lacks_char]. apply str_of_Z_lacks_dot.
Qed.

(** X16. [create_chart] called without an output filename never fails
    path validation: when the arguments bind and the chart directory is the
    caller's, the body runs on [<chart_output_dir>/chart_<time>.png] (no
    extra [/] when the directory is empty or ends with one). *)
Theorem chart_default_name_is_accepted :
  forall (H : Host) (parameters context args : pydict) (d : string) (w : world),
    distinct_keys parameters = true ->
    dict_get "output_filename" parameters = None ->
    dict_get "output_filename" context = None ->
    dict_get "chart_output_dir" parameters = None ->
    dict_get "chart_output_dir" context = Some (VStr d) ->
    bind_arguments create_chart (passed create_chart parameters context) = Ok args ->
    exists pth,
      (pth = d ++ default_chart_name (time_now w)
       \/ pth = d ++ "/" ++ default_chart_name (time_now w))
      /\ execute_tool (VStr "create_chart") (VDict parameters) context w
         = run_body create_chart
             (dict_set "output_filename" (VStr (default_chart_name (time_now w))) args)
             (Some pth) w.
Proof.
  intros H parameters context args d w Hp Hfp Hfc Hdp Hdc Hb.
  assert (Hfile : local args "output_filename" = VNone).
  { exact (bound_from_default create_chart parameters context args "output_filename" VNone
             Hp Hb eq_refl Hfp Hfc). }
  assert (Hdir : local args "chart_output_dir" = VStr d).
  { exact (bound_from_context create_chart parameters context args "chart_output_dir"
             (VStr d) Hp Hb eq_refl Hdp Hdc). }
  destruct (default_chart_name_safe (time_now w)) as [Hdots Habs].
  destruct (_get_safe_path_accepts d (default_chart_name (time_now w)))
    as (pth & Hpth & Hshape).
  { rewrite Hdots, Habs. reflexivity. }
  exists pth. split; [exact Hshape|].
  rewrite (execute_tool_resolved "create_chart" create_chart parameters context w eq_refl).
  unfold call_tool. rewrite Hb. unfold prologue. cbn [impl_entry create_chart].
  rewrite Hfile. fold (default_chart_name (time_now w)).
  rewrite (local_dict_set _ _ _ _ (eq_refl : String.eqb "chart_output_dir" "output_filename" = false)).
  rewrite Hdir, local_dict_set_same, Hpth. reflexivity.
Qed.

Lemma chart_default_name_is_accepted_witness :
  exists pth,
    (pth = "/srv/static/charts" ++ default_chart_name 1700000000
     \/ pth = "/srv/static/charts" ++ "/" ++ default_chart_name 1700000000)
    /\ fst (execute_tool (H := Stub.host) (VStr "create_chart")
              (VDict [("chart_type", VStr "bar"); ("x_column", VStr "Month");
                      ("y_column", VStr "Revenue")])
              Stub.context (Stub.w0 []))
       = Ok (VDict [("success", VBool true); ("output_file", VStr pth)]).
Proof.
  destruct (chart_default_name_is_accepted Stub.host
              [("chart_type", VStr "bar"); ("x_column", VStr "Month");
               ("y_column", VStr "Revenue")]
              Stub.context
              [("file_path", VStr "uploads/data.xlsx");
               ("chart_output_dir", VStr "/srv/static/charts");
               ("chart_type", VStr "bar"); ("x_column", VStr "Month");
               ("y_column", VStr "Revenue"); ("output_filename", VNone);
               ("sheet_name", VNone)]
              "/srv/static/charts" (Stub.w0 [])
              eq_refl eq_refl eq_refl eq_refl eq_refl eq_refl)
    as (pth & Hshape & Hexec).
  exists pth. split; [exact Hshape|]. rewrite Hexec. reflexivity.
Defined.

(** ** Keys outside the signature *)

Section ProjectionFacts.
Context {V : Type}.
Implicit Types (d a b : list (string * V)) (k : string) (v : V).

Lemma dict_filter_keys_set (p : string -> bool) k v d :
  dict_filter_keys p (dict_set k v d) =
  if p k then dict_set k v (dict_filter_keys p d) else dict_filter_keys p d.
Proof.
  unfold dict_filter_keys.
  induction d as [|[k1 v1] d IH]; cbn [dict_set filter fst].
  - destruct (p k); reflexivity.
  - destruct (String.eqb k k1) eqn:E.
    + apply String.eqb_eq in E. subst k1. cbn [filter fst].
      destruct (p k); cbn [dict_set]; [rewrite String.eqb_refl|]; reflexivity.
    + cbn [filter fst]. rewrite IH.
      destruct (p k1); destruct (p k); cbn [dict_set]; rewrite ?E; reflexivity.
Qed.

Lemma dict_filter_keys_merge (p : string -> bool) a b :
  dict_filter_keys p (dict_merge a b) =
  dict_merge (dict_filter_keys p a) (dict_filter_keys p b).
Proof.
  unfold dict_merge. revert a.
  induction b as [|[k1 v1] b IH]; intros a; cbn [fold_left fst snd].
  - reflexivity.
  - rewrite IH, dict_filter_keys_set.
    change (dict_filter_keys p ((k1, v1) :: b))
      with (if p k1 then (k1, v1) :: dict_filter_keys p b else dict_filter_keys p b).
    destruct (p k1); reflexivity.
Qed.
End ProjectionFacts.

Lemma passed_ignores_declared_key (f : tool_impl) (parameters context : pydict) k v :
  name_in k (signature_keys f) = false ->
  passed f (dict_set k v parameters) context = passed f parameters context.
Proof.
  intros Hk. unfold passed, params_to_pass.
  rewrite !dict_filter_keys_merge, dict_filter_keys_set, Hk. reflexivity.
Qed.

Lemma passed_ignores_context_key (f : tool_impl) (parameters context : pydict) k v :
  name_in k (signature_keys f) = false ->
  passed f parameters (dict_set k v context) = passed f parameters context.
Proof.
  intros Hk. unfold passed, params_to_pass.
  rewrite !dict_filter_keys_merge, dict_filter_keys_set, Hk. reflexivity.
Qed.

(** X17. A key that is not a parameter of the implementation has no
    influence on a tool call: setting it, to any value, in the declared
    parameters or in the context leaves the result and the world of
    [execute_tool] the same. *)
Theorem unaccepted_keys_have_no_influence :
  forall (H : Host) (name : string) (f : tool_impl) (parameters context : pydict)
         (k : string) (v : value) (w : world),
    dict_get name _TOOL_IMPLEMENTATIONS = Some f ->
    name_in k (signature_keys f) = false ->
    execute_tool (VStr name) (VDict (dict_set k v parameters)) context w
      = execute_tool (VStr name) (VDict parameters) context w
    /\ execute_tool (VStr name) (VDict parameters) (dict_set k v context) w
       = execute_tool (VStr name) (VDict parameters) context w.
Proof.
  intros H name f parameters context k v w Hf Hk.
  rewrite !(execute_tool_resolved name f _ _ w Hf).
  rewrite (passed_ignores_declared_key f parameters context k v Hk).
  rewrite (passed_ignores_context_key f parameters context k v Hk).
  split; reflexivity.
Qed.

Lemma unaccepted_keys_have_no_influence_witness :
  execute_tool (H := Stub.host) (VStr "list_sheets")
    (VDict (dict_set "output_filename" (VStr "../evil.xlsx") [])) Stub.context (Stub.w0 [])
  = execute_tool (H := Stub.host) (VStr "list_sheets") (VDict []) Stub.context (Stub.w0 []).
Proof.
  exact (proj1 (unaccepted_keys_have_no_influence Stub.host "list_sheets" list_sheets
                  [] Stub.context "output_filename" (VStr "../evil.xlsx") (Stub.w0 [])
                  eq_refl eq_refl)).
Defined.

(** X18. For a registered tool, parameters that are not a record ([null],
    a list, a string, a number) make [execute_tool] raise the [TypeError]
    ["'<type>' object is not a mapping"] before the tool is called; at the
    call site of the loop this becomes a failure observation and the world
    is unchanged. *)
Theorem parameters_must_be_a_mapping :
  forall (H : Host) (name : string) (f : tool_impl) (parameters : value) (context : pydict)
         (m : machine),
    dict_get name _TOOL_IMPLEMENTATIONS = Some f ->
    (forall p, parameters <> VDict p) ->
    execute_tool (VStr name) parameters context (env m) =
      (Raise (mk_exn TypeError ("'" ++ type_name parameters ++ "' object is not a mapping")),
       env m)
    /\ dispatch (VStr name) parameters context m =
         (Ok (VDict [("error",
                      VStr ("Tool '" ++ name ++ "' failed with error: '" ++
                            type_name parameters ++ "' object is not a mapping"))]),
          mk_machine (env m) (conversation_history m) (steps m) (observations m)
            (trace m ++ [ToolCall (VStr name) parameters])).
Proof.
  intros H name f parameters context m Hf Hp.
  assert (Hexec : execute_tool (VStr name) parameters context (env m) =
            (Raise (mk_exn TypeError
                      ("'" ++ type_name parameters ++ "' object is not a mapping")),
             env m)).
  { unfold execute_tool, resolve. rewrite Hf. unfold full_params, quoted.
    destruct parameters; try reflexivity. exfalso. exact (Hp d eq_refl). }
  split; [exact Hexec|].
  rewrite dispatch_eq, Hexec. reflexivity.
Qed.

Lemma parameters_must_be_a_mapping_witness :
  fst (dispatch (H := Stub.host) (VStr "list_sheets") VNone Stub.context (Stub.m0 []))
  = Ok (VDict [("error",
                VStr "Tool 'list_sheets' failed with error: 'NoneType' object is not a mapping")]).
Proof.
  rewrite (proj2 (parameters_must_be_a_mapping Stub.host "list_sheets" list_sheets VNone
                    Stub.context (Stub.m0 []) eq_refl ltac:(discriminate))).
  reflexivity.
Defined.

(** ** Schemas and signatures *)

Lemma schemas_follow_registry :
  map schema_name get_tool_schemas = map fst _TOOL_IMPLEMENTATIONS.
Proof. reflexivity. Qed.

(** A property checked on every entry and its schema holds of every
    resolved tool and the schema of its name. *)
Lemma registry_schema_forall (P : tool_impl -> value -> bool) :
  forallb (fun t => match schema_of (fst t) with
                    | Some sch => P (snd t) sch
                    | None => false
                    end) _TOOL_IMPLEMENTATIONS = true ->
  forall name f sch,
    dict_get name _TOOL_IMPLEMENTATIONS = Some f ->
    schema_of name = Some sch ->
    P f sch = true.
Proof.
  intros HP name f sch Hf Hs. apply dict_get_In in Hf.
  rewrite forallb_forall in HP. specialize (HP _ Hf). cbn [fst snd] in HP.
  rewrite Hs in HP. exact HP.
Qed.

Lemma schema_properties_are_parameters :
  forallb (fun t => match schema_of (fst t) with
                    | Some sch =>
                        forallb (fun k => name_in k (signature_keys (snd t)) &&
                                          negb (name_in k context_keys))
                          (schema_properties sch)
                    | None => false
                    end) _TOOL_IMPLEMENTATIONS = true.
Proof. vm_compute. reflexivity. Qed.

Lemma keys_within_mem (names : list string) (d : pydict) k v :
  keys_within names d = true -> dict_get k d = Some v -> name_in k names = true.
Proof.
  intros Hw Hk. unfold keys_within in Hw. rewrite forallb_forall in Hw.
  exact (Hw _ (dict_get_In k d v Hk)).
Qed.

Lemma name_in_In (k : string) (names : list string) :
  name_in k names = true <-> In k names.
Proof.
  unfold name_in. rewrite existsb_exists. split.
  - intros [x [Hin Hx]]. apply String.eqb_eq in Hx. subst x. exact Hin.
  - intros Hin. exists k. split; [exact Hin|apply String.eqb_refl].
Qed.

(** X19. The schema of a tool names only parameters of its implementation
    and none of the context's keys.  So when the declared parameters use
    only names of the schema, every declared value reaches the
    implementation and every context key the implementation accepts
    reaches it with the caller's value. *)
Theorem schema_conformant_call_keeps_context :
  forall (name : string) (f : tool_impl) (sch : value) (parameters context : pydict),
    dict_get name _TOOL_IMPLEMENTATIONS = Some f ->
    schema_of name = Some sch ->
    distinct_keys parameters = true ->
    keys_within (schema_properties sch) parameters = true ->
    (forall k v, dict_get k parameters = Some v ->
                 dict_get k (passed f parameters context) = Some v)
    /\ (forall k, name_in k context_keys = true ->
                  name_in k (signature_keys f) = true ->
                  dict_get k (passed f parameters context) = dict_get k context).
Proof.
  intros name f sch parameters context Hf Hs Hp Hw.
  pose proof (registry_schema_forall
                (fun g s => forallb (fun k => name_in k (signature_keys g) &&
                                              negb (name_in k context_keys))
                              (schema_properties s))
                schema_properties_are_parameters name f sch Hf Hs) as Htab.
  cbv beta in Htab. rewrite forallb_forall in Htab.
  split.
  - intros k v Hk.
    pose proof (keys_within_mem _ _ k v Hw Hk) as Hin. apply name_in_In in Hin.
    specialize (Htab k Hin). apply andb_true_iff in Htab. destruct Htab as [Hsig _].
    rewrite (passed_lookup f parameters context k Hp). unfold merged_and_projected.
    rewrite Hsig, Hk. reflexivity.
  - intros k Hctx Hsig.
    rewrite (passed_lookup f parameters context k Hp). unfold merged_and_projected.
    rewrite Hsig.
    destruct (dict_get k parameters) as [v|] eqn:Hk; [|reflexivity].
    pose proof (keys_within_mem _ _ k v Hw Hk) as Hin. apply name_in_In in Hin.
    specialize (Htab k Hin). apply andb_true_iff in Htab. destruct Htab as [_ Hn].
    rewrite Hctx in Hn. discriminate Hn.
Qed.

Lemma schema_conformant_call_keeps_context_witness :
  dict_get "file_output_dir" (passed sort_data Lab.sort_parameters Stub.context)
  = Some (VStr "/srv/static/outputs").
Proof.
  exact (proj2 (schema_conformant_call_keeps_context "sort_data" sort_data schema_sort_data
                  Lab.sort_parameters Stub.context eq_refl eq_refl eq_refl eq_refl)
           "file_output_dir" eq_refl eq_refl).
Defined.

(** X20. For every tool but [handle_duplicates], a call that declares the
    parameters its schema requires binds, on the context [run_agent_task]
    builds: no [TypeError] for a missing argument. *)
Theorem schema_required_parameters_suffice :
  forall (name : string) (f : tool_impl) (sch : value) (parameters : pydict)
         (file_path chart_output_dir file_output_dir : string),
    dict_get name _TOOL_IMPLEMENTATIONS = Some f ->
    schema_of name = Some sch ->
    name <> "handle_duplicates" ->
    distinct_keys parameters = true ->
    forallb (fun k => dict_mem k parameters) (schema_required sch) = true ->
    exists args,
      bind_arguments f
        (passed f parameters (tool_context file_path chart_output_dir file_output_dir))
      = Ok args.
Proof.
  intros name f sch parameters file_path chart_output_dir file_output_dir
         Hf Hs Hname Hp Hreq.
  apply bind_passed.
  destruct (missing_params f (passed f parameters _)) as [|k ks] eqn:Hm; [reflexivity|].
  exfalso.
  assert (Hk : In k (missing_params f
                       (passed f parameters
                          (tool_context file_path chart_output_dir file_output_dir))))
    by (rewrite Hm; left; reflexivity).
  apply missing_params_spec in Hk. destruct Hk as [Hin Hnone].
  rewrite (passed_lookup f parameters _ k Hp) in Hnone. unfold merged_and_projected in Hnone.
  unfold signature_keys in Hnone. rewrite (in_params_name_in _ _ _ Hin) in Hnone.
  pose proof (registry_schema_forall
                (fun g s => String.eqb (impl_name g) "handle_duplicates" ||
                            forallb (fun p => match snd p with
                                              | Some _ => true
                                              | None => name_in (fst p) context_keys ||
                                                        name_in (fst p) (schema_required s)
                                              end) (impl_params g))) as Htab.
  specialize (Htab ltac:(vm_compute; reflexivity) name f sch Hf Hs). cbv beta in Htab.
  assert (Himpl : String.eqb (impl_name f) "handle_duplicates" = false).
  { pose proof registry_names_are_function_names as Hnames.
    rewrite forallb_forall in Hnames. specialize (Hnames _ (dict_get_In _ _ _ Hf)).
    cbn [fst snd] in Hnames. apply String.eqb_eq in Hnames. rewrite <- Hnames.
    apply String.eqb_neq. exact Hname. }
  rewrite Himpl in Htab. cbn [orb] in Htab. rewrite forallb_forall in Htab.
  specialize (Htab _ Hin). cbn [fst snd] in Htab.
  apply orb_true_iff in Htab. destruct Htab as [Hctx|Hsch].
  - destruct (dict_get k parameters); [discriminate Hnone|].
    unfold context_keys, name_in in Hctx. cbn [existsb] in Hctx.
    unfold tool_context in Hnone. cbn [dict_get] in Hnone.
    destruct (String.eqb k "file_path"); [discriminate Hnone|].
    destruct (String.eqb k "chart_output_dir"); [discriminate Hnone|].
    destruct (String.eqb k "file_output_dir"); [discriminate Hnone|].
    discriminate Hctx.
  - rewrite forallb_forall in Hreq. apply name_in_In in Hsch.
    specialize (Hreq k Hsch). unfold dict_mem in Hreq.
    destruct (dict_get k parameters); [discriminate Hnone|discriminate Hreq].
Qed.

Lemma schema_required_parameters_suffice_witness :
  exists args,
    bind_arguments sort_data (passed sort_data Lab.sort_parameters Stub.context) = Ok args.
Proof.
  exact (schema_required_parameters_suffice "sort_data" sort_data schema_sort_data
           Lab.sort_parameters "uploads/data.xlsx" "/srv/static/charts" "/srv/static/outputs"
           eq_refl eq_refl ltac:(discriminate) eq_refl eq_refl).
Defined.

(** X21. [handle_duplicates] needs an [output_filename] that its schema
    does not require: called without one it raises a [TypeError] before
    anything runs, whatever the action, also for ['find'], which saves
    no file. *)
Theorem handle_duplicates_needs_output_filename :
  forall (H : Host) (parameters : pydict)
         (file_path chart_output_dir file_output_dir : string) (w : world),
    distinct_keys parameters = true ->
    dict_get "output_filename" parameters = None ->
    name_in "output_filename" (schema_required schema_handle_duplicates) = false
    /\ execute_tool (VStr "handle_duplicates") (VDict parameters)
         (tool_context file_path chart_output_dir file_output_dir) w
       = (Raise (mk_exn TypeError
            "handle_duplicates() missing 1 required positional argument: 'output_filename'"),
          w).
Proof.
  intros H parameters file_path chart_output_dir file_output_dir w Hp Hk.
  split; [reflexivity|].
  set (ctx := tool_context file_path chart_output_dir file_output_dir).
  assert (Hm : missing_params handle_duplicates (passed handle_duplicates parameters ctx)
               = ["output_filename"]).
  { unfold missing_params. cbn [impl_params handle_duplicates filter map fst snd req opt].
    unfold dict_mem. rewrite !(passed_lookup handle_duplicates parameters ctx _ Hp).
    unfold merged_and_projected.
    replace (name_in "file_path" (signature_keys handle_duplicates)) with true by reflexivity.
    replace (name_in "file_output_dir" (signature_keys handle_duplicates)) with true
      by reflexivity.
    replace (name_in "output_filename" (signature_keys handle_duplicates)) with true
      by reflexivity.
    rewrite Hk.
    replace (dict_get "file_path" ctx) with (Some (VStr file_path)) by reflexivity.
    replace (dict_get "file_output_dir" ctx) with (Some (VStr file_output_dir)) by reflexivity.
    replace (dict_get "output_filename" ctx) with (@None value) by reflexivity.
    destruct (dict_get "file_path" parameters); destruct (dict_get "file_output_dir" parameters);
      reflexivity. }
  rewrite (execute_tool_resolved "handle_duplicates" handle_duplicates parameters ctx w eq_refl).
  unfold call_tool, bind_arguments. rewrite passed_no_unexpected, Hm. reflexivity.
Qed.

Lemma handle_duplicates_needs_output_filename_witness :
  execute_tool (H := Stub.host) (VStr "handle_duplicates")
    (VDict [("action", VStr "find")]) Stub.context (Stub.w0 [])
  = (Raise (mk_exn TypeError
       "handle_duplicates() missing 1 required positional argument: 'output_filename'"),
     Stub.w0 []).
Proof.
  exact (proj2 (handle_duplicates_needs_output_filename Stub.host [("action", VStr "find")]
                  "uploads/data.xlsx" "/srv/static/charts" "/srv/static/outputs"
                  (Stub.w0 []) eq_refl eq_refl)).
Defined.

(** ** The web front end *)

Lemma after_last_none (c : ascii) (s : string) :
  after_last c s = None <-> lacks_char c s = true.
Proof.
  induction s as [|a s IH]; cbn [after_last lacks_char]; [split; reflexivity|].
  destruct (after_last c s) as [t|].
  - split; [discriminate|]. intros Hs. apply andb_true_iff in Hs.
    destruct Hs as [_ Hs]. apply IH in Hs. discriminate Hs.
  - destruct (Ascii.eqb a c); cbn [negb andb].
    + split; discriminate.
    + split; intros _; [apply IH|]; reflexivity.
Qed.

Lemma after_last_some (c : ascii) (s t : string) :
  after_last c s = Some t ->
  exists a, s = a ++ String c t /\ lacks_char c t = true.
Proof.
  revert t. induction s as [|a s IH]; intros t; cbn [after_last]; [discriminate|].
  destruct (after_last c s) as [t'|] eqn:E.
  - intros [= ->]. destruct (IH t eq_refl) as (a0 & -> & Ht).
    exists (String a a0). split; [reflexivity|exact Ht].
  - destruct (Ascii.eqb a c) eqn:Ea; [|discriminate].
    intros [= ->]. apply Ascii.eqb_eq in Ea. subst a.
    exists EmptyString. split; [reflexivity|]. apply after_last_none. exact E.
Qed.

Lemma after_last_app (c : ascii) (a t : string) :
  after_last c (a ++ String c t) =
  Some (match after_last c t with Some u => u | None => t end).
Proof.
  induction a as [|x a IH]; cbn [append after_last].
  - rewrite Ascii.eqb_refl. destruct (after_last c t); reflexivity.
  - rewrite IH. reflexivity.
Qed.

Lemma after_last_lacks (c : ascii) (s t : string) :
  after_last c s = Some t -> lacks_char c t = true.
Proof. intros Hs. destruct (after_last_some c s t Hs) as (_ & _ & Ht). exact Ht. Qed.

Lemma contains_char (c : ascii) (s : string) :
  contains (String c "") s = negb (lacks_char c s).
Proof.
  induction s as [|a s IH]; [reflexivity|].
  cbn [contains lacks_char String.prefix]. rewrite IH.
  destruct (ascii_dec c a) as [<-|Hne].
  - rewrite Ascii.eqb_refl, prefix_empty. reflexivity.
  - assert (Ha : Ascii.eqb a c = false).
    { apply Ascii.eqb_neq. intros ->. apply Hne. reflexivity. }
    rewrite Ha. reflexivity.
Qed.

(** X22. [allowed_file] never raises, and it accepts a filename exactly
    when the filename has a dot and what follows its last dot is [xlsx] or
    [xls] in any mix of upper and lower case; the part before the dot may
    be empty. *)
Theorem allowed_file_characterised :
  forall (filename : string),
    exists b,
      allowed_file filename = Ok b
      /\ (b = true <->
          exists stem extension,
            filename = stem ++ "." ++ extension
            /\ lacks_char "." extension = true
            /\ (lower extension = "xlsx" \/ lower extension = "xls")).
Proof.
  intros filename. unfold allowed_file. rewrite contains_char.
  destruct (lacks_char "." filename) eqn:Hl; cbn [negb].
  - exists false. split; [reflexivity|]. split; [discriminate|].
    intros (stem & extension & -> & _ & _).
    assert (Hc : contains "." (stem ++ "." ++ extension) = true)
      by apply contains_app.
    rewrite contains_char, Hl in Hc. discriminate Hc.
  - destruct (after_last "." filename) as [extension|] eqn:Ha.
    + exists (name_in (lower extension) ALLOWED_EXTENSIONS). split; [reflexivity|].
      destruct (after_last_some _ _ _ Ha) as (stem & Hf & Hext).
      unfold ALLOWED_EXTENSIONS, name_in. cbn [existsb]. rewrite orb_false_r. split.
      * intros Hb. exists stem, extension. split; [exact Hf|]. split; [exact Hext|].
        apply orb_true_iff in Hb. destruct Hb as [Hb|Hb]; [left|right];
          apply String.eqb_eq; exact Hb.
      * intros (stem' & ext' & Hf' & Hext' & Hlow).
        assert (Hsame : extension = ext').
        { rewrite Hf' in Ha. change (stem' ++ "." ++ ext') with (stem' ++ String "." ext') in Ha.
          rewrite after_last_app in Ha.
          apply after_last_none in Hext'. rewrite Hext' in Ha.
          injection Ha as <-. reflexivity. }
        subst ext'. apply orb_true_iff.
        destruct Hlow as [-> | ->]; [left|right]; reflexivity.
    + apply after_last_none in Ha. rewrite Ha in Hl. discriminate Hl.
Qed.

Section ArtifactFacts.
Context {H : Host}.

Lemma basename_of_safe_path (output_dir s p : string) :
  _get_safe_path (VStr output_dir) (VStr s) = Ok p ->
  basename (VStr p) = Ok (last_component s).
Proof.
  unfold _get_safe_path, py_in, isabs, path_join, fspath, basename, last_component.
  destruct (contains ".." s); [discriminate|].
  destruct (startswith "/" s); [discriminate|].
  destruct (String.eqb output_dir "") eqn:He; cbn [orb].
  - apply String.eqb_eq in He. subst output_dir. intros [= <-]. reflexivity.
  - destruct (ends_with_char "/" output_dir) eqn:Hd; intros [= <-].
    + assert (Hsplit : exists a, output_dir = a ++ "/").
      { clear He. induction output_dir as [|x o IH]; [discriminate Hd|].
        destruct o as [|y o'].
        - cbn [ends_with_char] in Hd. apply Ascii.eqb_eq in Hd. subst x.
          exists EmptyString. reflexivity.
        - destruct (IH Hd) as [a Ha]. exists (String x a). cbn [append]. rewrite <- Ha.
          reflexivity. }
      destruct Hsplit as [a ->]. rewrite append_assoc. cbn [fspath].
      change ("/" ++ s) with (String "/" s). rewrite after_last_app. reflexivity.
    + cbn [fspath]. change ("/" ++ s) with (String "/" s).
      rewrite after_last_app. reflexivity.
Qed.

Lemma artifact_for_absent (d : pydict) (key : string) (make : string -> value) :
  dict_mem key d = false -> artifact_for d key make = Ok [].
Proof. intros Hk. unfold artifact_for. rewrite Hk, andb_false_r. reflexivity. Qed.

Lemma artifact_for_failed (d : pydict) (key : string) (make : string -> value) :
  truthy (match dict_get "success" d with Some v => v | None => VNone end) = false ->
  artifact_for d key make = Ok [].
Proof. intros Hs. unfold artifact_for. rewrite Hs. reflexivity. Qed.
End ArtifactFacts.

(** X23. Only successful observations give artifacts: an observation that
    is not a record, or whose [success] is missing or falsy, appends
    nothing; so the error observations of the dispatcher and of the loop
    never become download links. *)
Theorem failed_observations_give_no_artifact :
  forall (H : Host),
    (forall (observation : value),
       (forall d, observation = VDict d ->
                  truthy (match dict_get "success" d with Some v => v | None => VNone end)
                  = false) ->
       observation_artifacts observation = Ok [])
    /\ (forall (tool_name : value) (e : exn),
          observation_artifacts (failure_observation tool_name e) = Ok [])
    /\ (forall (name : string),
          observation_artifacts
            (VDict [("error", VStr ("Tool '" ++ name ++ "' does not exist."))]) = Ok []).
Proof.
  intros H. split; [|split].
  - intros observation Hobs. destruct observation; try reflexivity.
    unfold observation_artifacts.
    rewrite !(artifact_for_failed d _ _ (Hobs d eq_refl)). reflexivity.
  - intros tool_name e. reflexivity.
  - intros name. reflexivity.
Qed.

Lemma failed_observations_give_no_artifact_witness :
  observation_artifacts (VDict [("success", VBool false); ("output_file", VStr "/tmp/x.xlsx")])
  = Ok [].
Proof.
  exact (proj1 (failed_observations_give_no_artifact Stub.host)
           (VDict [("success", VBool false); ("output_file", VStr "/tmp/x.xlsx")])
           ltac:(intros d [= <-]; reflexivity)).
Defined.

(** X24. The artifact of a saved file names the last component of the path
    only: for a successful observation whose [output_file] is the path
    [_get_safe_path] returned for the filename [s], the one artifact is the
    file artifact of the last component of [s], at
    [/static/outputs/<last component>]; the component has no [/], and it is
    [s] itself exactly when [s] names no subdirectory. *)
Theorem saved_file_artifact :
  forall (H : Host) (output_dir s p : string) (d : pydict),
    _get_safe_path (VStr output_dir) (VStr s) = Ok p ->
    truthy (match dict_get "success" d with Some v => v | None => VNone end) = true ->
    dict_get "output_file" d = Some (VStr p) ->
    dict_mem "chart_path" d = false ->
    observation_artifacts (VDict d) = Ok [file_artifact (last_component s)]
    /\ lacks_char "/" (last_component s) = true
    /\ (lacks_char "/" s = true <-> last_component s = s).
Proof.
  intros H output_dir s p d Hp Hs Hf Hc. split; [|split].
  - unfold observation_artifacts. rewrite (artifact_for_absent d _ _ Hc).
    unfold artifact_for. rewrite Hs. unfold dict_mem. cbn [py_getitem]. rewrite Hf.
    cbn [andb]. rewrite (basename_of_safe_path output_dir s p Hp). reflexivity.
  - unfold last_component. destruct (after_last "/" s) as [t|] eqn:E.
    + exact (after_last_lacks _ _ _ E).
    + apply after_last_none. exact E.
  - unfold last_component. split.
    + intros Hl. apply after_last_none in Hl. rewrite Hl. reflexivity.
    + destruct (after_last "/" s) as [t|] eqn:E.
      * intros ->. exact (after_last_lacks _ _ _ E).
      * intros _. apply after_last_none. exact E.
Qed.

Lemma saved_file_artifact_witness :
  observation_artifacts
    (VDict [("success", VBool true);
            ("output_file", VStr "/srv/static/outputs/q1/sorted.xlsx")])
  = Ok [VDict [("type", VStr "file"); ("url", VStr "/static/outputs/sorted.xlsx");
               ("filename", VStr "sorted.xlsx")]].
Proof.
  exact (proj1 (saved_file_artifact Stub.host "/srv/static/outputs" "q1/sorted.xlsx"
                  "/srv/static/outputs/q1/sorted.xlsx"
                  [("success", VBool true);
                   ("output_file", VStr "/srv/static/outputs/q1/sorted.xlsx")]
                  eq_refl eq_refl eq_refl eq_refl)).
Defined.

Lemma run_agent_task_any_on_strings (H : Host) (user_input file_path : string)
    (chart_output_dir file_output_dir : string) (w : world) :
  run_agent_task_any (VStr user_input) (VStr file_path) chart_output_dir file_output_dir w
  = run_agent_task user_input file_path chart_output_dir file_output_dir w.
Proof. reflexivity. Qed.

(** X25. A request whose [prompt] or [file_path] is missing, [null] or
    empty is answered with status 400 and the fixed error body; the agent
    is not run: the world is as it was. *)
Theorem run_agent_rejects_incomplete_request :
  forall (H : Host) (W : WebHost) (d : pydict) (w : world),
    truthy (match dict_get "prompt" d with Some v => v | None => VNone end) = false
    \/ truthy (match dict_get "file_path" d with Some v => v | None => VNone end) = false ->
    run_agent (VDict d) w =
      (respond (jsonify (VDict [("error", VStr "Prompt and file_path are required.")])) 400,
       w).
Proof.
  intros H W d w Hd. unfold run_agent. cbn [py_get].
  destruct Hd as [Hd|Hd]; rewrite Hd; cbn [negb orb]; [reflexivity|].
  rewrite orb_true_r. reflexivity.
Qed.

Lemma run_agent_rejects_incomplete_request_witness :
  run_agent (H := Lab.host) (W := WebStub.web)
    (VDict [("prompt", VStr ""); ("file_path", VStr "uploads/data.xlsx")])
    (Stub.w0 [Stub.final_text])
  = (Ok (Stub.dumps_value (VDict [("error", VStr "Prompt and file_path are required.")]), 400),
     Stub.w0 [Stub.final_text]).
Proof.
  exact (run_agent_rejects_incomplete_request Lab.host WebStub.web
           [("prompt", VStr ""); ("file_path", VStr "uploads/data.xlsx")]
           (Stub.w0 [Stub.final_text]) (or_introl eq_refl)).
Defined.

Lemma basename_lacks_slash (s : string) :
  lacks_char "/" (last_component s) = true.
Proof.
  unfold last_component. destruct (after_last "/" s) as [t|] eqn:E.
  - exact (after_last_lacks _ _ _ E).
  - apply after_last_none. exact E.
Qed.

Lemma artifact_for_strings (d : pydict) (key prefix : string) (make : string -> value) :
  (forall v, dict_get key d = Some v -> exists s, v = VStr s) ->
  (forall n, artifact_url (make n) = Some (prefix ++ n)) ->
  exists arts,
    artifact_for d key make = Ok arts
    /\ List.length arts <= 1
    /\ (forall a, In a arts ->
          exists n, lacks_char "/" n = true /\ artifact_url a = Some (prefix ++ n)).
Proof.
  intros Hstr Hurl. unfold artifact_for.
  destruct (truthy _ && dict_mem key d) eqn:Hc.
  - apply andb_true_iff in Hc. destruct Hc as [_ Hm]. unfold dict_mem in Hm.
    cbn [py_getitem]. destruct (dict_get key d) as [v|] eqn:Hk; [|discriminate Hm].
    destruct (Hstr v eq_refl) as [s ->]. cbn [basename fspath].
    fold (last_component s). eexists. split; [reflexivity|]. split; [cbn; lia|].
    intros a [<-|[]]. exists (last_component s).
    split; [apply basename_lacks_slash|apply Hurl].
  - exists []. split; [reflexivity|]. split; [cbn; lia|]. intros a [].
Qed.

Lemma observation_artifacts_strings (o : value) :
  (forall d key v, o = VDict d -> key = "chart_path" \/ key = "output_file" ->
                   dict_get key d = Some v -> exists s, v = VStr s) ->
  exists arts,
    observation_artifacts o = Ok arts
    /\ List.length arts <= 2
    /\ (forall a, In a arts -> exists u, artifact_url a = Some u /\ flat_static_url u).
Proof.
  intros Hstr. destruct o; try (exists []; split; [reflexivity|]; split; [cbn; lia|];
                                 intros a []).
  unfold observation_artifacts.
  destruct (artifact_for_strings d "chart_path" "/static/charts/" chart_artifact)
    as (charts & -> & Hlc & Hc).
  { intros v Hv. exact (Hstr d "chart_path" v eq_refl (or_introl eq_refl) Hv). }
  { intros n. reflexivity. }
  destruct (artifact_for_strings d "output_file" "/static/outputs/" file_artifact)
    as (files & -> & Hlf & Hf).
  { intros v Hv. exact (Hstr d "output_file" v eq_refl (or_intror eq_refl) Hv). }
  { intros n. reflexivity. }
  eexists. split; [reflexivity|]. split; [rewrite length_app; lia|].
  intros a Ha. apply in_app_or in Ha. destruct Ha as [Ha|Ha].
  - destruct (Hc a Ha) as (n & Hn & Hu). eexists. split; [exact Hu|].
    exists n. split; [exact Hn|left; reflexivity].
  - destruct (Hf a Ha) as (n & Hn & Hu). eexists. split; [exact Hu|].
    exists n. split; [exact Hn|right; reflexivity].
Qed.

(** X26. When the [chart_path] and [output_file] values of the observations
    are strings, collecting the artifacts does not raise; there are at most
    two artifacts per observation, and the URL of each is
    [/static/charts/<name>] or [/static/outputs/<name>] for a name without
    [/]: a link never reaches below or outside the two folders by a
    longer path. *)
Theorem artifacts_are_flat_links :
  forall (observations : list value),
    paths_are_strings observations ->
    exists artifacts,
      collect_artifacts observations = Ok artifacts
      /\ List.length artifacts <= 2 * List.length observations
      /\ (forall a, In a artifacts ->
            exists u, artifact_url a = Some u /\ flat_static_url u).
Proof.
  unfold paths_are_strings.
  intros obs. induction obs as [|o rest IH]; intros Hstr.
  - exists []. split; [reflexivity|]. split; [cbn; lia|]. intros a [].
  - cbn [collect_artifacts].
    destruct (observation_artifacts_strings o) as (here & -> & Hlh & Hh).
    { intros d key v -> Hkey Hv. exact (Hstr d key v (or_introl eq_refl) Hkey Hv). }
    destruct IH as (later & -> & Hll & Hl).
    { intros d key v Hin Hkey Hv. exact (Hstr d key v (or_intror Hin) Hkey Hv). }
    eexists. split; [reflexivity|]. split.
    + rewrite length_app. cbn [List.length]. lia.
    + intros a Ha. apply in_app_or in Ha. destruct Ha as [Ha|Ha]; [exact (Hh a Ha)|exact (Hl a Ha)].
Qed.

Lemma artifacts_are_flat_links_witness :
  exists artifacts,
    collect_artifacts
      [VDict [("success", VBool true); ("output_file", VStr "/srv/static/outputs/q1/s.xlsx")];
       VDict [("error", VStr "Tool 'x' does not exist.")]]
    = Ok artifacts
    /\ List.length artifacts <= 2 * 2
    /\ (forall a, In a artifacts ->
          exists u, artifact_url a = Some u /\ flat_static_url u).
Proof.
  apply (artifacts_are_flat_links
           [VDict [("success", VBool true); ("output_file", VStr "/srv/static/outputs/q1/s.xlsx")];
            VDict [("error", VStr "Tool 'x' does not exist.")]]).
  intros d key v [[= <-]|[[= <-]|[]]] [-> | ->]; cbn [dict_get String.eqb];
    intros Hv; try discriminate Hv.
  injection Hv as <-. eexists. reflexivity.
Defined.

(** X27. For a request body that is a JSON object, [run_agent] always
    answers, with status 200, 400 or 500, as long as [jsonify] can render
    an error body: an exception that leaves [run_agent_task], or a failure
    while collecting the artifacts or rendering the result, becomes a 500
    reply with the error text. *)
Theorem run_agent_always_answers :
  forall (H : Host) (W : WebHost) (d : pydict) (w : world),
    (forall msg, exists text, jsonify (VDict [("error", VStr msg)]) = Ok text) ->
    exists text status,
      fst (run_agent (VDict d) w) = Ok (text, status)
      /\ (status = 200 \/ status = 400 \/ status = 500).
Proof.
  intros H W d w Hj. unfold run_agent. cbn [py_get].
  destruct (negb (truthy _) || negb (truthy _)).
  - destruct (Hj "Prompt and file_path are required.") as [text ->].
    exists text, 400. split; [reflexivity|]. right. left. reflexivity.
  - destruct (run_agent_task_any _ _ _ _ w) as [[r|e] m].
    + destruct (collect_artifacts (result_observations r)) as [artifacts|e].
      * destruct (jsonify (with_artifacts r artifacts)) as [text|e].
        -- exists text, 200. split; [reflexivity|]. left. reflexivity.
        -- destruct (Hj (exn_msg e)) as [text Ht]. cbn [fst]. rewrite Ht.
           exists text, 500. split; [reflexivity|]. right. right. reflexivity.
      * destruct (Hj (exn_msg e)) as [text Ht]. cbn [fst]. rewrite Ht.
        exists text, 500. split; [reflexivity|]. right. right. reflexivity.
    + destruct (Hj (exn_msg e)) as [text Ht]. cbn [fst]. rewrite Ht.
      exists text, 500. split; [reflexivity|]. right. right. reflexivity.
Qed.

Lemma run_agent_always_answers_witness :
  exists text status,
    fst (run_agent (H := Lab.host) (W := WebStub.web)
           (VDict [("prompt", VStr "tidy the workbook"); ("file_path", VStr "uploads/data.xlsx")])
           (Stub.w0 [Lab.sort_text; Stub.final_text]))
    = Ok (text, status)
    /\ (status = 200 \/ status = 400 \/ status = 500).
Proof.
  exact (run_agent_always_answers Lab.host WebStub.web
           [("prompt", VStr "tidy the workbook"); ("file_path", VStr "uploads/data.xlsx")]
           (Stub.w0 [Lab.sort_text; Stub.final_text])
           (fun msg => ex_intro _ _ eq_refl)).
Defined.


